(** * Persona-driven section ranking pipeline (src/main.py)

    A shallow embedding of the three stages of [main.py]
    (heading extraction, section ranking, sub-passage extraction) and of the
    driver loop [process_round_1b], with the properties stated about them.

    Modelling conventions.
    - A Python [str] is a [string]; its characters are the code points
      U+0000..U+00FF, and the character classes below ([isspace], the regex
      classes [\s] and [\w], [lower], [isupper]) are the ones CPython and
      its [re] module use on that range.
    - A Python [float] is a binary64 primitive [float]; [n * 0.7],
      [median_font * 1.1] and the comparisons are the IEEE operations.
    - A Python [set] is a [gset]; where the source iterates over a set, the
      iteration order is a parameter of the model.
    - PyMuPDF, the file system and the sentence-embedding model are external:
      an opened document is a list of pages, each of which is loaded or
      raises when it is loaded; the file system is a tree; the embedder is a
      Section variable.
    - [glob.glob] and [fnmatch] are those of CPython 3.11 on POSIX: the
      name of a folder that holds [*], [?] or [[] is read as a pattern. *)

From Stdlib Require Import Floats Uint63 ZArith Lia Ascii String.
From stdpp Require Import base option list strings gmap sets sorting.

Local Open Scope string_scope.
Local Open Scope list_scope.
Local Open Scope nat_scope.

(* 0.7, 0.9 and 1.1 are read as the nearest binary64 values, as Python
   reads them. *)
Set Warnings "-inexact-float,-register-all".

(** ** Python strings *)

Module Py.

Definition code (c : ascii) : N := N_of_ascii c.

Definition in_range (lo hi : N) (c : ascii) : bool :=
  ((lo <=? code c) && (code c <=? hi))%N.

(** [str.isspace] on one character; also the regex class [\s]. *)
Definition isspace (c : ascii) : bool :=
  in_range 9 13 c || in_range 28 32 c || (code c =? 133)%N || (code c =? 160)%N.

(** Upper-case and lower-case letters ([str.isupper] / [str.islower] on one
    character). *)
Definition is_upper_char (c : ascii) : bool :=
  in_range 65 90 c || in_range 192 214 c || in_range 216 222 c.

Definition is_lower_char (c : ascii) : bool :=
  in_range 97 122 c || (code c =? 170)%N || (code c =? 181)%N
  || (code c =? 186)%N || in_range 223 246 c || in_range 248 255 c.

(** The regex class [\w]: alphanumerics and the underscore. *)
Definition is_word_char (c : ascii) : bool :=
  in_range 48 57 c || in_range 65 90 c || (code c =? 95)%N
  || in_range 97 122 c || (code c =? 170)%N || in_range 178 179 c
  || (code c =? 181)%N || in_range 185 186 c || in_range 188 190 c
  || in_range 192 214 c || in_range 216 246 c || in_range 248 255 c.

Definition lower_char (c : ascii) : ascii :=
  if is_upper_char c then ascii_of_N (code c + 32) else c.

(** [s.lower()] *)
Fixpoint lower (s : string) : string :=
  match s with
  | EmptyString => EmptyString
  | String c r => String (lower_char c) (lower r)
  end.

(** [len(s)] *)
Definition len (s : string) : nat := String.length s.

Fixpoint lstrip (s : string) : string :=
  match s with
  | EmptyString => EmptyString
  | String c r => if isspace c then lstrip r else s
  end.

Fixpoint rstrip (s : string) : string :=
  match s with
  | EmptyString => EmptyString
  | String c r =>
      match rstrip r with
      | EmptyString => if isspace c then EmptyString else String c EmptyString
      | r' => String c r'
      end
  end.

(** [s.strip()] *)
Definition strip (s : string) : string := rstrip (lstrip s).

(** [s.split()]: the maximal runs of non-whitespace characters. [cur] is the
    run being read, reversed. *)
Fixpoint split_ws_go (cur : list ascii) (s : string) : list string :=
  match s with
  | EmptyString =>
      match cur with
      | [] => []
      | _ => [string_of_list_ascii (rev cur)]
      end
  | String c r =>
      if isspace c then
        match cur with
        | [] => split_ws_go [] r
        | _ => string_of_list_ascii (rev cur) :: split_ws_go [] r
        end
      else split_ws_go (c :: cur) r
  end.

Definition split_ws (s : string) : list string := split_ws_go [] s.

(** [s.split(sep)] for a non-empty separator: cut at every occurrence of [sep]
    found scanning from the left; [skip] counts the characters of a separator
    still to be passed over. *)
Fixpoint split_go (sep : string) (skip : nat) (cur : list ascii) (s : string)
  : list string :=
  match s with
  | EmptyString => [string_of_list_ascii (rev cur)]
  | String c r =>
      match skip with
      | S k => split_go sep k cur r
      | O =>
          if String.prefix sep s
          then string_of_list_ascii (rev cur)
               :: split_go sep (String.length sep - 1) [] r
          else split_go sep 0 (c :: cur) r
      end
  end.

Definition split (sep s : string) : list string := split_go sep 0 [] s.

(** [sep.join(l)] *)
Definition join (sep : string) (l : list string) : string := String.concat sep l.

(** [s.count(c)] for a one-character [c]. *)
Fixpoint count (c : ascii) (s : string) : nat :=
  match s with
  | EmptyString => 0
  | String d r => (if Ascii.eqb c d then 1 else 0) + count c r
  end.

Fixpoint existsb_char (p : ascii -> bool) (s : string) : bool :=
  match s with
  | EmptyString => false
  | String c r => p c || existsb_char p r
  end.

(** [s.isupper()]: at least one upper-case letter and no lower-case one (no
    character of the range is title-case). *)
Definition isupper (s : string) : bool :=
  negb (existsb_char is_lower_char s) && existsb_char is_upper_char s.

(** [s.endswith(c)] for a one-character [c]. *)
Fixpoint endswith (c : ascii) (s : string) : bool :=
  match s with
  | EmptyString => false
  | String d EmptyString => Ascii.eqb c d
  | String _ r => endswith c r
  end.

(** [suffix] is a suffix of [s]; used for file-name patterns. *)
Definition has_suffix (suffix s : string) : bool :=
  String.prefix (String.rev suffix) (String.rev s).

(** [sub in s] *)
Fixpoint contains (sub s : string) : bool :=
  String.prefix sub s ||
  match s with
  | EmptyString => false
  | String _ r => contains sub r
  end.

(** [re.sub(r'\s+', ' ', s)]: every maximal run of whitespace becomes one
    space. [in_ws] tells that the previous character was whitespace. *)
Fixpoint collapse_go (in_ws : bool) (s : string) : string :=
  match s with
  | EmptyString => EmptyString
  | String c r =>
      if isspace c
      then if in_ws then collapse_go true r else String " " (collapse_go true r)
      else String c (collapse_go false r)
  end.

Definition collapse_ws (s : string) : string := collapse_go false s.

(** [re.sub(r'[^\w\s]', '', s)]: drop what is neither a word character nor
    whitespace. *)
Fixpoint strip_punct (s : string) : string :=
  match s with
  | EmptyString => EmptyString
  | String c r =>
      if is_word_char c || isspace c then String c (strip_punct r)
      else strip_punct r
  end.

Definition is_sentence_end (c : ascii) : bool :=
  Ascii.eqb c "." || Ascii.eqb c "!" || Ascii.eqb c "?".

(** [re.split(r'(?<=[.!?])\s+', s)]: cut at every whitespace run that directly
    follows [.], [!] or [?]. [prev_end] tells that the previous character
    was one of the three, [skipping] that a separator run is being passed. *)
Fixpoint sentences_go (prev_end skipping : bool) (cur : list ascii) (s : string)
  : list string :=
  match s with
  | EmptyString => [string_of_list_ascii (rev cur)]
  | String c r =>
      if isspace c then
        if skipping then sentences_go false true cur r
        else if prev_end
             then string_of_list_ascii (rev cur) :: sentences_go false true [] r
             else sentences_go false false (c :: cur) r
      else sentences_go (is_sentence_end c) false (c :: cur) r
  end.

Definition split_sentences (s : string) : list string :=
  sentences_go false false [] s.

(** [os.path.basename(p)]: what follows the last slash. *)
Definition basename (p : string) : string :=
  default "" (last (split "/" p)).

(** [os.path.join(a, b)] for a relative [b]. *)
Definition path_join (a b : string) : string :=
  if String.eqb a "" then b
  else if endswith "/" a then a ++ b else a ++ "/" ++ b.

(** [os.path.splitext(name)[0]] for a name without slash: cut at the last
    dot, unless only dots come before it. *)
Definition splitext_root (name : string) : string :=
  let parts := split "." name in
  let stem := join "." (removelast parts) in
  if Nat.ltb (List.length parts) 2 then name
  else if existsb_char (fun c => negb (Ascii.eqb c ".")) stem then stem
  else name.

(** *** Shell patterns: [glob.has_magic] and [fnmatch]

    As CPython 3.11 reads them; on POSIX [fnmatch.filter], which [glob]
    uses, is [fnmatchcase] on every name. *)

(** [glob.has_magic(s)]: one of the characters [*], [?] and [[] occurs. *)
Definition has_magic (s : string) : bool :=
  existsb_char (fun c => Ascii.eqb c "*" || Ascii.eqb c "?" || Ascii.eqb c "[") s.

(** What [fnmatch.translate] (CPython 3.11) makes of a pattern: [*]; a
    single character that is any character ([?]), none, one of a set, or
    the character itself. A set is given by its members and its ranges. *)
Inductive glob_item :=
  | GStar
  | GAny
  | GNever
  | GSet (negated : bool) (members : list ascii) (ranges : list (ascii * ascii))
  | GChar (c : ascii).

(** What stands before the first []], when there is one. *)
Fixpoint until_close (body : list ascii) : option (list ascii) :=
  match body with
  | [] => None
  | c :: r => if Ascii.eqb c "]" then Some [] else cons c <$> until_close r
  end.

(** The text between [[] and the closing []], when there is one: a [!] and
    then a []] right after [[] do not close the set. *)
Definition bracket_stuff (after : list ascii) : option (list ascii) :=
  let bang := match after with "!"%char :: _ => 1 | _ => 0 end in
  let bracket := match drop bang after with "]"%char :: _ => 1 | _ => 0 end in
  let head := bang + bracket in
  app (take head after) <$> until_close (drop head after).

(** The pieces between the hyphens that make ranges. The search for a
    hyphen starts after the first character (after the second when the
    first is [!]) and, after a hyphen, leaves two characters out; a hyphen
    at the very end stays in the last piece. *)
Fixpoint chunks_go (cur : list ascii) (skip : nat) (stuff : list ascii)
  : list (list ascii) :=
  match stuff with
  | [] => [rev cur]
  | c :: r =>
      match skip with
      | S k => chunks_go (c :: cur) k r
      | O =>
          if Ascii.eqb c "-" then
            match r with
            | [] => [rev (c :: cur)]
            | _ => rev cur :: chunks_go [] 2 r
            end
          else chunks_go (c :: cur) 0 r
      end
  end.

Definition chunks (stuff : list ascii) : list (list ascii) :=
  chunks_go [] (match stuff with "!"%char :: _ => 2 | _ => 1 end) stuff.

(** A range whose first character is greater than its last is removed with
    both characters, and the two pieces become one. The pieces are gone
    through from the last to the first. *)
Definition merge_chunk (c : list ascii) (later : list (list ascii))
  : list (list ascii) :=
  match later with
  | [] => [c]
  | d :: rest =>
      match last c, d with
      | Some x, y :: d' =>
          if (code y <? code x)%N then (removelast c ++ d') :: rest
          else c :: later
      | _, _ => c :: later
      end
  end.

Definition drop_empty_ranges (cs : list (list ascii)) : list (list ascii) :=
  foldr merge_chunk [] cs.

(** The ranges between consecutive pieces: from the last character of a
    piece to the first of the next. *)
Fixpoint chunk_ranges (cs : list (list ascii)) : list (ascii * ascii) :=
  match cs with
  | c :: ((d :: _) as rest) =>
      match last c, d with
      | Some x, y :: _ => (x, y) :: chunk_ranges rest
      | _, _ => chunk_ranges rest
      end
  | _ => []
  end.

(** The set that a bracket expression stands for. What is left after the
    empty ranges are removed decides: nothing left matches no character, a
    lone [!] matches every character, a leading [!] negates the set. When
    the [!] was all of the first piece, the hyphen behind it is a member,
    not a range. *)
Definition class_of (stuff : list ascii) : glob_item :=
  match drop_empty_ranges (chunks stuff) with
  | [[]] => GNever
  | [["!"%char]] => GAny
  | ("!"%char :: first) :: rest =>
      match first with
      | [] => GSet true ("-"%char :: concat rest) (chunk_ranges rest)
      | _ => GSet true (concat (first :: rest)) (chunk_ranges (first :: rest))
      end
  | cs => GSet false (concat cs) (chunk_ranges cs)
  end.

(** [skip] characters are passed over: those of a bracket expression that
    has been read. A [[] that is not closed stands for itself. *)
Fixpoint translate_go (skip : nat) (pat : list ascii) : list glob_item :=
  match pat with
  | [] => []
  | c :: r =>
      match skip with
      | S k => translate_go k r
      | O =>
          if Ascii.eqb c "*" then GStar :: translate_go 0 r
          else if Ascii.eqb c "?" then GAny :: translate_go 0 r
          else if Ascii.eqb c "[" then
            match bracket_stuff r with
            | Some stuff => class_of stuff :: translate_go (S (length stuff)) r
            | None => GChar c :: translate_go 0 r
            end
          else GChar c :: translate_go 0 r
      end
  end.

Definition translate (pat : string) : list glob_item :=
  translate_go 0 (list_ascii_of_string pat).

Definition in_range_of (c : ascii) (r : ascii * ascii) : bool :=
  ((code r.1 <=? code c) && (code c <=? code r.2))%N.

Definition item_accepts (item : glob_item) (c : ascii) : bool :=
  match item with
  | GStar | GAny => true
  | GNever => false
  | GSet negated members ranges =>
      xorb negated (existsb (Ascii.eqb c) members || existsb (in_range_of c) ranges)
  | GChar d => Ascii.eqb c d
  end.

(** The whole of [name] is matched; [*] stands for any run of characters. *)
Fixpoint items_match (items : list glob_item) (name : list ascii) : bool :=
  match items with
  | [] => match name with [] => true | _ => false end
  | GStar :: rest =>
      (fix from (name : list ascii) : bool :=
         items_match rest name
         || match name with
            | [] => false
            | _ :: later => from later
            end) name
  | item :: rest =>
      match name with
      | [] => false
      | c :: later => item_accepts item c && items_match rest later
      end
  end.

(** [fnmatch.fnmatchcase(name, pat)] *)
Definition fnmatchcase (name pat : string) : bool :=
  items_match (translate pat) (list_ascii_of_string name).

End Py.

(** ** Python floats *)

Module PyFloat.

Definition of_nat (n : nat) : float := PrimFloat.of_uint63 (Uint63.of_Z (Z.of_nat n)).

(** [x > y], [x >= y] and [x == y] on floats. *)
Definition gt (x y : float) : bool := PrimFloat.ltb y x.
Definition ge (x y : float) : bool := PrimFloat.leb y x.
Definition eq (x y : float) : bool := PrimFloat.eqb x y.

(** [sum(l)]: additions from the left, starting from [0] (CPython up to
    3.11; later versions carry a compensation term along the additions). *)
Definition sum (l : list float) : float := fold_left PrimFloat.add l 0%float.

(** [max(l)] for a non-empty list [first :: rest]: the running maximum is
    replaced when an item is greater. *)
Definition max (first : float) (rest : list float) : float :=
  fold_left (fun m x => if gt x m then x else m) rest first.

Fixpoint insert_sorted (x : float) (l : list float) : list float :=
  match l with
  | [] => [x]
  | y :: r => if PrimFloat.leb x y then x :: l else y :: insert_sorted x r
  end.

Definition sorted (l : list float) : list float := foldr insert_sorted [] l.

(** [np.median(l)] for a non-empty list: the middle item of the sorted
    values, or the mean of the two middle items. *)
Definition median (l : list float) : float :=
  let s := sorted l in
  let n := length s in
  if Nat.even n
  then ((nth (n / 2 - 1) s 0 + nth (n / 2) s 0) / 2)%float
  else nth (n / 2) s 0%float.

End PyFloat.

(** ** Parsed documents

    What PyMuPDF reports for a page: [get_text("dict")["blocks"]] and
    [get_text("text")]. A block without the key ["lines"] (an image block) is
    [OtherBlock]. *)

Record Span := { span_text : string; span_size : float; span_flags : Z }.

Definition Line := list Span.

Inductive Block :=
  | TextBlock (lines : list Line)
  | OtherBlock.

Record Page := { page_blocks : list Block; page_plain_text : string }.

Definition Doc := list Page.

(** The document that [fitz.open] returns: for each page number, the page
    that [doc.load_page] and [page.get_text] give, or [None] when one of
    them raises (as on every page of an encrypted document, which
    [fitz.open] opens all the same). *)
Definition Document := list (option Page).

Definition block_lines (b : Block) : list Line :=
  match b with
  | TextBlock ls => ls
  | OtherBlock => []
  end.

(** The lines visited by [for b in blocks: ... for l in b["lines"]]. *)
Definition page_lines (p : Page) : list Line :=
  b ← page_blocks p; block_lines b.

(** ** HeadingExtractor: [extract_headings_and_pages] *)

Record SectionCandidate := {
  section_title : string;
  page_number : Z;
  pdf_path : string
}.

Definition positive_sizes (l : Line) : list float :=
  filter (fun s => PyFloat.gt s 0 = true) (span_size <$> l).

(** Lines 42-49: the positive span sizes of the page. *)
Definition page_font_sizes (p : Page) : list float :=
  l ← page_lines p; positive_sizes l.

(** Line 62 *)
Definition line_text (l : Line) : string :=
  Py.strip (Py.join " " ((fun sp => Py.strip (span_text sp)) <$> l)).

(** Line 80 *)
Definition avg_font_size (l : Line) : float :=
  (PyFloat.sum (positive_sizes l) / PyFloat.of_nat (length (positive_sizes l)))%float.

(** Line 81 *)
Definition is_bold (l : Line) : bool :=
  existsb (fun sp => negb (Z.land (span_flags sp) 2 =? 0)%Z) l.

(** Line 82 *)
Definition is_upper (l : Line) : bool := Py.isupper (line_text l).

(** Lines 85-90 *)
Definition is_heading (median_font max_font : float) (l : Line) : bool :=
  PyFloat.gt (avg_font_size l) (median_font * 1.1)%float
  || is_bold l
  || is_upper l
  || PyFloat.ge (avg_font_size l) (max_font * 0.9)%float.

(** Lines 63-73 and 77: the tests that make the loop skip a line. *)
Definition passes_filters (l : Line) : bool :=
  let line_text := line_text l in
  let words := Py.split_ws line_text in
  negb (String.eqb line_text "")
  && negb ((length words <? 1) || (20 <? length words))
  && negb ((3 <? Py.count "." line_text) || (5 <? Py.count "," line_text))
  && negb (bool_decide (positive_sizes l = [])).

Definition candidate (title : string) (page_num : nat) (path : string)
  : SectionCandidate :=
  {| section_title := title; page_number := (Z.of_nat page_num + 1)%Z; pdf_path := path |}.

(** Lines 58-97: one pass over the lines of the page, appending to
    [sections]. *)
Definition classify_lines (path : string) (page_num : nat)
    (median_font max_font : float) (ls : list Line)
    (sections : list SectionCandidate) : list SectionCandidate :=
  fold_left
    (fun secs l =>
       if passes_filters l && is_heading median_font max_font l
       then secs ++ [candidate (line_text l) page_num path]
       else secs)
    ls sections.

(** Lines 102-112: the loop over the first lines, left at the first line
    that is appended. *)
Fixpoint fallback_scan (lines : list string) : option string :=
  match lines with
  | [] => None
  | raw :: rest =>
      let line := Py.strip raw in
      if (10 <? Py.len line) && (2 <=? length (Py.split_ws line)) then
        if negb (Py.endswith "." line && (100 <? Py.len line))
        then Some line
        else fallback_scan rest
      else fallback_scan rest
  end.

(** Lines 100-112 *)
Definition fallback (path : string) (page_num : nat) (page_text : string)
    (sections : list SectionCandidate) : list SectionCandidate :=
  if (page_num =? 0)
     || (length (filter (fun s => page_number s = (Z.of_nat page_num + 1)%Z) sections) =? 0)
  then
    match fallback_scan (take 10 (Py.split (String "010" "") page_text)) with
    | Some line => sections ++ [candidate line page_num path]
    | None => sections
    end
  else sections.

(** Lines 35-112: the body of the loop over the pages. *)
Definition page_step (path : string) (sections : list SectionCandidate)
    (page_num : nat) (page : Page) : list SectionCandidate :=
  let page_text := Py.strip (page_plain_text page) in
  match page_font_sizes page with
  | [] => sections
  | first :: rest =>
      let median_font := PyFloat.median (first :: rest) in
      let max_font := PyFloat.max first rest in
      let sections := classify_lines path page_num median_font max_font
                        (page_lines page) sections in
      fallback path page_num page_text sections
  end.

(** Lines 34-112: [for page_num in range(len(doc))]. *)
Fixpoint pages_loop (path : string) (sections : list SectionCandidate)
    (page_num : nat) (pages : list Page) : list SectionCandidate :=
  match pages with
  | [] => sections
  | page :: rest =>
      pages_loop path (page_step path sections page_num page) (S page_num) rest
  end.

(** Line 119 (and 151): the title lower-cased, stripped, its whitespace
    runs collapsed. *)
Definition normalize_title (title : string) : string :=
  Py.collapse_ws (Py.strip (Py.lower title)).

Definition section_key (sec : SectionCandidate) : string * Z :=
  (normalize_title (section_title sec), page_number sec).

(** Lines 115-123 *)
Fixpoint unique_sections (seen : gset (string * Z)) (sections : list SectionCandidate)
  : list SectionCandidate :=
  match sections with
  | [] => []
  | sec :: rest =>
      if decide (section_key sec ∈ seen)
      then unique_sections seen rest
      else sec :: unique_sections ({[section_key sec]} ∪ seen) rest
  end.

(** The list [sections] when the loop over the pages ends. *)
Definition raw_sections (path : string) (doc : Doc) : list SectionCandidate :=
  pages_loop path [] 0 doc.

(** Lines 32-125, for the pages of a document that is opened and whose
    pages are all loaded. *)
Definition headings_of_doc (path : string) (doc : Doc) : list SectionCandidate :=
  unique_sections ∅ (raw_sections path doc).

(** ** Files

    The working directory is a tree; the entries of a directory are kept in
    the order in which the operating system lists them, which [glob.glob] and
    [os.walk] follow. A file carries what [fitz.open] makes of it ([None]:
    it raises; a page that is [None]: loading the page raises) and what
    [json.load] makes of it ([None]: it raises). *)

Inductive json :=
  | JNull
  | JBool (b : bool)
  | JInt (n : Z)
  | JFloat (x : float)
  | JStr (s : string)
  | JArr (items : list json)
  | JObj (fields : list (string * json)).

Record FileData := { fitz_doc : option Document; json_doc : option json }.

Inductive Node :=
  | File (d : FileData)
  | Dir (entries : list (string * Node)).

Definition lookup_entry {A} (name : string) (es : list (string * A)) : option A :=
  snd <$> List.find (fun e => String.eqb (fst e) name) es.

Fixpoint resolve_from (n : Node) (components : list string) : option Node :=
  match components with
  | [] => Some n
  | c :: cs =>
      match n with
      | Dir es => n' ← lookup_entry c es; resolve_from n' cs
      | File _ => None
      end
  end.

Definition resolve (fs : Node) (path : string) : option Node :=
  resolve_from fs (Py.split "/" path).

(** [os.path.exists(path)] *)
Definition path_exists (fs : Node) (path : string) : bool :=
  bool_decide (is_Some (resolve fs path)).

(** [fitz.open(path)]; [None] when it raises. *)
Definition fitz_open (fs : Node) (path : string) : option Document :=
  match resolve fs path with
  | Some (File d) => fitz_doc d
  | _ => None
  end.

(** [json.load(open(path))]; [None] when it raises. *)
Definition json_load (fs : Node) (path : string) : option json :=
  match resolve fs path with
  | Some (File d) => json_doc d
  | _ => None
  end.

Definition is_dir (n : Node) : bool :=
  match n with Dir _ => true | File _ => false end.

(** [glob._glob1(dir, "*" + ext)], each name joined to [dir]: the entries of
    the directory [dir] whose name ends with [ext] and does not start with a
    dot. *)
Definition glob_in_dir (fs : Node) (dir ext : string) : list string :=
  match resolve fs dir with
  | Some (Dir es) =>
      Py.path_join dir <$>
        filter (fun name => Py.has_suffix ext name = true
                            ∧ String.prefix "." name = false) (fst <$> es)
  | _ => []
  end.

(** [glob._glob1(dir, pattern, dironly=True)]: the directories in [dir]
    whose name the pattern matches, a name that starts with a dot only for a
    pattern that starts with one. The empty [dir] is the working
    directory. *)
Definition glob1_dirs (fs : Node) (dir pattern : string) : list string :=
  match (if String.eqb dir "" then Some fs else resolve fs dir) with
  | Some (Dir es) =>
      filter (fun name =>
                (String.prefix "." pattern || negb (String.prefix "." name))
                && Py.fnmatchcase name pattern = true)
             (fst <$> filter (fun e => is_dir e.2 = true) es)
  | _ => []
  end.

(** [glob._iglob(dir, dironly=True)] for a [dir] that holds a wildcard
    character, on the names of [dir] from the last to the first: the part
    before the last name stands for itself when it holds no wildcard
    character; in each directory it stands for, the last name is matched as
    a pattern, or looked for when it holds no wildcard character. *)
Fixpoint glob_dirs (fs : Node) (names_rev : list string) : list string :=
  match names_rev with
  | [] => [""]
  | basename :: dirname_rev =>
      let dirs :=
        if existsb Py.has_magic dirname_rev then glob_dirs fs dirname_rev
        else [Py.join "/" (rev dirname_rev)] in
      dirname ← dirs;
      if Py.has_magic basename
      then Py.path_join dirname <$> glob1_dirs fs dirname basename
      else if path_exists fs (Py.path_join dirname basename)
           then [Py.path_join dirname basename] else []
  end.

(** [glob.glob(os.path.join(dir, "*" + ext))], for a relative [dir] of names
    joined by slashes and an [ext] without wildcard character. A [dir]
    without wildcard character is listed as it is; a [dir] with one is read
    as a pattern, and every directory that it matches is listed. *)
Definition glob_ext (fs : Node) (dir ext : string) : list string :=
  if Py.has_magic dir
  then dirname ← glob_dirs fs (rev (Py.split "/" dir)); glob_in_dir fs dirname ext
  else glob_in_dir fs dir ext.

(** The names of the entries that are not directories. *)
Definition file_names (es : list (string * Node)) : list string :=
  fst <$> filter (fun e => is_dir (snd e) = false) es.

(** [os.walk(top)], top-down: each directory with the names of its files. *)
Fixpoint walk (top : string) (n : Node) : list (string * list string) :=
  match n with
  | File _ => []
  | Dir es =>
      (top, file_names es) ::
      (fix below (l : list (string * Node)) : list (string * list string) :=
         match l with
         | [] => []
         | (name, child) :: r => walk (Py.path_join top name) child ++ below r
         end) es
  end.

Definition os_walk (fs : Node) (top : string) : list (string * list string) :=
  match resolve fs top with
  | Some n => walk top n
  | None => []
  end.

Definition INPUT_JSON_DIR : string := "input".
Definition PDFS_DIR : string := "pdfs".
Definition RESULTS_DIR : string := "output".

(** What a call returns, or that it raised. *)
Inductive outcome (A : Type) :=
  | Returned (a : A)
  | Raised.
Arguments Returned {A} a.
Arguments Raised {A}.

(** Lines 34-112 on the document as [fitz.open] returns it: each round
    loads its page first (lines 35-39); when that raises, the function is
    left with the error, whatever [sections] holds. *)
Fixpoint pages_loop_loading (path : string) (sections : list SectionCandidate)
    (page_num : nat) (pages : Document) : outcome (list SectionCandidate) :=
  match pages with
  | [] => Returned sections
  | None :: _ => Raised
  | Some page :: rest =>
      pages_loop_loading path (page_step path sections page_num page) (S page_num) rest
  end.

(** Lines 27-125: nothing in the function catches what [fitz.open],
    [doc.load_page] or [page.get_text] raises. *)
Definition extract_headings_and_pages (fs : Node) (pdf_path : string)
  : outcome (list SectionCandidate) :=
  match fitz_open fs pdf_path with
  | None => Raised
  | Some doc =>
      match pages_loop_loading pdf_path [] 0 doc with
      | Raised => Raised
      | Returned sections => Returned (unique_sections ∅ sections)
      end
  end.

(** Lines 340-353: the loop over the documents of a request, each call in
    its own [try]. *)
Definition collect_sections (fs : Node) (pdf_files : list string)
  : list SectionCandidate :=
  fold_left
    (fun all_sections pdf_path =>
       match extract_headings_and_pages fs pdf_path with
       | Returned headings => all_sections ++ headings
       | Raised => all_sections
       end)
    pdf_files [].

(** ** Results *)

Record RankedSection := {
  rs_document : string;
  rs_section_title : string;
  importance_rank : Z;
  rs_page_number : Z
}.

(** An entry of [all_paragraphs]. *)
Record Passage := {
  document : string;
  pg_page_number : Z;
  refined_text : string;
  similarity_score : float
}.

(** An entry of [final_subsections]: the passage without its score. *)
Record FinalPassage := {
  fp_document : string;
  fp_page_number : Z;
  fp_refined_text : string
}.

Record Metadata := {
  input_documents : list string;
  persona : json;
  job_to_be_done : json;
  processing_timestamp : string
}.

Record PipelineResult := {
  metadata : Metadata;
  extracted_sections : list RankedSection;
  subsection_analysis : list FinalPassage
}.

(** [list.sort(key=key, reverse=True)]: a stable sort into descending order
    of the keys, which compares keys with [<] only. The items are inserted
    from the last to the first; an item goes past the items whose key is
    greater than its own, and stops before the others. On keys that are
    numbers (no NaN) every stable sort gives this list. *)
Fixpoint insert_desc {A} (key : A -> float) (x : A) (l : list A) : list A :=
  match l with
  | [] => [x]
  | y :: r =>
      if PrimFloat.ltb (key x) (key y) then y :: insert_desc key x r else x :: l
  end.

Definition sort_desc {A} (key : A -> float) (l : list A) : list A :=
  foldr (insert_desc key) [] l.

(** ** The stages that use the embedding model *)

Section Pipeline.

(** The sentence-embedding model and scikit-learn's cosine similarity. *)
Context {Vec : Type}.
Variable embed_text : string -> Vec.
Variable cosine_similarity : Vec -> Vec -> float.

(** [str(v)] of a value that is not a string. *)
Variable py_str : json -> string.

(** The order in which a [for] loop visits a set of strings. *)
Variable iter_set : gset string -> list string.

(** [datetime.now().isoformat()], read when the result of the request file
    is put together. *)
Variable now : string -> string.

(** How an f-string renders a value. *)
Definition to_str (v : json) : string :=
  match v with
  | JStr s => s
  | _ => py_str v
  end.

(** Lines 134-135 and 172 *)
Definition query_embedding (persona job : json) : Vec :=
  embed_text (to_str persona ++ " " ++ to_str job).

(** Lines 140-141 *)
Definition section_score (q : Vec) (sec : SectionCandidate) : float :=
  cosine_similarity q (embed_text (section_title sec)).

(** Lines 150-154: the loop body; the state is [seen_titles] and
    [top_sections]. *)
Definition top_step (st : gset string * list SectionCandidate)
    (item : SectionCandidate * float) : gset string * list SectionCandidate :=
  let title_normalized := normalize_title (section_title item.1) in
  if bool_decide (title_normalized ∉ st.1) && (length st.2 <? 5)
  then ({[title_normalized]} ∪ st.1, st.2 ++ [item.1])
  else st.

Definition to_ranked (i : nat) (sec : SectionCandidate) : RankedSection :=
  {| rs_document := Py.basename (pdf_path sec);
     rs_section_title := section_title sec;
     importance_rank := (Z.of_nat i + 1)%Z;
     rs_page_number := page_number sec |}.

(** Lines 136-145: the scored candidates, sorted. *)
Definition ranked_candidates (sections : list SectionCandidate)
    (persona job : json) : list (SectionCandidate * float) :=
  let q := query_embedding persona job in
  sort_desc snd ((fun sec => (sec, section_score q sec)) <$> sections).

(** Lines 148-154 *)
Definition top_sections (sections : list SectionCandidate)
    (persona job : json) : list SectionCandidate :=
  (fold_left top_step (ranked_candidates sections persona job) (∅, [])).2.

(** Lines 129-164 *)
Definition rank_sections (sections : list SectionCandidate)
    (persona job : json) : list RankedSection :=
  imap to_ranked (top_sections sections persona job).

(** *** SubsectionExtractor: [extract_subsections] *)

(** Lines 177-181: the first directory under [PDFS_DIR], in the order of
    [os.walk], that lists the name among its files. *)
Fixpoint find_pdf (doc_name : string) (dirs : list (string * list string))
  : option string :=
  match dirs with
  | [] => None
  | (root, files) :: rest =>
      if bool_decide (doc_name ∈ files)
      then Some (Py.path_join root doc_name)
      else find_pdf doc_name rest
  end.

(** Lines 207-211 *)
Definition paragraphs_by_double_newline (page_text : string) : list string :=
  filter (fun section => 20 < Py.len section)
         (Py.strip <$> Py.split (String "010" (String "010" "")) page_text).

(** Lines 218-228: the loop body; the state is [paragraphs] and
    [current_paragraph]. *)
Definition line_step (st : list string * list string) (line : string)
  : list string * list string :=
  if 5 <? Py.len line then
    let current_paragraph := st.2 ++ [line] in
    if Py.endswith "." line || Py.endswith "!" line || Py.endswith "?" line
       || (150 <? Py.len (Py.join " " current_paragraph))
    then
      if 0 <? length current_paragraph then
        let para_text := Py.strip (Py.join " " current_paragraph) in
        (if 30 <? Py.len para_text then st.1 ++ [para_text] else st.1, [])
      else (st.1, current_paragraph)
    else (st.1, current_paragraph)
  else st.

(** Lines 214-234 *)
Definition paragraphs_by_lines (page_text : string) (paragraphs : list string)
  : list string :=
  let lines := filter (fun line => line ≠ "")
                 (Py.strip <$> Py.split (String "010" "") page_text) in
  let st := fold_left line_step lines (paragraphs, []) in
  match st.2 with
  | [] => st.1
  | _ =>
      let para_text := Py.strip (Py.join " " st.2) in
      if 30 <? Py.len para_text then st.1 ++ [para_text] else st.1
  end.

(** Lines 204-234 *)
Definition page_paragraphs (page_text : string) : list string :=
  let paragraphs := paragraphs_by_double_newline page_text in
  if length paragraphs <? 2 then paragraphs_by_lines page_text paragraphs
  else paragraphs.

(** Lines 248-256: sentences are taken until one is empty or would bring
    the total to 500 characters. *)
Fixpoint take_sentences (total_length : nat) (sentences : list string)
  : list string :=
  match sentences with
  | [] => []
  | raw :: rest =>
      let sentence := Py.strip raw in
      if negb (String.eqb sentence "") && (total_length + Py.len sentence <? 500)
      then sentence :: take_sentences (total_length + Py.len sentence) rest
      else []
  end.

(** Lines 238-261: the refined text of a paragraph, when it is scored. *)
Definition refine (paragraph : string) : option string :=
  if Py.len (Py.strip paragraph) <? 30 then None
  else
    let cleaned_text := Py.strip (Py.collapse_ws paragraph) in
    let refined_sentences := take_sentences 0 (Py.split_sentences cleaned_text) in
    match refined_sentences with
    | [] => None
    | _ =>
        let refined_text := Py.strip (Py.join " " refined_sentences) in
        if 15 <? Py.len refined_text then Some refined_text else None
    end.

(** Lines 263-271 *)
Definition scored (q : Vec) (path : string) (page_num : Z) (text : string)
  : Passage :=
  {| document := Py.basename path;
     pg_page_number := (page_num + 1)%Z;
     refined_text := text;
     similarity_score := cosine_similarity q (embed_text text) |}.

(** Lines 176-275: what one ranked section adds to [all_paragraphs];
    nothing when the [for] body is left by [continue], which the [except]
    branch does when [fitz.open] or [doc.load_page] raises. *)
Definition section_passages (fs : Node) (q : Vec) (sec : RankedSection)
  : list Passage :=
  match find_pdf (rs_document sec) (os_walk fs PDFS_DIR) with
  | None => []
  | Some path =>
      match fitz_open fs path with
      | None => []
      | Some doc =>
          let page_num := (rs_page_number sec - 1)%Z in
          if (page_num <? 0)%Z || (Z.of_nat (length doc) <=? page_num)%Z then []
          else
            match doc !! Z.to_nat page_num with
            | Some (Some page) =>
                scored q path page_num <$>
                  omap refine (page_paragraphs (page_plain_text page))
            | _ => []
            end
      end
  end.

(** Lines 173-275 *)
Definition all_paragraphs (fs : Node) (q : Vec)
    (ranked_sections : list RankedSection) : list Passage :=
  fold_left (fun acc sec => acc ++ section_passages fs q sec) ranked_sections [].

(** Lines 286-287 *)
Definition normalize_text (text : string) : string :=
  Py.strip (Py.collapse_ws (Py.strip_punct (Py.lower text))).

(** [len(set(a.split()) & set(b.split()))] *)
Definition token_overlap (a b : string) : nat :=
  size ((list_to_set (Py.split_ws a) : gset string) ∩ list_to_set (Py.split_ws b)).

(** Lines 292-294: the test made on a candidate and one seen text. *)
Definition near_duplicate (normalized_text seen_text : string) : bool :=
  (20 <? Py.len normalized_text)
  && (Py.contains normalized_text seen_text
      || Py.contains seen_text normalized_text
      || PyFloat.gt (PyFloat.of_nat (token_overlap normalized_text seen_text))
           (PyFloat.of_nat (length (Py.split_ws normalized_text)) * 0.7)%float).

(** Line 301 *)
Definition without_score (para : Passage) : FinalPassage :=
  {| fp_document := document para;
     fp_page_number := pg_page_number para;
     fp_refined_text := refined_text para |}.

(** Lines 284-302: the loop body; the state is [seen_texts] and
    [final_subsections]. *)
Definition select_step (st : gset string * list FinalPassage) (para : Passage)
  : gset string * list FinalPassage :=
  let normalized_text := normalize_text (refined_text para) in
  let is_duplicate := existsb (near_duplicate normalized_text) (iter_set st.1) in
  if negb is_duplicate && (length st.2 <? 5)
  then ({[normalized_text]} ∪ st.1, st.2 ++ [without_score para])
  else st.

(** Lines 278-304: the final selection, from the collected passages. *)
Definition select_passages (paragraphs : list Passage) : list FinalPassage :=
  (fold_left select_step (sort_desc similarity_score paragraphs) (∅, [])).2.

(** Lines 168-304 *)
Definition extract_subsections (fs : Node) (ranked_sections : list RankedSection)
    (persona job : json) : list FinalPassage :=
  select_passages (all_paragraphs fs (query_embedding persona job) ranked_sections).

(** *** The driver: [process_round_1b] *)

(** Lines 317-329. [persona_data.get] raises when the value is not a
    dictionary. The fields of an object are the items of the dictionary. *)
Definition read_request (persona_data : json) : outcome (json * json) :=
  match persona_data with
  | JObj fields =>
      let persona := default (JStr "") (lookup_entry "persona" fields) in
      let persona :=
        match persona with
        | JObj pf => default persona (lookup_entry "role" pf)
        | _ => persona
        end in
      let job :=
        match lookup_entry "job" fields with
        | Some j => j
        | None =>
            match lookup_entry "job_to_be_done" fields with
            | Some (JObj jf as jtbd) =>
                default (JStr (to_str jtbd)) (lookup_entry "task" jf)
            | Some jtbd => JStr (to_str jtbd)
            | None => JStr ""
            end
        end in
      Returned (persona, job)
  | _ => Raised
  end.

(** Lines 312-386: the body of the loop over the request files; the file
    written and its content, or [None] when the body is left without
    writing. *)
Definition process_request (fs : Node) (persona_file : string)
  : option (string * PipelineResult) :=
  match json_load fs persona_file with
  | None => None
  | Some persona_data =>
      match read_request persona_data with
      | Raised => None
      | Returned (persona, job) =>
          let file_prefix := Py.splitext_root (Py.basename persona_file) in
          let pdf_folder := Py.path_join PDFS_DIR file_prefix in
          if negb (path_exists fs pdf_folder) then None
          else
            let pdf_files := glob_ext fs pdf_folder ".pdf" in
            match pdf_files with
            | [] => None
            | _ =>
                let all_sections := collect_sections fs pdf_files in
                match all_sections with
                | [] => None
                | _ =>
                    let ranked_sections := rank_sections all_sections persona job in
                    let subsections :=
                      extract_subsections fs ranked_sections persona job in
                    Some (Py.path_join RESULTS_DIR (file_prefix ++ ".json"),
                          {| metadata :=
                               {| input_documents := Py.basename <$> pdf_files;
                                  persona := persona;
                                  job_to_be_done := job;
                                  processing_timestamp := now persona_file |};
                             extracted_sections := ranked_sections;
                             subsection_analysis := subsections |})
                end
            end
      end
  end.

(** Lines 311-386: the files written, in order, for a list of request
    files. *)
Definition process_files (fs : Node) (persona_files : list string)
  : list (string * PipelineResult) :=
  fold_left
    (fun written persona_file =>
       match process_request fs persona_file with
       | Some w => written ++ [w]
       | None => written
       end)
    persona_files [].

(** Lines 308-386 *)
Definition process_round_1b (fs : Node) : list (string * PipelineResult) :=
  process_files fs (glob_ext fs INPUT_JSON_DIR ".json").

End Pipeline.

(** ** Predicates used in the statements *)

(** A float that is not a NaN: it is equal to itself. *)
Definition is_number (x : float) : Prop := PyFloat.eq x x = true.

(** The fallback title test in the words of the specification: longer than
    10 characters, at least 2 words, and not both ending with a period and
    longer than 100 characters. *)
Definition fallback_qualifies (line : string) : bool :=
  (10 <? Py.len line) && (2 <=? length (Py.split_ws line))
  && negb (Py.endswith "." line && (100 <? Py.len line)).

(** The near-duplicate test in the words of the specification: either text
    contains the other, or the token-set overlap exceeds 70% of the
    candidate's token count and the text is longer than 20 characters. *)
Definition near_duplicate_as_stated (normalized_text seen_text : string) : bool :=
  Py.contains normalized_text seen_text
  || Py.contains seen_text normalized_text
  || (PyFloat.gt (PyFloat.of_nat (token_overlap normalized_text seen_text))
        (PyFloat.of_nat (length (Py.split_ws normalized_text)) * 0.7)%float
      && (20 <? Py.len normalized_text)).

(** ** Sample data for the examples *)

Definition boundary_span (size : float) : Span :=
  {| span_text := "plain body line"; span_size := size; span_flags := 0 |}.

(** A first page with plain text and no span. *)
Definition untyped_page : Page :=
  {| page_blocks := []; page_plain_text := "Introduction to Testing" |}.

(** A first page with one typeset line; its second plain-text line is the
    first that can serve as a fallback title. *)
Definition report_page : Page :=
  {| page_blocks :=
       [TextBlock [[{| span_text := "Annual Report"; span_size := 12; span_flags := 0 |}]]];
     page_plain_text :=
       "Page 1" ++ String "010" "Overview of the fiscal year" ++ String "010" "Contents" |}.

(** A file that [fitz.open] rejects, next to one that it opens and reads,
    and an encrypted file of one page: it is opened, and its page cannot be
    loaded. *)
Definition broken_pdf : Node := File {| fitz_doc := None; json_doc := None |}.

Definition report_pdf : Node :=
  File {| fitz_doc := Some [Some report_page]; json_doc := None |}.

Definition locked_pdf : Node :=
  File {| fitz_doc := Some [None]; json_doc := None |}.

Definition sample_tree : Node :=
  Dir [("pdfs", Dir [("a", Dir [("broken.pdf", broken_pdf); ("report.pdf", report_pdf);
                                ("locked.pdf", locked_pdf)])])].

(** An embedder for the examples: the vector of a text is the text, and the
    score of a text is higher when it mentions a report. *)
Definition sample_cosine (query text : string) : float :=
  if Py.contains "report" (Py.lower text) then 0.9%float else 0.5%float.

(** A caption whose normalized text, ["fig 1 a b c d e"], has 15 characters. *)
Definition caption : string := "Fig. 1 -- (a), (b), (c), (d), (e)!!".

Definition caption_passage (page : Z) : Passage :=
  {| document := "x.pdf"; pg_page_number := page; refined_text := caption;
     similarity_score := 0.5 |}.

Definition caption_passages : list Passage :=
  [caption_passage 1; caption_passage 2].

(** Two request folders that hold a file of the same name. *)
Definition caption_page (text : string) : Page :=
  {| page_blocks :=
       [TextBlock [[{| span_text := "Results"; span_size := 12; span_flags := 0 |}]]];
     page_plain_text := text |}.

Definition first_folder_text : string :=
  "The first folder holds this paragraph of its own report.".

Definition second_folder_text : string :=
  "The second folder holds another paragraph entirely.".

Definition two_folders : Node :=
  Dir [("pdfs",
        Dir [("a", Dir [("x.pdf", File {| fitz_doc := Some [Some (caption_page first_folder_text)];
                                          json_doc := None |})]);
             ("b", Dir [("x.pdf", File {| fitz_doc := Some [Some (caption_page second_folder_text)];
                                          json_doc := None |})])])].

Definition section_of (doc_name : string) : RankedSection :=
  {| rs_document := doc_name; rs_section_title := "Results";
     importance_rank := 1; rs_page_number := 1 |}.

(** What is written for a request, the time stamp left out. *)
Definition without_timestamp (w : string * PipelineResult)
  : string * (list string * json * json) * list RankedSection * list FinalPassage :=
  (w.1,
   (input_documents (metadata w.2), persona (metadata w.2),
    job_to_be_done (metadata w.2)),
   extracted_sections w.2,
   subsection_analysis w.2).

(** A request with its documents and a request whose folder is missing. *)
Definition request_file : Node :=
  File {| fitz_doc := None;
          json_doc := Some (JObj [("persona", JObj [("role", JStr "Analyst")]);
                                  ("job_to_be_done", JObj [("task", JStr "Read the report")])]) |}.

Definition library_tree : Node :=
  Dir [("input", Dir [("a.json", request_file); ("b.json", request_file)]);
       ("pdfs", Dir [("a", Dir [("report.pdf", report_pdf)])])].

Definition sample_candidates : list SectionCandidate :=
  [candidate "Overview" 0 "pdfs/a/report.pdf";
   candidate "Annual Report" 0 "pdfs/a/report.pdf";
   candidate "Contents" 1 "pdfs/a/report.pdf";
   candidate "annual  report" 2 "pdfs/a/report.pdf"].

(** ** Predicates used in the proofs *)

(** The candidate was added for a page before the page with index [n]. *)
Definition before_page (n : nat) (s : SectionCandidate) : Prop :=
  (page_number s <= Z.of_nat n)%Z.

(** The candidate at position [i] is kept when its key is neither in [seen]
    nor the key of one of the [i] candidates before it. *)
Definition keep_first (seen : gset (string * Z)) (secs : list SectionCandidate)
    (i : nat) (s : SectionCandidate) : option SectionCandidate :=
  if decide (section_key s ∈ seen ∨ section_key s ∈ section_key <$> take i secs)
  then None else Some s.

(** No item is followed, at any distance, by an item with a greater key. *)
Definition descending {A} (key : A -> float) (l : list A) : Prop :=
  StronglySorted (fun a b => PrimFloat.ltb (key a) (key b) = false) l.

(** What holds of [seen_titles] and [top_sections] all along the loop of
    [rank_sections]. *)
Definition top_invariant (st : gset string * list SectionCandidate) : Prop :=
  (forall t, t ∈ st.1 <-> t ∈ (fun sec => normalize_title (section_title sec)) <$> st.2)
  /\ NoDup ((fun sec => normalize_title (section_title sec)) <$> st.2)
  /\ length st.2 <= 5.

(** What holds of [seen_texts] and [final_subsections] all along the loop of
    [extract_subsections]. *)
Definition selection_invariant (st : gset string * list FinalPassage) : Prop :=
  (forall t, t ∈ st.1 <-> t ∈ (fun p => normalize_text (fp_refined_text p)) <$> st.2)
  /\ length st.2 <= 5
  /\ StronglySorted
       (fun kept later =>
          near_duplicate (normalize_text (fp_refined_text later))
            (normalize_text (fp_refined_text kept)) = false)
       st.2.


(** ** Predicates of the further properties *)

(** A candidate of the document at [path] with [N] pages: its title is
    stripped and has a word at least. *)
Definition well_formed_candidate (path : string) (N : nat) (s : SectionCandidate)
  : Prop :=
  pdf_path s = path
  /\ (1 <= page_number s <= Z.of_nat N)%Z
  /\ 1 <= length (Py.split_ws (section_title s))
  /\ Py.strip (section_title s) = section_title s.

(** The set of the normalized titles of a list of candidates. *)
Definition title_set (secs : list SectionCandidate) : gset string :=
  list_to_set ((fun sec => normalize_title (section_title sec)) <$> secs).

(** What holds of [seen_titles] and [top_sections] when the candidates gone
    through so far have the normalized titles [titles]. *)
Definition count_invariant (titles : gset string)
    (st : gset string * list SectionCandidate) : Prop :=
  st.1 ⊆ titles
  /\ (length st.2 < 5 -> st.1 = titles)
  /\ size st.1 = length st.2
  /\ length st.2 <= 5.

(** A collected passage of the report, for the examples. *)
Definition report_passage (page : Z) (text : string) : Passage :=
  {| document := "report.pdf"; pg_page_number := page; refined_text := text;
     similarity_score := sample_cosine "Analyst Read the report" text |}.

(** What is written for the first request of [library_tree], at the time
    [stamp]. *)
Definition report_result (stamp : string) : PipelineResult :=
  {| metadata :=
       {| input_documents := ["report.pdf"];
          persona := JStr "Analyst";
          job_to_be_done := JStr "Read the report";
          processing_timestamp := stamp |};
     extracted_sections :=
       [{| rs_document := "report.pdf"; rs_section_title := "Annual Report";
           importance_rank := 1; rs_page_number := 1 |};
        {| rs_document := "report.pdf";
           rs_section_title := "Overview of the fiscal year";
           importance_rank := 2; rs_page_number := 1 |}];
     subsection_analysis :=
       [{| fp_document := "report.pdf"; fp_page_number := 1;
           fp_refined_text := "Page 1 Overview of the fiscal year Contents" |}] |}.

(** A request file that holds a list, not an object; its documents are in
    place. *)
Definition list_request_tree : Node :=
  Dir [("input", Dir [("a.json", File {| fitz_doc := None; json_doc := Some (JArr []) |})]);
       ("pdfs", Dir [("a", Dir [("report.pdf", report_pdf)])])].

(** A request whose folder is there and holds no document. *)
Definition empty_folder_tree : Node :=
  Dir [("input", Dir [("a.json", request_file)]);
       ("pdfs", Dir [("a", Dir [("notes.txt", broken_pdf)])])].

(** A request whose documents are a file that is not opened and an encrypted
    file. *)
Definition unreadable_tree : Node :=
  Dir [("input", Dir [("a.json", request_file)]);
       ("pdfs", Dir [("a", Dir [("broken.pdf", broken_pdf); ("locked.pdf", locked_pdf)])])].

(** A request file whose name holds a bracket expression: its folder
    [pdfs/c[3]] is there and is empty, and a folder [pdfs/c3] holds a
    document. *)
Definition wildcard_tree : Node :=
  Dir [("input", Dir [("c[3].json", request_file)]);
       ("pdfs", Dir [("c[3]", Dir []); ("c3", Dir [("report.pdf", report_pdf)])])].

(** The file written for a request file. *)
Definition output_path (persona_file : string) : string :=
  Py.path_join RESULTS_DIR (Py.splitext_root (Py.basename persona_file) ++ ".json").

(** * Properties *)

(** ** Comparisons of binary64 values *)

Module FloatFacts.

Lemma SFcompare_swap (a b : spec_float) :
  SFcompare b a = CompOpp <$> SFcompare a b.
Proof.
  destruct a as [sa|sa| |sa ma ea], b as [sb|sb| |sb mb eb]; simpl;
    try reflexivity;
    try (destruct sa; reflexivity);
    try (destruct sb; reflexivity);
    try (destruct sa, sb; reflexivity).
  destruct sa, sb; simpl; try reflexivity;
    rewrite (Z.compare_antisym ea eb);
    destruct (ea ?= eb)%Z; simpl; try reflexivity;
    rewrite (Pos.compare_cont_antisym ma mb Eq); simpl;
    rewrite ?CompOpp_involutive; reflexivity.
Qed.

Lemma eqb_not_gt (x y : float) : PyFloat.eq x y = true -> PyFloat.gt x y = false.
Proof.
  unfold PyFloat.eq, PyFloat.gt.
  rewrite FloatAxioms.eqb_spec, FloatAxioms.ltb_spec.
  unfold SFeqb, SFltb. rewrite (SFcompare_swap (Prim2SF x) (Prim2SF y)).
  destruct (SFcompare (Prim2SF x) (Prim2SF y)) as [[]|]; simpl; congruence.
Qed.



Ltac cmp_cases :=
  repeat match goal with
  | H : context [Pos.compare_cont Eq ?p ?q] |- _ =>
      change (Pos.compare_cont Eq p q) with (Pos.compare p q) in H
  | |- context [Pos.compare_cont Eq ?p ?q] =>
      change (Pos.compare_cont Eq p q) with (Pos.compare p q)
  end;
  repeat match goal with
  | H : context [Z.compare ?a ?b] |- _ => destruct (Z.compare_spec a b); simpl in H
  | H : context [Pos.compare ?a ?b] |- _ => destruct (Pos.compare_spec a b); simpl in H
  | |- context [Z.compare ?a ?b] => destruct (Z.compare_spec a b); simpl
  | |- context [Pos.compare ?a ?b] => destruct (Pos.compare_spec a b); simpl
  end.

Lemma SFcompare_not_lt_trans (a b c : spec_float) :
  b <> S754_nan ->
  SFcompare a b <> Some Lt -> SFcompare b c <> Some Lt -> SFcompare a c <> Some Lt.
Proof.
  intros Hb Hab Hbc.
  destruct a as [sa|sa| |sa ma ea]; try (intros ?; discriminate);
  destruct c as [sc|sc| |sc mc ec]; try (destruct sa; simpl; intros ?; discriminate);
  destruct b as [sb|sb| |sb mb eb]; try congruence;
  destruct sa, sb, sc; simpl in *; try congruence;
  cmp_cases; subst; try congruence; try lia.
Qed.

Lemma is_number_spec (x : float) : is_number x -> Prim2SF x <> S754_nan.
Proof.
  unfold is_number, PyFloat.eq. rewrite FloatAxioms.eqb_spec.
  intros H E. rewrite E in H. discriminate.
Qed.

Lemma not_lt_trans (x y z : float) :
  is_number y ->
  PrimFloat.ltb x y = false -> PrimFloat.ltb y z = false -> PrimFloat.ltb x z = false.
Proof.
  intros Hy%is_number_spec. rewrite !FloatAxioms.ltb_spec. unfold SFltb.
  intros Hxy Hyz.
  pose proof (SFcompare_not_lt_trans (Prim2SF x) (Prim2SF y) (Prim2SF z) Hy) as T.
  destruct (SFcompare (Prim2SF x) (Prim2SF y)) as [[]|] eqn:E1; try discriminate;
  destruct (SFcompare (Prim2SF y) (Prim2SF z)) as [[]|] eqn:E2; try discriminate;
  destruct (SFcompare (Prim2SF x) (Prim2SF z)) as [[]|] eqn:E3; try reflexivity;
  exfalso; apply T; congruence.
Qed.

Lemma not_lt_ge (x y : float) :
  is_number x -> is_number y -> PrimFloat.ltb x y = false -> PyFloat.ge x y = true.
Proof.
  intros Hx%is_number_spec Hy%is_number_spec. unfold PyFloat.ge.
  rewrite FloatAxioms.ltb_spec, FloatAxioms.leb_spec. unfold SFltb, SFleb.
  rewrite (SFcompare_swap (Prim2SF x) (Prim2SF y)).
  destruct (Prim2SF x) as [sa|sa| |sa ma ea]; try congruence;
  destruct (Prim2SF y) as [sb|sb| |sb mb eb]; try congruence;
  match goal with
  | |- context [SFcompare ?a ?b] => destruct (SFcompare a b) as [[]|] eqn:E
  end; simpl; try congruence;
  try (destruct sa; discriminate); try (destruct sb; discriminate).
Qed.

Lemma SFcompare_eq_eq (a b k : spec_float) :
  SFcompare a k = Some Eq -> SFcompare b k = Some Eq -> SFcompare a b = Some Eq.
Proof.
  destruct a as [sa|sa| |sa ma ea]; try discriminate;
  destruct k as [sk|sk| |sk mk ek]; try discriminate;
  destruct b as [sb|sb| |sb mb eb]; try discriminate;
  try (destruct sa; discriminate); try (destruct sb; discriminate);
  destruct sa, sb, sk; simpl; try congruence;
  intros Ha Hb; cmp_cases; subst; try congruence; try lia.
Qed.

Lemma eq_eq_not_lt (x y k : float) :
  PyFloat.eq x k = true -> PyFloat.eq y k = true -> PrimFloat.ltb x y = false.
Proof.
  unfold PyFloat.eq. rewrite !FloatAxioms.eqb_spec, FloatAxioms.ltb_spec.
  unfold SFeqb, SFltb. intros Hx Hy.
  rewrite (SFcompare_eq_eq (Prim2SF x) (Prim2SF y) (Prim2SF k)); [done| |].
  - by destruct (SFcompare (Prim2SF x) (Prim2SF k)) as [[]|].
  - by destruct (SFcompare (Prim2SF y) (Prim2SF k)) as [[]|].
Qed.

End FloatFacts.

(** ** HeadingExtractor *)




(** The same boundary on decimal values: 11 is not greater than the product
    [10 * 1.1], and 9 is equal to the product [10 * 0.9]. *)
Example heading_boundary_in_decimals :
  is_heading 10 20 [boundary_span 11] = false
  /\ is_heading 9 10 [boundary_span 9] = true.
Proof. split; vm_compute; reflexivity. Qed.

(** *** The loops append to [sections] *)

Local Abbreviation on_page n :=
  (fun s : SectionCandidate => page_number s = (Z.of_nat n + 1)%Z).

Lemma classify_lines_app path n m M ls secs :
  classify_lines path n m M ls secs = secs ++ classify_lines path n m M ls [].
Proof.
  unfold classify_lines. revert secs.
  induction ls as [|l ls IH]; intros secs; simpl.
  - by rewrite app_nil_r.
  - destruct (passes_filters l && is_heading m M l).
    + rewrite (IH (secs ++ _)), (IH [_]). by rewrite <- app_assoc.
    + apply IH.
Qed.

Lemma classify_lines_on_page path n m M ls :
  Forall (on_page n) (classify_lines path n m M ls []).
Proof.
  induction ls as [|l ls IH]; simpl.
  - constructor.
  - unfold classify_lines in *. simpl.
    destruct (passes_filters l && is_heading m M l); [|exact IH].
    fold (classify_lines path n m M ls [candidate (line_text l) n path]).
    rewrite classify_lines_app. apply Forall_app. split; [|exact IH].
    repeat constructor.
Qed.

Lemma filter_on_page_none n (secs : list SectionCandidate) :
  Forall (fun s => ¬ on_page n s) secs -> filter (on_page n) secs = [].
Proof.
  induction 1 as [|s secs Hs _ IH]; [done|].
  by rewrite filter_cons_False.
Qed.

Lemma filter_on_page_all n (secs : list SectionCandidate) :
  Forall (on_page n) secs -> filter (on_page n) secs = secs.
Proof.
  induction 1 as [|s secs Hs _ IH]; [done|].
  rewrite filter_cons_True by done. by rewrite IH.
Qed.

(** The test of line 100 looks at the whole list; what earlier pages added
    does not count. *)
Lemma fallback_app path n text old new :
  Forall (fun s => ¬ on_page n s) old ->
  fallback path n text (old ++ new) = old ++ fallback path n text new.
Proof.
  intros Hold. unfold fallback.
  rewrite filter_app, (filter_on_page_none n old Hold). simpl.
  destruct ((n =? 0) || (length (filter (on_page n) new) =? 0)); [|done].
  destruct (fallback_scan _); [|done].
  by rewrite <- app_assoc.
Qed.

Lemma fallback_on_page path n text new :
  Forall (on_page n) new -> Forall (on_page n) (fallback path n text new).
Proof.
  intros H. unfold fallback.
  destruct (_ || _); [|done].
  destruct (fallback_scan _); [|done].
  apply Forall_app. split; [done|]. repeat constructor.
Qed.

Lemma page_step_app path secs n page :
  Forall (fun s => ¬ on_page n s) secs ->
  page_step path secs n page = secs ++ page_step path [] n page.
Proof.
  intros Hs. unfold page_step.
  destruct (page_font_sizes page) as [|first rest]; [by rewrite app_nil_r|].
  rewrite classify_lines_app. by apply fallback_app.
Qed.

Lemma page_step_on_page path n page :
  Forall (on_page n) (page_step path [] n page).
Proof.
  unfold page_step.
  destruct (page_font_sizes page) as [|first rest]; [constructor|].
  apply fallback_on_page, classify_lines_on_page.
Qed.

Lemma before_page_not_on n m s : n <= m -> before_page n s -> ¬ on_page m s.
Proof. unfold before_page. lia. Qed.

(** What the page with index [n + i] adds is what is found with its page
    number when the loop ends. *)
Lemma pages_loop_filter path pages :
  forall n secs i page,
    Forall (before_page n) secs ->
    pages !! i = Some page ->
    filter (on_page (n + i)) (pages_loop path secs n pages)
    = page_step path [] (n + i) page.
Proof.
  induction pages as [|p pages IH]; intros n secs i page Hsecs Hi; [done|].
  simpl.
  assert (Hnot : Forall (fun s => ¬ on_page n s) secs).
  { eapply Forall_impl; [exact Hsecs|]. intros s. by apply before_page_not_on. }
  rewrite (page_step_app _ _ _ _ Hnot).
  assert (Hnext : Forall (before_page (S n)) (secs ++ page_step path [] n p)).
  { apply Forall_app. split.
    - eapply Forall_impl; [exact Hsecs|]. unfold before_page. lia.
    - eapply Forall_impl; [apply page_step_on_page|].
      unfold before_page. simpl. lia. }
  destruct i as [|i]; simpl in Hi.
  - injection Hi as ->. rewrite Nat.add_0_r.
    clear IH Hsecs. revert Hnext Hnot.
    generalize (page_step_on_page path n page).
    generalize (page_step path [] n page) as new.
    intros new Hnew Hnext Hnot.
    assert (G : forall l acc k,
               Forall (before_page k) acc -> n < k ->
               filter (on_page n) (pages_loop path acc k l) = filter (on_page n) acc).
    { induction l as [|q l IHl]; intros acc k Hacc Hk; [done|].
      simpl.
      assert (Hn : Forall (fun s => ¬ on_page k s) acc).
      { eapply Forall_impl; [exact Hacc|]. intros s. by apply before_page_not_on. }
      rewrite (page_step_app _ _ _ _ Hn).
      rewrite IHl.
      - rewrite filter_app. rewrite (filter_on_page_none n (page_step path [] k q)).
        + by rewrite app_nil_r.
        + eapply Forall_impl; [apply page_step_on_page|].
          simpl. lia.
      - apply Forall_app. split.
        + eapply Forall_impl; [exact Hacc|]. unfold before_page. lia.
        + eapply Forall_impl; [apply page_step_on_page|].
          unfold before_page. simpl. lia.
      - lia. }
    rewrite G by (done || lia).
    rewrite filter_app, (filter_on_page_none n secs Hnot). simpl.
    by apply filter_on_page_all.
  - replace (n + S i) with (S n + i) by lia.
    by apply IH.
Qed.

Lemma raw_sections_page path doc i page :
  doc !! i = Some page ->
  filter (on_page i) (raw_sections path doc) = page_step path [] i page.
Proof.
  intros Hi. unfold raw_sections.
  by apply (pages_loop_filter path doc 0 [] i page).
Qed.

(** *** Removal of repeated keys *)

Lemma unique_sections_sublist seen secs :
  unique_sections seen secs `sublist_of` secs.
Proof.
  revert seen. induction secs as [|s secs IH]; intros seen; simpl.
  - constructor.
  - destruct (decide (section_key s ∈ seen)).
    + apply sublist_cons, IH.
    + apply sublist_skip, IH.
Qed.

Lemma unique_sections_fresh seen secs s :
  s ∈ unique_sections seen secs -> section_key s ∉ seen.
Proof.
  revert seen. induction secs as [|x secs IH]; intros seen; simpl.
  - intros H. by apply elem_of_nil in H.
  - destruct (decide (section_key x ∈ seen)) as [Hin|Hout].
    + apply IH.
    + intros [-> | H]%elem_of_cons; [done|].
      apply IH in H. intros Hc. by apply H, elem_of_union_r.
Qed.

Lemma unique_sections_NoDup seen secs :
  NoDup (section_key <$> unique_sections seen secs).
Proof.
  revert seen. induction secs as [|x secs IH]; intros seen; simpl.
  - constructor.
  - destruct (decide (section_key x ∈ seen)) as [Hin|Hout]; [apply IH|].
    rewrite fmap_cons. constructor; [|apply IH].
    intros H. apply list_elem_of_fmap in H as (s & Hk & Hs).
    apply unique_sections_fresh in Hs. apply Hs. rewrite <- Hk.
    apply elem_of_union_l. by apply elem_of_singleton.
Qed.

Lemma unique_sections_complete seen secs s :
  s ∈ secs ->
  section_key s ∈ seen ∨ section_key s ∈ section_key <$> unique_sections seen secs.
Proof.
  revert seen. induction secs as [|x secs IH]; intros seen Hs.
  - by apply elem_of_nil in Hs.
  - simpl. apply elem_of_cons in Hs as [-> | Hs].
    + destruct (decide (section_key x ∈ seen)); [by left|].
      right. rewrite fmap_cons. apply elem_of_cons. by left.
    + destruct (decide (section_key x ∈ seen)); [by apply IH|].
      destruct (IH ({[section_key x]} ∪ seen) Hs) as [H|H].
      * apply elem_of_union in H as [H|H]; [|by left].
        apply elem_of_singleton in H. right. rewrite fmap_cons, H.
        apply elem_of_cons. by left.
      * right. rewrite fmap_cons. apply elem_of_cons. by right.
Qed.

Lemma unique_sections_positions seen secs :
  unique_sections seen secs = omap id (imap (keep_first seen secs) secs).
Proof.
  revert seen. induction secs as [|x secs IH]; intros seen; [done|].
  cbn [unique_sections].
  assert (Htail : forall seen',
            (forall k, k ∈ seen' <-> k ∈ seen ∨ k = section_key x) ->
            imap (keep_first seen' secs) secs
            = imap (keep_first seen (x :: secs) ∘ S) secs).
  { intros seen' Hseen. apply imap_ext. intros i s _.
    unfold keep_first, compose. cbn [take fmap list_fmap].
    apply decide_ext. rewrite Hseen, elem_of_cons. tauto. }
  assert (H0 : keep_first seen (x :: secs) 0 x
               = if decide (section_key x ∈ seen) then None else Some x).
  { unfold keep_first. cbn [take fmap list_fmap]. apply decide_ext.
    split; [|by left]. intros [H|H]; [done|]. by apply elem_of_nil in H. }
  change (imap (keep_first seen (x :: secs)) (x :: secs))
    with (keep_first seen (x :: secs) 0 x
          :: imap (keep_first seen (x :: secs) ∘ S) secs).
  rewrite H0.
  destruct (decide (section_key x ∈ seen)) as [Hin|Hout]; cbn [omap list_omap id].
  - rewrite IH. f_equal. apply Htail. intros k. split; [tauto|].
    intros [H| ->]; done.
  - f_equal. rewrite IH. f_equal. apply Htail. intros k.
    rewrite elem_of_union, elem_of_singleton. tauto.
Qed.

(** C6. The list returned for a document has no two candidates with the same
    (normalized title, page number) key, and it is made of the candidates met
    by the page loop, each kept at its place when no candidate before it has
    its key: the candidates come in the order in which their keys are first
    seen, and every key that was seen is kept once. *)
Theorem headings_unique_first_seen (path : string) (doc : Doc) :
  let raw := raw_sections path doc in
  let out := headings_of_doc path doc in
  NoDup (section_key <$> out)
  /\ out = omap id (imap (fun i s =>
             if decide (section_key s ∈ section_key <$> take i raw)
             then None else Some s) raw)
  /\ (forall s, s ∈ raw -> section_key s ∈ section_key <$> out).
Proof.
  intros raw out. subst out. unfold headings_of_doc. fold raw.
  assert (Hpos : unique_sections ∅ raw
                 = omap id (imap (fun i s =>
                     if decide (section_key s ∈ section_key <$> take i raw)
                     then None else Some s) raw)).
  { rewrite unique_sections_positions. f_equal. apply imap_ext.
    intros i s _. unfold keep_first. apply decide_ext.
    split; [|by right]. intros [H|H]; [|done]. by apply not_elem_of_empty in H. }
  split; [apply unique_sections_NoDup|]. split; [exact Hpos|].
  intros s Hs.
  destruct (unique_sections_complete ∅ raw s Hs) as [H|H]; [|exact H].
  by apply not_elem_of_empty in H.
Qed.

Lemma headings_from_raw path doc s :
  s ∈ headings_of_doc path doc -> s ∈ raw_sections path doc.
Proof.
  unfold headings_of_doc. intros H.
  eapply elem_of_sublist; [exact H|apply unique_sections_sublist].
Qed.

(** C10. A page whose spans report no positive font size adds nothing: the
    loop body leaves [sections] as it was, so neither the classification pass
    nor the fallback scan runs, and no candidate of the document carries the
    number of that page, whether it is the first page or has plain text. *)
Theorem page_without_font_size_adds_nothing
    (path : string) (doc : Doc) (i : nat) (page : Page) :
  doc !! i = Some page ->
  page_font_sizes page = [] ->
  (forall sections, page_step path sections i page = sections)
  /\ filter (fun s => page_number s = (Z.of_nat i + 1)%Z) (raw_sections path doc) = []
  /\ Forall (fun s => page_number s <> (Z.of_nat i + 1)%Z) (headings_of_doc path doc).
Proof.
  intros Hi Hsizes.
  assert (Hstep : forall sections, page_step path sections i page = sections).
  { intros sections. unfold page_step. by rewrite Hsizes. }
  assert (Hraw : filter (fun s => page_number s = (Z.of_nat i + 1)%Z)
                   (raw_sections path doc) = []).
  { rewrite (raw_sections_page path doc i page Hi). apply Hstep. }
  split; [exact Hstep|]. split; [exact Hraw|].
  apply Forall_forall. intros s Hs Hnum.
  apply headings_from_raw in Hs.
  assert (Hin : s ∈ filter (fun s => page_number s = (Z.of_nat i + 1)%Z)
                  (raw_sections path doc)).
  { apply list_elem_of_filter. by split. }
  rewrite Hraw in Hin. by apply elem_of_nil in Hin.
Qed.

Lemma page_without_font_size_adds_nothing_witness :
  (forall sections, page_step "a.pdf" sections 0 untyped_page = sections)
  /\ filter (fun s => page_number s = (Z.of_nat 0 + 1)%Z)
       (raw_sections "a.pdf" [untyped_page]) = []
  /\ Forall (fun s => page_number s <> (Z.of_nat 0 + 1)%Z)
       (headings_of_doc "a.pdf" [untyped_page]).
Proof.
  apply (page_without_font_size_adds_nothing "a.pdf" [untyped_page] 0 untyped_page);
    reflexivity.
Defined.

(** *** The fallback scan *)

Lemma fallback_scan_qualifies raw rest :
  fallback_scan (raw :: rest)
  = if fallback_qualifies (Py.strip raw) then Some (Py.strip raw)
    else fallback_scan rest.
Proof.
  unfold fallback_qualifies. cbn [fallback_scan].
  destruct (10 <? Py.len (Py.strip raw));
    destruct (2 <=? length (Py.split_ws (Py.strip raw)));
    cbn [andb]; try reflexivity.
Qed.

Lemma fallback_scan_first lines :
  match fallback_scan lines with
  | Some line =>
      exists before after,
        Py.strip <$> lines = before ++ line :: after
        /\ Forall (fun x => fallback_qualifies x = false) before
        /\ fallback_qualifies line = true
  | None => Forall (fun x => fallback_qualifies x = false) (Py.strip <$> lines)
  end.
Proof.
  induction lines as [|raw rest IH].
  - simpl. constructor.
  - rewrite fallback_scan_qualifies, fmap_cons.
    destruct (fallback_qualifies (Py.strip raw)) eqn:Hq.
    + exists [], (Py.strip <$> rest). by repeat split.
    + destruct (fallback_scan rest) as [line|].
      * destruct IH as (before & after & Heq & Hbefore & Hline).
        exists (Py.strip raw :: before), after.
        split; [by rewrite Heq|]. split; [by constructor|done].
      * by constructor.
Qed.

(** C7, as far as the code goes. On a page with at least one positive span
    size that is the first page of the document or for which the
    classification pass gave no candidate, the candidates of the page are
    those of the classification pass followed by one fallback candidate: the
    first of the page's first 10 plain-text lines (stripped) that is longer
    than 10 characters, has at least 2 words, and does not both end with a
    period and exceed 100 characters. When no such line is among the 10,
    nothing is added; no later line is ever added. *)
Theorem fallback_takes_first_qualifying_line
    (path : string) (doc : Doc) (i : nat) (page : Page) (first : float)
    (rest : list float) :
  doc !! i = Some page ->
  page_font_sizes page = first :: rest ->
  let headings :=
    classify_lines path i (PyFloat.median (first :: rest)) (PyFloat.max first rest)
      (page_lines page) [] in
  i = 0 \/ headings = [] ->
  let lines :=
    Py.strip <$> take 10 (Py.split (String "010" "") (Py.strip (page_plain_text page))) in
  let emitted :=
    filter (fun s => page_number s = (Z.of_nat i + 1)%Z) (raw_sections path doc) in
  (exists before line after,
      lines = before ++ line :: after
      /\ Forall (fun x => fallback_qualifies x = false) before
      /\ fallback_qualifies line = true
      /\ emitted = headings ++ [candidate line i path])
  \/ (Forall (fun x => fallback_qualifies x = false) lines /\ emitted = headings).
Proof.
  intros Hi Hsizes headings Hcase lines emitted.
  assert (Hem : emitted
                = match fallback_scan (take 10 (Py.split (String "010" "")
                                          (Py.strip (page_plain_text page)))) with
                  | Some line => headings ++ [candidate line i path]
                  | None => headings
                  end).
  { subst emitted. rewrite (raw_sections_page path doc i page Hi).
    unfold page_step. rewrite Hsizes. fold headings. unfold fallback.
    assert (Hc : (i =? 0)
                 || (length (filter (fun s => page_number s = (Z.of_nat i + 1)%Z)
                               headings) =? 0) = true).
    { destruct Hcase as [-> | Hnone]; [done|]. rewrite Hnone. apply orb_true_r. }
    by rewrite Hc. }
  pose proof (fallback_scan_first (take 10 (Py.split (String "010" "")
                                     (Py.strip (page_plain_text page))))) as Hscan.
  fold lines in Hscan.
  destruct (fallback_scan _) as [line|].
  - left. destruct Hscan as (before & after & H1 & H2 & H3).
    by exists before, line, after.
  - by right.
Qed.

Lemma fallback_takes_first_qualifying_line_witness :
  let headings :=
    classify_lines "a.pdf" 0 (PyFloat.median [12%float]) (PyFloat.max 12 [])
      (page_lines report_page) [] in
  let lines :=
    Py.strip <$> take 10 (Py.split (String "010" "")
                            (Py.strip (page_plain_text report_page))) in
  let emitted :=
    filter (fun s => page_number s = (Z.of_nat 0 + 1)%Z)
      (raw_sections "a.pdf" [report_page]) in
  (exists before line after,
      lines = before ++ line :: after
      /\ Forall (fun x => fallback_qualifies x = false) before
      /\ fallback_qualifies line = true
      /\ emitted = headings ++ [candidate line 0 "a.pdf"])
  \/ (Forall (fun x => fallback_qualifies x = false) lines /\ emitted = headings).
Proof.
  apply (fallback_takes_first_qualifying_line "a.pdf" [report_page] 0 report_page
           12%float []);
    [reflexivity | vm_compute; reflexivity | left; reflexivity].
Defined.

(** C7 as it is worded covers every first page. The first page of this
    document has no positive span size; its first plain-text line meets the
    three conditions, and no candidate is made of it. *)
Lemma fallback_on_every_first_page_fails :
  ([untyped_page] : Doc) !! 0 = Some untyped_page
  /\ Py.strip <$> take 10 (Py.split (String "010" "")
                             (Py.strip (page_plain_text untyped_page)))
     = ["Introduction to Testing"]
  /\ fallback_qualifies "Introduction to Testing" = true
  /\ raw_sections "a.pdf" [untyped_page] = []
  /\ ~ (forall (path : string) (doc : Doc) (page : Page),
          doc !! 0 = Some page ->
          forall before line after,
            Py.strip <$> take 10 (Py.split (String "010" "")
                                    (Py.strip (page_plain_text page)))
            = before ++ line :: after ->
            Forall (fun x => fallback_qualifies x = false) before ->
            fallback_qualifies line = true ->
            candidate line 0 path ∈ raw_sections path doc).
Proof.
  split; [reflexivity|]. split; [reflexivity|]. split; [reflexivity|].
  split; [reflexivity|].
  intros H.
  specialize (H "a.pdf" [untyped_page] untyped_page eq_refl
                [] "Introduction to Testing" [] eq_refl (Forall_nil_2 _) eq_refl).
  change (raw_sections "a.pdf" [untyped_page]) with (@nil SectionCandidate) in H.
  by apply elem_of_nil in H.
Qed.

(** *** Failure of [fitz.open] *)

Lemma collect_sections_acc fs files acc :
  fold_left
    (fun all_sections pdf_path =>
       match extract_headings_and_pages fs pdf_path with
       | Returned headings => all_sections ++ headings
       | Raised => all_sections
       end) files acc
  = acc ++ collect_sections fs files.
Proof.
  unfold collect_sections. revert acc.
  induction files as [|f files IH]; intros acc; cbn [fold_left].
  - by rewrite app_nil_r.
  - rewrite IH, (IH (match extract_headings_and_pages fs f with
                     | Returned headings => [] ++ headings
                     | Raised => []
                     end)).
    destruct (extract_headings_and_pages fs f); [|done].
    by rewrite app_assoc.
Qed.

Lemma collect_sections_app fs files1 files2 :
  collect_sections fs (files1 ++ files2)
  = collect_sections fs files1 ++ collect_sections fs files2.
Proof.
  unfold collect_sections at 1. rewrite fold_left_app.
  apply collect_sections_acc.
Qed.

Lemma collect_sections_cons fs f files :
  collect_sections fs (f :: files)
  = match extract_headings_and_pages fs f with
    | Returned headings => headings
    | Raised => []
    end ++ collect_sections fs files.
Proof.
  change (f :: files) with ([f] ++ files). rewrite collect_sections_app.
  reflexivity.
Qed.

(** When every page is loaded, the loop over the pages ends with the
    candidates of the pages. *)
Lemma pages_loop_loading_all (path : string) (doc : Doc) :
  forall sections page_num,
    pages_loop_loading path sections page_num (Some <$> doc)
    = Returned (pages_loop path sections page_num doc).
Proof.
  induction doc as [|page doc IH]; intros sections page_num; [done|].
  cbn [fmap list_fmap pages_loop_loading pages_loop]. apply IH.
Qed.

(** When a page cannot be loaded, the loop is left with the error. *)
Lemma pages_loop_loading_raises (path : string) (opened : Document) :
  None ∈ opened ->
  forall sections page_num,
    pages_loop_loading path sections page_num opened = Raised.
Proof.
  induction opened as [|page opened IH]; intros Hin sections page_num.
  - by apply elem_of_nil in Hin.
  - destruct page as [page|]; [|done].
    cbn [pages_loop_loading]. apply IH.
    by apply elem_of_cons in Hin as [|].
Qed.

(** A loop that ends has loaded every page. *)
Lemma pages_loop_loading_returned (path : string) (opened : Document) :
  forall sections page_num found,
    pages_loop_loading path sections page_num opened = Returned found ->
    exists doc,
      opened = Some <$> doc /\ found = pages_loop path sections page_num doc.
Proof.
  induction opened as [|page opened IH]; intros sections page_num found Hloop.
  - exists []. cbn [pages_loop_loading] in Hloop. by injection Hloop as <-.
  - destruct page as [page|]; [|done].
    cbn [pages_loop_loading] in Hloop.
    destruct (IH _ _ _ Hloop) as (doc & -> & ->). by exists (page :: doc).
Qed.

Lemma extract_returned (fs : Node) (pdf_path : string)
    (headings : list SectionCandidate) :
  extract_headings_and_pages fs pdf_path = Returned headings ->
  exists doc,
    fitz_open fs pdf_path = Some (Some <$> doc)
    /\ headings = headings_of_doc pdf_path doc.
Proof.
  unfold extract_headings_and_pages.
  destruct (fitz_open fs pdf_path) as [opened|]; [|done].
  destruct (pages_loop_loading pdf_path [] 0 opened) as [found|] eqn:Hloop; [|done].
  intros Hret. injection Hret as <-.
  apply pages_loop_loading_returned in Hloop as (doc & -> & ->).
  by exists doc.
Qed.

(** C2, as far as the code goes. [extract_headings_and_pages] catches
    nothing: it raises when [fitz.open] raises, and when the document is
    opened and one of its pages cannot be loaded, whatever the pages before
    it gave. When the parser raises at neither, it returns the ordered list
    of candidates of the pages. The caller catches the error, skips the
    document and goes on with the other documents of the request. *)
Theorem extract_raises_when_open_fails (fs : Node) (pdf_path : string) :
  (fitz_open fs pdf_path = None ->
   extract_headings_and_pages fs pdf_path = Raised)
  /\ (forall opened,
        fitz_open fs pdf_path = Some opened -> None ∈ opened ->
        extract_headings_and_pages fs pdf_path = Raised)
  /\ (forall doc,
        fitz_open fs pdf_path = Some (Some <$> doc) ->
        extract_headings_and_pages fs pdf_path
        = Returned (headings_of_doc pdf_path doc))
  /\ (extract_headings_and_pages fs pdf_path = Raised ->
      forall before after,
        collect_sections fs (before ++ pdf_path :: after)
        = collect_sections fs (before ++ after)).
Proof.
  split; [|split; [|split]].
  - intros Hopen. unfold extract_headings_and_pages. by rewrite Hopen.
  - intros opened Hopen Hpage. unfold extract_headings_and_pages.
    by rewrite Hopen, (pages_loop_loading_raises pdf_path opened Hpage).
  - intros doc Hopen. unfold extract_headings_and_pages.
    by rewrite Hopen, pages_loop_loading_all.
  - intros Hraised before after.
    by rewrite !collect_sections_app, collect_sections_cons, Hraised.
Qed.

Lemma extract_raises_when_open_fails_witness :
  extract_headings_and_pages sample_tree "pdfs/a/broken.pdf" = Raised
  /\ extract_headings_and_pages sample_tree "pdfs/a/locked.pdf" = Raised
  /\ extract_headings_and_pages sample_tree "pdfs/a/report.pdf"
     = Returned (headings_of_doc "pdfs/a/report.pdf" [report_page])
  /\ collect_sections sample_tree ([] ++ "pdfs/a/locked.pdf" :: ["pdfs/a/report.pdf"])
     = collect_sections sample_tree ([] ++ ["pdfs/a/report.pdf"]).
Proof.
  split; [|split; [|split]].
  - apply (proj1 (extract_raises_when_open_fails sample_tree "pdfs/a/broken.pdf")).
    reflexivity.
  - apply (proj1 (proj2 (extract_raises_when_open_fails sample_tree "pdfs/a/locked.pdf"))
             [None]).
    + reflexivity.
    + apply list_elem_of_here.
  - apply (proj1 (proj2 (proj2 (extract_raises_when_open_fails sample_tree
                                  "pdfs/a/report.pdf")))).
    reflexivity.
  - apply (proj2 (proj2 (proj2 (extract_raises_when_open_fails sample_tree
                                  "pdfs/a/locked.pdf")))).
    reflexivity.
Defined.

(** C2 as it is worded: the extractor never raises. It raises on a file that
    [fitz.open] rejects. *)
Lemma extract_never_raises_fails :
  fitz_open sample_tree "pdfs/a/broken.pdf" = None
  /\ extract_headings_and_pages sample_tree "pdfs/a/broken.pdf" = Raised
  /\ ~ (forall (fs : Node) (pdf_path : string),
          exists sections, extract_headings_and_pages fs pdf_path = Returned sections).
Proof.
  split; [reflexivity|]. split; [reflexivity|].
  intros H. destruct (H sample_tree "pdfs/a/broken.pdf") as [sections Hs].
  vm_compute in Hs. discriminate.
Qed.

(** ** Sorting by score *)

Section SortDesc.

Context {A : Type} (key : A -> float).

Lemma insert_desc_perm x l : insert_desc key x l ≡ₚ x :: l.
Proof.
  induction l as [|y l IH]; simpl; [done|].
  destruct (PrimFloat.ltb (key x) (key y)); [|done].
  rewrite IH. apply Permutation_swap.
Qed.

Lemma sort_desc_perm l : sort_desc key l ≡ₚ l.
Proof.
  induction l as [|x l IH]; simpl; [done|].
  fold (sort_desc key l). by rewrite insert_desc_perm, IH.
Qed.

Lemma insert_desc_descending x l :
  (forall y, y ∈ x :: l -> is_number (key y)) ->
  descending key l -> descending key (insert_desc key x l).
Proof.
  intros Hnum. unfold descending.
  induction 1 as [|y l Hl IH Hy]; simpl.
  - repeat constructor.
  - destruct (PrimFloat.ltb (key x) (key y)) eqn:Hxy.
    + constructor.
      * apply IH. intros z Hz. apply Hnum.
        apply elem_of_cons in Hz as [-> | Hz]; [by left|].
        by right; right.
      * apply Forall_forall. intros z Hz.
        rewrite insert_desc_perm in Hz.
        apply elem_of_cons in Hz as [-> | Hz].
        -- rewrite FloatAxioms.ltb_spec in Hxy |- *. unfold SFltb in *.
           rewrite (FloatFacts.SFcompare_swap (Prim2SF (key x)) (Prim2SF (key y))).
           by destruct (SFcompare (Prim2SF (key x)) (Prim2SF (key y))) as [[]|].
        -- by eapply Forall_forall in Hy.
    + constructor; [by constructor|].
      constructor; [exact Hxy|].
      apply Forall_forall. intros z Hz.
      eapply Forall_forall in Hy; [|exact Hz].
      apply (FloatFacts.not_lt_trans _ (key y)); [|done..].
      apply Hnum. right. by left.
Qed.

Lemma sort_desc_descending l :
  (forall y, y ∈ l -> is_number (key y)) -> descending key (sort_desc key l).
Proof.
  induction l as [|x l IH]; intros Hnum; simpl.
  - constructor.
  - fold (sort_desc key l). apply insert_desc_descending.
    + intros y Hy. apply Hnum.
      apply elem_of_cons in Hy as [-> | Hy]; [by left|].
      right. by rewrite <- (sort_desc_perm l).
    + apply IH. intros y Hy. apply Hnum. by right.
Qed.

(** Stability: the items whose key is equal to [k] keep their order. *)
Lemma insert_desc_stable k x l :
  filter (fun a => PyFloat.eq (key a) k = true) (insert_desc key x l)
  = filter (fun a => PyFloat.eq (key a) k = true) (x :: l).
Proof.
  induction l as [|y l IH]; simpl; [done|].
  destruct (PrimFloat.ltb (key x) (key y)) eqn:Hxy; [|done].
  destruct (decide (PyFloat.eq (key y) k = true)) as [Hy|Hy].
  - rewrite (filter_cons_True _ y) by done.
    destruct (decide (PyFloat.eq (key x) k = true)) as [Hx|Hx].
    + rewrite (FloatFacts.eq_eq_not_lt _ _ _ Hx Hy) in Hxy. discriminate.
    + rewrite IH. rewrite !(filter_cons_False _ x) by done.
      by rewrite (filter_cons_True _ y).
  - rewrite (filter_cons_False _ y) by done. rewrite IH.
    destruct (decide (PyFloat.eq (key x) k = true)) as [Hx|Hx].
    + rewrite !(filter_cons_True _ x) by done.
      by rewrite (filter_cons_False _ y).
    + rewrite !(filter_cons_False _ x) by done.
      by rewrite (filter_cons_False _ y).
Qed.

Lemma sort_desc_stable k l :
  filter (fun a => PyFloat.eq (key a) k = true) (sort_desc key l)
  = filter (fun a => PyFloat.eq (key a) k = true) l.
Proof.
  induction l as [|x l IH]; simpl; [done|].
  fold (sort_desc key l). rewrite insert_desc_stable.
  destruct (decide (PyFloat.eq (key x) k = true)) as [Hx|Hx].
  - rewrite !(filter_cons_True _ x) by done. by rewrite IH.
  - rewrite !(filter_cons_False _ x) by done. by rewrite IH.
Qed.

End SortDesc.

Lemma sort_desc_fmap {A B} (key : A -> float) (f : B -> A) (l : list B) :
  sort_desc key (f <$> l) = f <$> sort_desc (key ∘ f) l.
Proof.
  induction l as [|x l IH]; [done|].
  cbn [fmap list_fmap sort_desc foldr].
  fold (sort_desc key (f <$> l)). fold (sort_desc (key ∘ f) l). rewrite IH.
  generalize (sort_desc (key ∘ f) l) as k. intros k.
  induction k as [|y k IHk]; [done|].
  cbn [fmap list_fmap insert_desc compose].
  destruct (PrimFloat.ltb (key (f x)) (key (f y))); [|done].
  cbn [fmap list_fmap]. f_equal. apply IHk.
Qed.

(** ** Lists *)

Section ListFacts.

Context {A : Type}.

Lemma sublist_StronglySorted (R : A -> A -> Prop) (l1 l2 : list A) :
  l1 `sublist_of` l2 -> StronglySorted R l2 -> StronglySorted R l1.
Proof.
  induction 1 as [|x l1 l2 Hsub IH|x l1 l2 Hsub IH]; intros Hs.
  - constructor.
  - apply StronglySorted_inv in Hs as [Hs Hx].
    constructor; [by apply IH|].
    apply Forall_forall. intros y Hy.
    eapply Forall_forall in Hx; [exact Hx|].
    by eapply elem_of_sublist.
  - apply StronglySorted_inv in Hs as [Hs _]. by apply IH.
Qed.

Lemma StronglySorted_lookup (R : A -> A -> Prop) (l : list A) i j a b :
  StronglySorted R l -> i < j -> l !! i = Some a -> l !! j = Some b -> R a b.
Proof.
  intros Hs. revert i j.
  induction Hs as [|x l Hs IH Hx]; intros i j Hij Hi Hj; [done|].
  destruct j as [|j]; [lia|]. simpl in Hj.
  destruct i as [|i]; simpl in Hi.
  - injection Hi as ->. eapply Forall_forall in Hx; [exact Hx|].
    by eapply list_elem_of_lookup_2.
  - apply (IH i j); [lia|done..].
Qed.

Lemma sublist_filter_mono (P : A -> Prop) `{!forall x, Decision (P x)}
    (l1 l2 : list A) :
  l1 `sublist_of` l2 -> filter P l1 `sublist_of` filter P l2.
Proof.
  induction 1 as [|x l1 l2 Hsub IH|x l1 l2 Hsub IH]; [done|..].
  - rewrite !filter_cons. destruct (decide (P x)); [by apply sublist_skip|done].
  - rewrite filter_cons. destruct (decide (P x)); [by apply sublist_cons|done].
Qed.

Lemma fold_left_snoc_state {S : Type} (f : S -> A -> S) (l : list A) (P : S -> Prop)
    (st : S) :
  P st -> (forall s x, P s -> P (f s x)) -> P (fold_left f l st).
Proof.
  intros H0 Hstep. revert st H0.
  induction l as [|x l IH]; intros st H0; simpl; [done|].
  apply IH, Hstep, H0.
Qed.

End ListFacts.

(** ** SectionRanker *)

Section Ranker.

Context {Vec : Type}.
Variable embed_text : string -> Vec.
Variable cosine_similarity : Vec -> Vec -> float.
Variable py_str : json -> string.

Local Abbreviation normalized sec := (normalize_title (section_title sec)).

Lemma top_step_invariant st item :
  top_invariant st -> top_invariant (top_step st item).
Proof.
  intros (Hseen & Hnd & Hlen). unfold top_step.
  destruct (bool_decide_reflect (normalized item.1 ∉ st.1)) as [Hnew|Hold];
    [|done].
  destruct (Nat.ltb_spec (length st.2) 5) as [Hlt|Hge]; [|done].
  cbn [andb]. unfold top_invariant. cbn [fst snd]. split; [|split].
  - intros t. rewrite elem_of_union, elem_of_singleton, fmap_app, elem_of_app.
    rewrite Hseen. cbn [fmap list_fmap]. rewrite list_elem_of_singleton. tauto.
  - rewrite fmap_app. apply NoDup_app. split; [done|]. split.
    + intros t Ht Ht'. cbn [fmap list_fmap] in Ht'.
      apply list_elem_of_singleton in Ht'. subst t.
      apply Hnew. by apply Hseen.
    + cbn [fmap list_fmap]. apply NoDup_singleton.
  - rewrite length_app. simpl. lia.
Qed.

Lemma top_fold_sublist ranked st :
  exists added,
    (fold_left top_step ranked st).2 = st.2 ++ added
    /\ added `sublist_of` ranked.*1.
Proof.
  revert st. induction ranked as [|item ranked IH]; intros st; simpl.
  - exists []. by rewrite app_nil_r.
  - destruct (IH (top_step st item)) as (added & Heq & Hsub).
    rewrite Heq. unfold top_step.
    destruct (bool_decide _ && _); cbn [snd].
    + exists (item.1 :: added). rewrite <- app_assoc. split; [done|].
      by apply sublist_skip.
    + exists added. split; [done|]. by apply sublist_cons.
Qed.

Lemma ranked_candidates_fst sections persona job :
  (ranked_candidates embed_text cosine_similarity py_str sections persona job).*1
  = sort_desc (section_score embed_text cosine_similarity
                 (query_embedding embed_text py_str persona job)) sections.
Proof.
  unfold ranked_candidates. rewrite sort_desc_fmap.
  rewrite <- list_fmap_compose. apply list_fmap_id.
Qed.

Lemma top_sections_sublist sections persona job :
  top_sections embed_text cosine_similarity py_str sections persona job
  `sublist_of`
  sort_desc (section_score embed_text cosine_similarity
               (query_embedding embed_text py_str persona job)) sections.
Proof.
  unfold top_sections.
  destruct (top_fold_sublist
              (ranked_candidates embed_text cosine_similarity py_str
                 sections persona job) (∅, [])) as (added & -> & Hsub).
  by rewrite ranked_candidates_fst in Hsub.
Qed.

Lemma top_sections_invariant sections persona job :
  top_invariant
    (fold_left top_step
       (ranked_candidates embed_text cosine_similarity py_str sections persona job)
       (∅, [])).
Proof.
  apply fold_left_snoc_state.
  - split; [|split]; cbn [fst snd fmap list_fmap].
    + intros t. split; intros H; [by apply not_elem_of_empty in H|].
      by apply elem_of_nil in H.
    + constructor.
    + simpl. lia.
  - intros s x. apply top_step_invariant.
Qed.

Hypothesis scores_are_numbers : forall u v, is_number (cosine_similarity u v).

(** C5. The ranker returns at most 5 sections; the entry at position [i]
    (from 0) has rank [i + 1], so the ranks are 1..k without gap or
    repeat; the scores against the persona+job query do not increase along
    the list; the kept candidates that have one same score stand in the
    order of the candidate list; and no two entries have the same
    normalized title. *)
Theorem rank_sections_top5
    (sections : list SectionCandidate) (persona job : json) :
  let q := query_embedding embed_text py_str persona job in
  let score title := cosine_similarity q (embed_text title) in
  let kept := top_sections embed_text cosine_similarity py_str sections persona job in
  let out := rank_sections embed_text cosine_similarity py_str sections persona job in
  out = imap to_ranked kept
  /\ length out <= 5
  /\ (forall i r, out !! i = Some r -> importance_rank r = (Z.of_nat i + 1)%Z)
  /\ (forall i j a b, i < j -> out !! i = Some a -> out !! j = Some b ->
        PyFloat.ge (score (rs_section_title a)) (score (rs_section_title b)) = true)
  /\ (forall k,
        filter (fun sec => PyFloat.eq (score (section_title sec)) k = true) kept
        `sublist_of` sections)
  /\ NoDup ((fun r => normalize_title (rs_section_title r)) <$> out).
Proof.
  intros q score kept out.
  pose proof (top_sections_invariant sections persona job) as (_ & Hnd & Hlen).
  fold (top_sections embed_text cosine_similarity py_str sections persona job)
    in Hnd, Hlen. fold kept in Hnd, Hlen.
  pose proof (top_sections_sublist sections persona job) as Hsub.
  fold kept q in Hsub.
  assert (Hout : out = imap to_ranked kept) by done.
  split; [exact Hout|]. split; [|split; [|split; [|split]]].
  - by rewrite Hout, length_imap.
  - intros i r. rewrite Hout, list_lookup_imap.
    destruct (kept !! i); [|done]. by intros [= <-].
  - intros i j a b Hij. rewrite Hout, !list_lookup_imap.
    destruct (kept !! i) as [sa|] eqn:Hi; [|done].
    destruct (kept !! j) as [sb|] eqn:Hj; [|done].
    intros [= <-] [= <-]. cbn [rs_section_title to_ranked].
    apply FloatFacts.not_lt_ge; [apply scores_are_numbers..|].
    assert (Hs : descending (section_score embed_text cosine_similarity q) kept).
    { eapply sublist_StronglySorted; [exact Hsub|].
      apply sort_desc_descending. intros y _. apply scores_are_numbers. }
    change (PrimFloat.ltb (section_score embed_text cosine_similarity q sa)
              (section_score embed_text cosine_similarity q sb) = false).
    exact (StronglySorted_lookup _ kept i j sa sb Hs Hij Hi Hj).
  - intros k.
    etrans; [apply sublist_filter_mono, Hsub|].
    change (fun sec => PyFloat.eq (score (section_title sec)) k = true)
      with (fun sec => PyFloat.eq (section_score embed_text cosine_similarity q sec) k
                       = true).
    rewrite (sort_desc_stable (section_score embed_text cosine_similarity q)).
    apply sublist_filter.
  - rewrite Hout, fmap_imap.
    rewrite (imap_ext _ (const (fun sec => normalize_title (section_title sec)))).
    + by rewrite imap_const.
    + done.
Qed.

End Ranker.

Lemma rank_sections_top5_witness :
  let q := query_embedding (fun s => s) (fun _ => "") (JStr "Analyst") (JStr "Read") in
  let score title := sample_cosine q title in
  let kept := top_sections (fun s => s) sample_cosine (fun _ => "") sample_candidates
                (JStr "Analyst") (JStr "Read") in
  let out := rank_sections (fun s => s) sample_cosine (fun _ => "") sample_candidates
               (JStr "Analyst") (JStr "Read") in
  out = imap to_ranked kept
  /\ length out <= 5
  /\ (forall i r, out !! i = Some r -> importance_rank r = (Z.of_nat i + 1)%Z)
  /\ (forall i j a b, i < j -> out !! i = Some a -> out !! j = Some b ->
        PyFloat.ge (score (rs_section_title a)) (score (rs_section_title b)) = true)
  /\ (forall k,
        filter (fun sec => PyFloat.eq (score (section_title sec)) k = true) kept
        `sublist_of` sample_candidates)
  /\ NoDup ((fun r => normalize_title (rs_section_title r)) <$> out).
Proof.
  apply (rank_sections_top5 (fun s => s) sample_cosine (fun _ => "")).
  intros u v. unfold sample_cosine.
  destruct (Py.contains "report" (Py.lower v)); reflexivity.
Defined.

(** ** SubsectionExtractor: the final selection *)

Section Selection.

Variable iter_set : gset string -> list string.

(** Whatever the order of the visit, each member is visited once. *)
Hypothesis iter_set_elements : forall X, iter_set X ≡ₚ elements X.

Local Abbreviation normalized p := (normalize_text (fp_refined_text p)).

Lemma is_duplicate_false (seen_texts : gset string) (text : string) :
  existsb (near_duplicate text) (iter_set seen_texts) = false
  <-> forall seen_text, seen_text ∈ seen_texts -> near_duplicate text seen_text = false.
Proof.
  rewrite <- not_true_iff_false, existsb_exists. split.
  - intros Hno seen_text Hin. apply not_true_iff_false. intros Hdup.
    apply Hno. exists seen_text. split; [|done].
    apply list_elem_of_In. rewrite iter_set_elements. by apply elem_of_elements.
  - intros Hall (seen_text & Hin & Hdup).
    apply list_elem_of_In in Hin. rewrite iter_set_elements in Hin.
    apply elem_of_elements in Hin. rewrite (Hall _ Hin) in Hdup. discriminate.
Qed.

Lemma near_duplicate_guard text seen_text :
  near_duplicate text seen_text
  = (20 <? Py.len text) && near_duplicate_as_stated text seen_text.
Proof.
  unfold near_duplicate, near_duplicate_as_stated.
  destruct (20 <? Py.len text); [|done].
  by rewrite andb_true_r.
Qed.

Lemma select_step_kept st para :
  (forall seen_text, seen_text ∈ st.1 ->
     near_duplicate (normalize_text (refined_text para)) seen_text = false) ->
  length st.2 < 5 ->
  select_step iter_set st para
  = ({[normalize_text (refined_text para)]} ∪ st.1, st.2 ++ [without_score para]).
Proof.
  intros Hfresh Hlen. unfold select_step.
  apply is_duplicate_false in Hfresh. rewrite Hfresh.
  by destruct (Nat.ltb_spec (length st.2) 5); [|lia].
Qed.

Lemma select_step_dropped st para :
  (exists seen_text, seen_text ∈ st.1
     /\ near_duplicate (normalize_text (refined_text para)) seen_text = true)
  \/ 5 <= length st.2 ->
  select_step iter_set st para = st.
Proof.
  intros Hcase. unfold select_step.
  destruct (existsb _ _) eqn:Hdup; [done|].
  destruct (Nat.ltb_spec (length st.2) 5) as [Hlt|Hge]; [|done].
  destruct Hcase as [(seen_text & Hin & Hnear)|Hfull]; [|lia].
  rewrite is_duplicate_false in Hdup. rewrite (Hdup _ Hin) in Hnear. discriminate.
Qed.

Lemma select_step_invariant st para :
  selection_invariant st -> selection_invariant (select_step iter_set st para).
Proof.
  intros (Hseen & Hlen & Hsorted). unfold select_step.
  destruct (existsb _ _) eqn:Hdup; [done|].
  destruct (Nat.ltb_spec (length st.2) 5) as [Hlt|Hge]; [|done].
  cbn [negb andb]. unfold selection_invariant. cbn [fst snd].
  split; [|split].
  - intros t. rewrite elem_of_union, elem_of_singleton, fmap_app, elem_of_app.
    rewrite Hseen. cbn [fmap list_fmap]. rewrite list_elem_of_singleton. tauto.
  - rewrite length_app. simpl. lia.
  - apply StronglySorted_app_2; [|done|repeat constructor].
    intros kept later Hkept Hlater.
    apply list_elem_of_singleton in Hlater. subst later.
    cbn [fp_refined_text without_score].
    rewrite is_duplicate_false in Hdup. apply Hdup, Hseen.
    exact (list_elem_of_fmap_2 (fun p => normalized p) _ _ Hkept).
Qed.

Lemma select_passages_invariant paragraphs :
  selection_invariant
    (fold_left (select_step iter_set) (sort_desc similarity_score paragraphs) (∅, [])).
Proof.
  apply fold_left_snoc_state.
  - split; [|split]; cbn [fst snd fmap list_fmap].
    + intros t. split; intros H; [by apply not_elem_of_empty in H|].
      by apply elem_of_nil in H.
    + simpl. lia.
    + constructor.
  - intros s x. apply select_step_invariant.
Qed.

(** C1, as far as the code goes. A candidate is a near-duplicate of a seen
    text when its normalized text is longer than 20 characters and, besides,
    either text contains the other or the token-set overlap exceeds 0.7
    times the number of tokens of the candidate: the length condition bears
    on the containment test too. The loop drops a candidate that is a
    near-duplicate of one of the kept texts, or that comes when 5 are
    kept, and keeps any other. So at most 5 passages are returned, and no
    returned passage is a near-duplicate of one returned before it. *)
Theorem select_passages_no_near_duplicate (paragraphs : list Passage) :
  let out := select_passages iter_set paragraphs in
  (forall text seen_text,
     near_duplicate text seen_text
     = (20 <? Py.len text) && near_duplicate_as_stated text seen_text)
  /\ (forall st para,
        (exists seen_text, seen_text ∈ st.1
           /\ near_duplicate (normalize_text (refined_text para)) seen_text = true)
        \/ 5 <= length st.2 ->
        select_step iter_set st para = st)
  /\ (forall st para,
        (forall seen_text, seen_text ∈ st.1 ->
           near_duplicate (normalize_text (refined_text para)) seen_text = false) ->
        length st.2 < 5 ->
        select_step iter_set st para
        = ({[normalize_text (refined_text para)]} ∪ st.1,
           st.2 ++ [without_score para]))
  /\ length out <= 5
  /\ (forall i j p q, i < j -> out !! i = Some p -> out !! j = Some q ->
        near_duplicate (normalize_text (fp_refined_text q))
          (normalize_text (fp_refined_text p)) = false).
Proof.
  intros out.
  pose proof (select_passages_invariant paragraphs) as (_ & Hlen & Hsorted).
  split; [apply near_duplicate_guard|]. split; [apply select_step_dropped|].
  split; [apply select_step_kept|]. split; [exact Hlen|].
  intros i j p q Hij Hi Hj.
  exact (StronglySorted_lookup _ _ i j p q Hsorted Hij Hi Hj).
Qed.

End Selection.

Lemma select_passages_no_near_duplicate_witness :
  let out := select_passages elements caption_passages in
  (forall text seen_text,
     near_duplicate text seen_text
     = (20 <? Py.len text) && near_duplicate_as_stated text seen_text)
  /\ (forall st para,
        (exists seen_text, seen_text ∈ st.1
           /\ near_duplicate (normalize_text (refined_text para)) seen_text = true)
        \/ 5 <= length st.2 ->
        select_step elements st para = st)
  /\ (forall st para,
        (forall seen_text, seen_text ∈ st.1 ->
           near_duplicate (normalize_text (refined_text para)) seen_text = false) ->
        length st.2 < 5 ->
        select_step elements st para
        = ({[normalize_text (refined_text para)]} ∪ st.1,
           st.2 ++ [without_score para]))
  /\ length out <= 5
  /\ (forall i j p q, i < j -> out !! i = Some p -> out !! j = Some q ->
        near_duplicate (normalize_text (fp_refined_text q))
          (normalize_text (fp_refined_text p)) = false).
Proof.
  apply (select_passages_no_near_duplicate elements). intros X. reflexivity.
Defined.

(** C1 as it is worded: containment alone makes a near-duplicate. Two
    passages with the same caption, whose normalized text has 15 characters,
    are both returned. *)
Lemma select_passages_as_stated_fails :
  select_passages elements caption_passages
  = [without_score (caption_passage 1); without_score (caption_passage 2)]
  /\ normalize_text caption = "fig 1 a b c d e"
  /\ near_duplicate_as_stated (normalize_text caption) (normalize_text caption) = true
  /\ near_duplicate (normalize_text caption) (normalize_text caption) = false
  /\ ~ (forall (paragraphs : list Passage) i j p q,
          i < j ->
          select_passages elements paragraphs !! i = Some p ->
          select_passages elements paragraphs !! j = Some q ->
          near_duplicate_as_stated (normalize_text (fp_refined_text q))
            (normalize_text (fp_refined_text p)) = false).
Proof.
  assert (Hout : select_passages elements caption_passages
                 = [without_score (caption_passage 1); without_score (caption_passage 2)])
    by (vm_compute; reflexivity).
  assert (Hnear : near_duplicate_as_stated (normalize_text caption)
                    (normalize_text caption) = true) by (vm_compute; reflexivity).
  split; [exact Hout|]. split; [vm_compute; reflexivity|].
  split; [exact Hnear|]. split; [vm_compute; reflexivity|].
  intros H.
  specialize (H caption_passages 0 1 (without_score (caption_passage 1))
                (without_score (caption_passage 2))).
  rewrite Hout in H.
  change (fp_refined_text (without_score (caption_passage 1))) with caption in H.
  change (fp_refined_text (without_score (caption_passage 2))) with caption in H.
  rewrite Hnear in H. specialize (H ltac:(lia) eq_refl eq_refl). discriminate.
Qed.

(** ** SubsectionExtractor: locating the document *)

Lemma find_pdf_first (doc_name : string) (dirs : list (string * list string)) :
  match find_pdf doc_name dirs with
  | Some path =>
      exists before root files after,
        dirs = before ++ (root, files) :: after
        /\ Forall (fun d => doc_name ∉ d.2) before
        /\ doc_name ∈ files
        /\ path = Py.path_join root doc_name
  | None => Forall (fun d => doc_name ∉ d.2) dirs
  end.
Proof.
  induction dirs as [|[root files] dirs IH]; cbn [find_pdf].
  - constructor.
  - destruct (bool_decide_reflect (doc_name ∈ files)) as [Hin|Hout].
    + exists [], root, files, dirs. by repeat split.
    + destruct (find_pdf doc_name dirs) as [path|].
      * destruct IH as (before & root' & files' & after & -> & Hb & Hin & ->).
        exists ((root, files) :: before), root', files', after.
        split; [done|]. split; [by constructor|done].
      * by constructor.
Qed.

Lemma find_pdf_none (doc_name : string) (dirs : list (string * list string)) :
  Forall (fun d => doc_name ∉ d.2) dirs -> find_pdf doc_name dirs = None.
Proof.
  induction 1 as [|[root files] dirs Hd _ IH]; [done|].
  cbn [find_pdf]. by rewrite bool_decide_eq_false_2.
Qed.

Lemma find_pdf_some (doc_name : string) before root files after :
  Forall (fun d => doc_name ∉ d.2) before ->
  doc_name ∈ files ->
  find_pdf doc_name (before ++ (root, files) :: after)
  = Some (Py.path_join root doc_name).
Proof.
  induction 1 as [|[root' files'] before Hd _ IH]; intros Hin; cbn [app find_pdf].
  - by rewrite bool_decide_eq_true_2.
  - rewrite bool_decide_eq_false_2 by done. by apply IH.
Qed.

Section Subsections.

Context {Vec : Type}.
Variable embed_text : string -> Vec.
Variable cosine_similarity : Vec -> Vec -> float.

Local Abbreviation passages_of fs q sec :=
  (section_passages embed_text cosine_similarity fs q sec).
Local Abbreviation collected fs q secs :=
  (all_paragraphs embed_text cosine_similarity fs q secs).

Lemma all_paragraphs_acc fs q secs acc :
  fold_left (fun acc sec => acc ++ passages_of fs q sec) secs acc
  = acc ++ collected fs q secs.
Proof.
  unfold all_paragraphs. revert acc.
  induction secs as [|sec secs IH]; intros acc; cbn [fold_left].
  - by rewrite app_nil_r.
  - rewrite IH, (IH ([] ++ _)). by rewrite app_assoc.
Qed.

Lemma all_paragraphs_app fs q secs1 secs2 :
  collected fs q (secs1 ++ secs2) = collected fs q secs1 ++ collected fs q secs2.
Proof.
  unfold all_paragraphs at 1. rewrite fold_left_app. apply all_paragraphs_acc.
Qed.

Lemma all_paragraphs_cons fs q sec secs :
  collected fs q (sec :: secs) = passages_of fs q sec ++ collected fs q secs.
Proof.
  change (sec :: secs) with ([sec] ++ secs). by rewrite all_paragraphs_app.
Qed.

(** C3, as far as the code goes. The document of a ranked section is looked
    for by its base name under the whole documents root [PDFS_DIR], every
    request folder included, in the order of [os.walk]; the first directory
    that lists the name gives the path. When no directory under that root
    lists the name, the section adds no passage and the other sections are
    processed as if it were not in the list. *)
Theorem document_found_under_documents_root
    (fs : Node) (q : Vec) (sec : RankedSection) :
  let dirs := os_walk fs PDFS_DIR in
  (forall before root files after,
     dirs = before ++ (root, files) :: after ->
     Forall (fun d => rs_document sec ∉ d.2) before ->
     rs_document sec ∈ files ->
     find_pdf (rs_document sec) dirs = Some (Py.path_join root (rs_document sec)))
  /\ (forall path,
        find_pdf (rs_document sec) dirs = Some path ->
        exists before root files after,
          dirs = before ++ (root, files) :: after
          /\ Forall (fun d => rs_document sec ∉ d.2) before
          /\ rs_document sec ∈ files
          /\ path = Py.path_join root (rs_document sec))
  /\ (Forall (fun d => rs_document sec ∉ d.2) dirs ->
      passages_of fs q sec = []
      /\ forall before after,
           collected fs q (before ++ sec :: after) = collected fs q (before ++ after)).
Proof.
  intros dirs. split; [|split].
  - intros before root files after -> Hb Hin. by apply find_pdf_some.
  - intros path Hfind.
    pose proof (find_pdf_first (rs_document sec) dirs) as H.
    rewrite Hfind in H. exact H.
  - intros Hnone.
    assert (Hskip : passages_of fs q sec = []).
    { unfold section_passages. fold dirs. by rewrite (find_pdf_none _ _ Hnone). }
    split; [exact Hskip|].
    intros before after.
    by rewrite !all_paragraphs_app, all_paragraphs_cons, Hskip.
Qed.

End Subsections.

Lemma document_found_under_documents_root_witness :
  find_pdf "x.pdf" (os_walk two_folders PDFS_DIR) = Some "pdfs/a/x.pdf"
  /\ (section_passages (fun s => s) sample_cosine two_folders "q" (section_of "y.pdf") = []
      /\ forall before after,
           all_paragraphs (fun s => s) sample_cosine two_folders "q"
             (before ++ section_of "y.pdf" :: after)
           = all_paragraphs (fun s => s) sample_cosine two_folders "q" (before ++ after)).
Proof.
  split.
  - apply (proj1 (document_found_under_documents_root (fun s => s) sample_cosine
                    two_folders "q" (section_of "x.pdf"))
             [("pdfs", [])] "pdfs/a" ["x.pdf"] [("pdfs/b", ["x.pdf"])]).
    + reflexivity.
    + refine (bool_decide_unpack _ _). vm_compute. exact I.
    + refine (bool_decide_unpack _ _). vm_compute. exact I.
  - apply (proj2 (proj2 (document_found_under_documents_root (fun s => s) sample_cosine
                           two_folders "q" (section_of "y.pdf")))).
    refine (bool_decide_unpack _ _). vm_compute. exact I.
Defined.

(** C3 as it is worded: the search is made under the folder of the request.
    For a section of the request whose folder is [pdfs/b], the file found is
    the one of the folder [pdfs/a], and the passage is read from it. *)
Lemma document_found_in_request_folder_fails :
  find_pdf "x.pdf" (os_walk two_folders PDFS_DIR) = Some "pdfs/a/x.pdf"
  /\ find_pdf "x.pdf" (os_walk two_folders (Py.path_join PDFS_DIR "b"))
     = Some "pdfs/b/x.pdf"
  /\ fp_refined_text <$>
       extract_subsections (fun s => s) sample_cosine (fun _ => "") elements
         two_folders [section_of "x.pdf"] (JStr "Analyst") (JStr "Read the report")
     = [first_folder_text]
  /\ ~ (forall (fs : Node) (file_prefix doc_name : string),
          find_pdf doc_name (os_walk fs PDFS_DIR)
          = find_pdf doc_name (os_walk fs (Py.path_join PDFS_DIR file_prefix))).
Proof.
  split; [reflexivity|]. split; [reflexivity|].
  split; [vm_compute; reflexivity|].
  intros H. specialize (H two_folders "b" "x.pdf").
  vm_compute in H. discriminate.
Qed.

(** ** The driver *)

Lemma existsb_Permutation {A} (f : A -> bool) (l1 l2 : list A) :
  l1 ≡ₚ l2 -> existsb f l1 = existsb f l2.
Proof.
  induction 1 as [|x l1 l2 _ IH|x y l|l1 l2 l3 _ IH1 _ IH2]; simpl.
  - done.
  - by rewrite IH.
  - by destruct (f x), (f y).
  - by rewrite IH1.
Qed.

Lemma fold_left_ext {A B} (f g : A -> B -> A) (l : list B) (a : A) :
  (forall a b, f a b = g a b) -> fold_left f l a = fold_left g l a.
Proof.
  intros Hfg. revert a. induction l as [|b l IH]; intros a; simpl; [done|].
  by rewrite Hfg, IH.
Qed.

Lemma select_passages_any_order (iter1 iter2 : gset string -> list string)
    (paragraphs : list Passage) :
  (forall X, iter1 X ≡ₚ elements X) ->
  (forall X, iter2 X ≡ₚ elements X) ->
  select_passages iter1 paragraphs = select_passages iter2 paragraphs.
Proof.
  intros H1 H2. unfold select_passages. f_equal.
  apply fold_left_ext. intros st para. unfold select_step.
  rewrite (existsb_Permutation _ (iter1 st.1) (iter2 st.1)); [done|].
  by rewrite H1, H2.
Qed.

Section Driver.

Context {Vec : Type}.
Variable embed_text : string -> Vec.
Variable cosine_similarity : Vec -> Vec -> float.
Variable py_str : json -> string.
Variable iter_set : gset string -> list string.
Variable now : string -> string.

Local Abbreviation request fs f :=
  (process_request embed_text cosine_similarity py_str iter_set now fs f).
Local Abbreviation written fs files :=
  (process_files embed_text cosine_similarity py_str iter_set now fs files).

Lemma process_files_acc fs files acc :
  fold_left
    (fun written persona_file =>
       match request fs persona_file with
       | Some w => written ++ [w]
       | None => written
       end) files acc
  = acc ++ written fs files.
Proof.
  unfold process_files. revert acc.
  induction files as [|f files IH]; intros acc; cbn [fold_left].
  - by rewrite app_nil_r.
  - rewrite IH, (IH (match request fs f with
                     | Some w => [] ++ [w]
                     | None => []
                     end)).
    destruct (request fs f); [|done]. by rewrite app_assoc.
Qed.

Lemma process_files_app fs files1 files2 :
  written fs (files1 ++ files2) = written fs files1 ++ written fs files2.
Proof.
  unfold process_files at 1. rewrite fold_left_app. apply process_files_acc.
Qed.

Lemma process_files_cons fs f files :
  written fs (f :: files)
  = match request fs f with Some w => [w] | None => [] end ++ written fs files.
Proof.
  change (f :: files) with ([f] ++ files). by rewrite process_files_app.
Qed.

End Driver.

Lemma process_request_rerun {Vec : Type} (embed_text : string -> Vec)
    (cosine_similarity : Vec -> Vec -> float) (py_str : json -> string)
    (iter1 iter2 : gset string -> list string) (now1 now2 : string -> string)
    (fs : Node) (persona_file : string) :
  (forall X, iter1 X ≡ₚ elements X) ->
  (forall X, iter2 X ≡ₚ elements X) ->
  without_timestamp <$>
    process_request embed_text cosine_similarity py_str iter1 now1 fs persona_file
  = without_timestamp <$>
      process_request embed_text cosine_similarity py_str iter2 now2 fs persona_file.
Proof.
  intros H1 H2. unfold process_request.
  destruct (json_load fs persona_file) as [persona_data|]; [|done].
  destruct (read_request py_str persona_data) as [[who what]|]; [|done].
  destruct (negb _); [done|].
  destruct (glob_ext fs _ ".pdf") as [|f files]; [done|].
  destruct (collect_sections fs (f :: files)) as [|s secs]; [done|].
  cbn [fmap option_fmap option_map]. unfold without_timestamp. cbn [fst snd].
  cbn [metadata input_documents persona job_to_be_done extracted_sections
       subsection_analysis].
  do 2 f_equal. unfold extract_subsections.
  by apply select_passages_any_order.
Qed.

(** C9. Two runs on the same files, with the same embedding model, write the
    same files with the same [extracted_sections] and [subsection_analysis]
    (and the same documents, persona and job), whatever the clock shows and
    in whatever order the sets of seen texts are visited: the runs differ in
    [processing_timestamp] at most. *)
Theorem rerun_differs_in_timestamp_only {Vec : Type} (embed_text : string -> Vec)
    (cosine_similarity : Vec -> Vec -> float) (py_str : json -> string)
    (iter1 iter2 : gset string -> list string) (now1 now2 : string -> string)
    (fs : Node) :
  (forall X, iter1 X ≡ₚ elements X) ->
  (forall X, iter2 X ≡ₚ elements X) ->
  without_timestamp <$>
    process_round_1b embed_text cosine_similarity py_str iter1 now1 fs
  = without_timestamp <$>
      process_round_1b embed_text cosine_similarity py_str iter2 now2 fs.
Proof.
  intros H1 H2. unfold process_round_1b.
  induction (glob_ext fs INPUT_JSON_DIR ".json") as [|f files IH]; [done|].
  rewrite !process_files_cons, !fmap_app, IH. f_equal.
  pose proof (process_request_rerun embed_text cosine_similarity py_str
                iter1 iter2 now1 now2 fs f H1 H2) as Hf.
  destruct (process_request _ _ _ iter1 now1 fs f),
           (process_request _ _ _ iter2 now2 fs f); simpl in Hf |- *; congruence.
Qed.

(** The pattern [c[3]] is the letter [c] and then one character of the set
    that holds [3]: it matches the name [c3] and not the name [c[3]]. *)
Lemma fnmatchcase_bracket :
  Py.translate "c[3]" = [Py.GChar "c"; Py.GSet false ["3"%char] []]
  /\ Py.fnmatchcase "c3" "c[3]" = true
  /\ Py.fnmatchcase "c[3]" "c[3]" = false.
Proof. split; [|split]; vm_compute; reflexivity. Qed.

(** C8, at a request whose folder name holds a wildcard character. The
    folder [pdfs/c[3]] of the request [input/c[3].json] is there and holds
    no file. [glob.glob] reads the folder name as a pattern: what it returns
    is the document of the folder [pdfs/c3], and the file of the request is
    written, with that document as its input document. *)
Theorem wildcard_folder_reads_another_folder :
  path_exists wildcard_tree "pdfs/c[3]" = true
  /\ resolve wildcard_tree "pdfs/c[3]" = Some (Dir [])
  /\ glob_in_dir wildcard_tree "pdfs/c[3]" ".pdf" = []
  /\ glob_ext wildcard_tree "pdfs/c[3]" ".pdf" = ["pdfs/c3/report.pdf"]
  /\ process_request (fun s => s) sample_cosine (fun _ => "") elements (fun _ => "T")
       wildcard_tree "input/c[3].json"
     = Some ("output/c[3].json", report_result "T")
  /\ process_round_1b (fun s => s) sample_cosine (fun _ => "") elements (fun _ => "T")
       wildcard_tree
     = [("output/c[3].json", report_result "T")].
Proof.
  split; [vm_compute; reflexivity|]. split; [vm_compute; reflexivity|].
  split; [vm_compute; reflexivity|]. split; [vm_compute; reflexivity|].
  split; vm_compute; reflexivity.
Qed.

Lemma rerun_differs_in_timestamp_only_witness :
  without_timestamp <$>
    process_round_1b (fun s => s) sample_cosine (fun _ => "") elements
      (fun _ => "2025-01-01T09:00:00") library_tree
  = without_timestamp <$>
      process_round_1b (fun s => s) sample_cosine (fun _ => "")
        (fun X => reverse (elements X)) (fun _ => "2025-06-30T17:30:00") library_tree.
Proof.
  apply (rerun_differs_in_timestamp_only (fun s => s) sample_cosine (fun _ => "")
           elements (fun X => reverse (elements X))).
  - intros X. reflexivity.
  - intros X. apply reverse_Permutation.
Defined.

(** * Further properties *)

(** ** Strings: stripping what is stripped *)

Lemma rstrip_cons_nonspace (c : ascii) (r : string) :
  Py.isspace c = false -> Py.rstrip (String c r) = String c (Py.rstrip r).
Proof. intros Hc. cbn [Py.rstrip]. destruct (Py.rstrip r); by rewrite ?Hc. Qed.

Lemma rstrip_cons_kept (c : ascii) (s : string) (d : ascii) (r : string) :
  Py.rstrip s = String d r -> Py.rstrip (String c s) = String c (String d r).
Proof. intros Hs. cbn [Py.rstrip]. by rewrite Hs. Qed.

Lemma rstrip_idemp (s : string) : Py.rstrip (Py.rstrip s) = Py.rstrip s.
Proof.
  induction s as [|c s IH]; [done|].
  cbn [Py.rstrip]. destruct (Py.rstrip s) as [|d r] eqn:Hr.
  - destruct (Py.isspace c) eqn:Hc; [done|]. cbn [Py.rstrip]. by rewrite Hc.
  - by apply rstrip_cons_kept.
Qed.

Lemma lstrip_head (s : string) :
  match Py.lstrip s with
  | EmptyString => True
  | String c _ => Py.isspace c = false
  end.
Proof.
  induction s as [|c s IH]; [done|].
  cbn [Py.lstrip]. by destruct (Py.isspace c) eqn:Hc.
Qed.

Lemma strip_idemp (s : string) : Py.strip (Py.strip s) = Py.strip s.
Proof.
  unfold Py.strip. pose proof (lstrip_head s) as Hhead.
  destruct (Py.lstrip s) as [|c r]; [done|].
  rewrite (rstrip_cons_nonspace c r Hhead).
  cbn [Py.lstrip]. rewrite Hhead.
  rewrite <- (rstrip_cons_nonspace c r Hhead). apply rstrip_idemp.
Qed.

(** ** HeadingExtractor: shape of the candidates *)

Lemma classify_lines_Forall (P : SectionCandidate -> Prop) path n m M ls secs :
  Forall P secs ->
  (forall l, passes_filters l = true -> P (candidate (line_text l) n path)) ->
  Forall P (classify_lines path n m M ls secs).
Proof.
  intros Hsecs Hnew. unfold classify_lines. revert secs Hsecs.
  induction ls as [|l ls IH]; intros secs Hsecs; cbn [fold_left]; [done|].
  apply IH.
  destruct (passes_filters l) eqn:Hf; cbn [andb]; [|done].
  destruct (is_heading m M l); [|done].
  apply Forall_app. split; [done|]. constructor; [by apply Hnew|constructor].
Qed.

Lemma fallback_scan_Some lines line :
  fallback_scan lines = Some line ->
  fallback_qualifies line = true /\ Py.strip line = line.
Proof.
  induction lines as [|raw rest IH]; [done|].
  rewrite fallback_scan_qualifies.
  destruct (fallback_qualifies (Py.strip raw)) eqn:Hq; [|exact IH].
  intros Heq. apply (inj Some) in Heq. subst line.
  split; [exact Hq|apply strip_idemp].
Qed.

Lemma fallback_Forall (P : SectionCandidate -> Prop) path n text secs :
  Forall P secs ->
  (forall line, fallback_qualifies line = true -> Py.strip line = line ->
                P (candidate line n path)) ->
  Forall P (fallback path n text secs).
Proof.
  intros Hsecs Hnew. unfold fallback.
  destruct (_ || _); [|done].
  destruct (fallback_scan _) as [line|] eqn:Hscan; [|done].
  apply Forall_app. split; [done|].
  constructor; [|constructor].
  destruct (fallback_scan_Some _ _ Hscan) as [Hq Hstrip]. by apply Hnew.
Qed.

Lemma page_step_Forall (P : SectionCandidate -> Prop) path secs n page :
  Forall P secs ->
  (forall l, passes_filters l = true -> P (candidate (line_text l) n path)) ->
  (forall line, fallback_qualifies line = true -> Py.strip line = line ->
                P (candidate line n path)) ->
  Forall P (page_step path secs n page).
Proof.
  intros Hsecs Hc Hf. unfold page_step.
  destruct (page_font_sizes page) as [|first rest]; [done|].
  apply fallback_Forall; [|done]. by apply classify_lines_Forall.
Qed.

Lemma passes_filters_words (l : Line) :
  passes_filters l = true -> 1 <= length (Py.split_ws (line_text l)) <= 20.
Proof.
  unfold passes_filters.
  destruct (Nat.ltb_spec (length (Py.split_ws (line_text l))) 1);
    destruct (Nat.ltb_spec 20 (length (Py.split_ws (line_text l))));
    rewrite ?andb_false_r; cbn [orb negb andb]; try discriminate.
  lia.
Qed.

Lemma fallback_qualifies_words (line : string) :
  fallback_qualifies line = true ->
  2 <= length (Py.split_ws line) /\ 10 < Py.len line.
Proof.
  unfold fallback_qualifies.
  destruct (Nat.ltb_spec 10 (Py.len line)); [|discriminate].
  destruct (Nat.leb_spec 2 (length (Py.split_ws line))); [|discriminate].
  done.
Qed.

Lemma pages_loop_Forall (N : nat) path pages :
  forall n secs,
    n + length pages = N ->
    Forall (well_formed_candidate path N) secs ->
    Forall (well_formed_candidate path N) (pages_loop path secs n pages).
Proof.
  induction pages as [|page pages IH]; intros n secs Hn Hsecs; [done|].
  cbn [pages_loop]. cbn [length] in Hn. apply IH; [lia|].
  apply page_step_Forall; [done|..].
  - intros l Hl. unfold well_formed_candidate, candidate.
    cbn [pdf_path page_number section_title].
    pose proof (passes_filters_words l Hl).
    split; [done|]. split; [lia|]. split; [lia|apply strip_idemp].
  - intros line Hl Hstrip. unfold well_formed_candidate, candidate.
    cbn [pdf_path page_number section_title].
    pose proof (fallback_qualifies_words line Hl).
    split; [done|]. split; [lia|]. split; [lia|done].
Qed.

(** X1. Every candidate returned for a document carries the path that was
    given, a page number between 1 and the number of pages, and a title that
    is stripped and has at least one word. *)
Theorem headings_well_formed (path : string) (doc : Doc) (s : SectionCandidate) :
  s ∈ headings_of_doc path doc ->
  pdf_path s = path
  /\ (1 <= page_number s <= Z.of_nat (length doc))%Z
  /\ 1 <= length (Py.split_ws (section_title s))
  /\ Py.strip (section_title s) = section_title s.
Proof.
  intros Hs. apply headings_from_raw in Hs.
  pose proof (pages_loop_Forall (length doc) path doc 0 [] eq_refl (Forall_nil_2 _)) as H.
  rewrite Forall_forall in H. exact (H s Hs).
Qed.

Lemma headings_well_formed_witness :
  pdf_path (candidate "Annual Report" 0 "a.pdf") = "a.pdf"
  /\ (1 <= page_number (candidate "Annual Report" 0 "a.pdf")
      <= Z.of_nat (length [report_page]))%Z
  /\ 1 <= length (Py.split_ws (section_title (candidate "Annual Report" 0 "a.pdf")))
  /\ Py.strip (section_title (candidate "Annual Report" 0 "a.pdf"))
     = section_title (candidate "Annual Report" 0 "a.pdf").
Proof.
  apply (headings_well_formed "a.pdf" [report_page]).
  vm_compute. apply list_elem_of_here.
Defined.

Lemma pages_loop_page_order path pages :
  forall n secs,
    Forall (before_page n) secs ->
    StronglySorted (fun a b => (page_number a <= page_number b)%Z) secs ->
    StronglySorted (fun a b => (page_number a <= page_number b)%Z)
      (pages_loop path secs n pages).
Proof.
  induction pages as [|page pages IH]; intros n secs Hbefore Hsorted; [done|].
  cbn [pages_loop].
  assert (Hnot : Forall (fun s => ¬ page_number s = (Z.of_nat n + 1)%Z) secs).
  { eapply Forall_impl; [exact Hbefore|]. unfold before_page. intros s. lia. }
  rewrite (page_step_app _ _ _ _ Hnot).
  pose proof (page_step_on_page path n page) as Hnew.
  apply IH.
  - apply Forall_app. split.
    + eapply Forall_impl; [exact Hbefore|]. unfold before_page. intros s. lia.
    + eapply Forall_impl; [exact Hnew|]. unfold before_page. intros s. simpl. lia.
  - apply StronglySorted_app_2; [|done|].
    + intros a b Ha Hb.
      rewrite Forall_forall in Hbefore, Hnew.
      specialize (Hbefore a Ha). specialize (Hnew b Hb).
      unfold before_page in Hbefore. simpl in Hnew. lia.
    + revert Hnew. generalize (page_step path [] n page) as new.
      induction new as [|x new IHnew]; intros Hnew; [constructor|].
      apply Forall_cons in Hnew as [Hx Hnew].
      constructor; [by apply IHnew|].
      eapply Forall_impl; [exact Hnew|]. intros y Hy. simpl in Hx, Hy. lia.
Qed.

(** X2. The candidates of a document come in the order of its pages: a
    candidate never stands before a candidate of an earlier page. *)
Theorem headings_in_page_order (path : string) (doc : Doc) i j a b :
  i < j ->
  headings_of_doc path doc !! i = Some a ->
  headings_of_doc path doc !! j = Some b ->
  (page_number a <= page_number b)%Z.
Proof.
  intros Hij Hi Hj.
  assert (Hs : StronglySorted (fun a b => (page_number a <= page_number b)%Z)
                 (headings_of_doc path doc)).
  { eapply sublist_StronglySorted; [apply unique_sections_sublist|].
    apply pages_loop_page_order; constructor. }
  exact (StronglySorted_lookup _ _ i j a b Hs Hij Hi Hj).
Qed.

Lemma headings_in_page_order_witness :
  (page_number (candidate "Annual Report" 0 "a.pdf")
   <= page_number (candidate "Annual Report" 1 "a.pdf"))%Z.
Proof.
  apply (headings_in_page_order "a.pdf" [report_page; report_page] 0 2);
    [lia | vm_compute; reflexivity | vm_compute; reflexivity].
Defined.

(** X3. On a page other than the first, with a positive span size, for
    which the classification pass gave a candidate, the fallback adds
    nothing: the candidates of the page are those of the classification
    pass. *)
Theorem fallback_skipped_when_page_has_heading
    (path : string) (doc : Doc) (i : nat) (page : Page) (first : float)
    (rest : list float) :
  doc !! i = Some page ->
  page_font_sizes page = first :: rest ->
  let headings :=
    classify_lines path i (PyFloat.median (first :: rest)) (PyFloat.max first rest)
      (page_lines page) [] in
  i <> 0 ->
  headings <> [] ->
  filter (fun s => page_number s = (Z.of_nat i + 1)%Z) (raw_sections path doc)
  = headings.
Proof.
  intros Hi Hsizes headings Hpos Hsome.
  rewrite (raw_sections_page path doc i page Hi).
  unfold page_step. rewrite Hsizes. fold headings. unfold fallback.
  rewrite (filter_on_page_all i headings) by apply classify_lines_on_page.
  destruct (Nat.eqb_spec i 0) as [|_]; [done|].
  destruct headings; [done|]. reflexivity.
Qed.

Lemma fallback_skipped_when_page_has_heading_witness :
  filter (fun s => page_number s = (Z.of_nat 1 + 1)%Z)
    (raw_sections "a.pdf" [report_page; report_page])
  = classify_lines "a.pdf" 1 (PyFloat.median [12%float]) (PyFloat.max 12 [])
      (page_lines report_page) [].
Proof.
  apply (fallback_skipped_when_page_has_heading "a.pdf" [report_page; report_page] 1
           report_page 12%float []);
    [reflexivity | vm_compute; reflexivity | lia | vm_compute; discriminate].
Defined.

(** *** Removal of repeated keys, again *)

Lemma unique_sections_distinct seen secs :
  NoDup (section_key <$> secs) ->
  (forall s, s ∈ secs -> section_key s ∉ seen) ->
  unique_sections seen secs = secs.
Proof.
  revert seen. induction secs as [|x secs IH]; intros seen Hnd Hfresh; [done|].
  cbn [unique_sections]. rewrite fmap_cons in Hnd.
  apply NoDup_cons in Hnd as [Hx Hnd].
  rewrite decide_False by (apply Hfresh; by left).
  f_equal. apply IH; [done|].
  intros s Hs Hin. apply elem_of_union in Hin as [Hin|Hin].
  - apply elem_of_singleton in Hin. apply Hx. rewrite <- Hin.
    by apply list_elem_of_fmap_2.
  - apply (Hfresh s); [by right|done].
Qed.

(** X4. A list of candidates whose keys are all different goes through the
    removal of repeated keys unchanged; so removing repeated keys from the
    list returned for a document changes nothing. *)
Theorem unique_sections_idempotent :
  (forall secs, NoDup (section_key <$> secs) -> unique_sections ∅ secs = secs)
  /\ (forall path doc,
        unique_sections ∅ (headings_of_doc path doc) = headings_of_doc path doc).
Proof.
  assert (H : forall secs, NoDup (section_key <$> secs) -> unique_sections ∅ secs = secs).
  { intros secs Hnd. apply unique_sections_distinct; [done|].
    intros s _ Hin. by apply not_elem_of_empty in Hin. }
  split; [exact H|].
  intros path doc. apply H, unique_sections_NoDup.
Qed.

(** ** SectionRanker: what is kept *)

Lemma top_step_count (titles : gset string) st (item : SectionCandidate * float) :
  count_invariant titles st ->
  count_invariant ({[normalize_title (section_title item.1)]} ∪ titles)
    (top_step st item).
Proof.
  intros (Hsub & Hfull & Hsize & Hlen). unfold top_step.
  destruct (bool_decide_reflect (normalize_title (section_title item.1) ∉ st.1))
    as [Hnew|Hold]; cbn [andb].
  - destruct (Nat.ltb_spec (length st.2) 5) as [Hlt|Hge].
    + unfold count_invariant. cbn [fst snd]. rewrite length_app. cbn [length].
      split; [|split; [|split]].
      * intros t. rewrite !elem_of_union. intros [Ht|Ht]; [by left|].
        right. by apply Hsub.
      * intros _. by rewrite (Hfull Hlt).
      * rewrite size_union by (by apply disjoint_singleton_l).
        rewrite size_singleton. lia.
      * lia.
    + unfold count_invariant. split; [|split; [|split]]; [|lia|done..].
      intros t Ht. apply elem_of_union_r. by apply Hsub.
  - apply dec_stable in Hold.
    unfold count_invariant. split; [|split; [|split]]; [| |done..].
    + intros t Ht. apply elem_of_union_r. by apply Hsub.
    + intros Hlt. rewrite <- (Hfull Hlt). apply leibniz_equiv. intros t.
      rewrite elem_of_union, elem_of_singleton. split; [by right|].
      intros [-> | Ht]; done.
Qed.

Lemma top_fold_count ranked :
  forall titles st,
    count_invariant titles st ->
    count_invariant (title_set ranked.*1 ∪ titles) (fold_left top_step ranked st).
Proof.
  induction ranked as [|item ranked IH]; intros titles st Hst.
  - cbn [fold_left fmap list_fmap]. unfold title_set. cbn [fmap list_fmap list_to_set].
    by rewrite (left_id_L ∅ (∪)).
  - cbn [fold_left].
    pose proof (IH _ _ (top_step_count titles st item Hst)) as H.
    replace (title_set (item :: ranked).*1 ∪ titles)
      with (title_set ranked.*1 ∪ ({[normalize_title (section_title item.1)]} ∪ titles));
      [exact H|].
    unfold title_set. rewrite !fmap_cons, list_to_set_cons.
    apply leibniz_equiv. intros t. rewrite !elem_of_union. tauto.
Qed.

Lemma title_set_Permutation (l1 l2 : list SectionCandidate) :
  l1 ≡ₚ l2 -> title_set l1 = title_set l2.
Proof.
  intros Hp. unfold title_set. apply leibniz_equiv. intros t.
  rewrite !elem_of_list_to_set. by rewrite Hp.
Qed.

Section RankerMore.

Context {Vec : Type}.
Variable embed_text : string -> Vec.
Variable cosine_similarity : Vec -> Vec -> float.
Variable py_str : json -> string.

Lemma top_sections_length (sections : list SectionCandidate) (persona job : json) :
  length (top_sections embed_text cosine_similarity py_str sections persona job)
  = Nat.min 5 (size (title_set sections)).
Proof.
  unfold top_sections.
  pose proof (top_fold_count
                (ranked_candidates embed_text cosine_similarity py_str
                   sections persona job) ∅ (∅, [])) as H.
  rewrite ranked_candidates_fst in H.
  rewrite (title_set_Permutation _ _ (sort_desc_perm _ sections)) in H.
  rewrite (right_id_L ∅ (∪)) in H.
  destruct H as (Hsub & Hfull & Hsize & Hlen).
  { unfold count_invariant. cbn [fst snd length]. rewrite size_empty.
    repeat split; [done|lia]. }
  pose proof (subseteq_size _ _ Hsub) as Hle.
  destruct (decide (length
    (fold_left top_step
       (ranked_candidates embed_text cosine_similarity py_str sections persona job)
       (∅, [])).2 < 5)) as [Hlt|Hge].
  - rewrite <- (Hfull Hlt). lia.
  - lia.
Qed.

(** X5. The ranker returns one section per distinct normalized title, up
    to 5: the number of sections is the smaller of 5 and the number of
    distinct normalized titles among the candidates. *)
Theorem rank_sections_count (sections : list SectionCandidate) (persona job : json) :
  length (rank_sections embed_text cosine_similarity py_str sections persona job)
  = Nat.min 5 (size (title_set sections)).
Proof.
  unfold rank_sections. rewrite length_imap. apply top_sections_length.
Qed.

(** X6. Every section that the ranker returns is one of the candidates: it
    has the title and the page number of a candidate and the base name of
    its path. No candidate gives no section, and one candidate at least
    gives one section at least. *)
Theorem rank_sections_from_candidates
    (sections : list SectionCandidate) (persona job : json) :
  let out := rank_sections embed_text cosine_similarity py_str sections persona job in
  (forall r, r ∈ out ->
     exists sec, sec ∈ sections
       /\ rs_document r = Py.basename (pdf_path sec)
       /\ rs_section_title r = section_title sec
       /\ rs_page_number r = page_number sec)
  /\ (out = [] <-> sections = []).
Proof.
  intros out. split.
  - intros r Hr. unfold out, rank_sections in Hr.
    apply list_elem_of_lookup in Hr as [i Hi].
    rewrite list_lookup_imap in Hi.
    destruct (top_sections _ _ _ _ _ _ !! i) as [sec|] eqn:Hsec; [|done].
    injection Hi as <-. exists sec. split; [|done].
    apply list_elem_of_lookup_2 in Hsec.
    eapply elem_of_sublist in Hsec; [|apply top_sections_sublist].
    by rewrite sort_desc_perm in Hsec.
  - pose proof (top_sections_length sections persona job) as Hcount.
    rewrite <- (length_imap to_ranked) in Hcount.
    fold (rank_sections embed_text cosine_similarity py_str sections persona job)
      in Hcount.
    fold out in Hcount. split.
    + intros Hout. rewrite Hout in Hcount. cbn [length] in Hcount.
      destruct sections as [|sec sections]; [done|].
      assert (Hz : size (title_set (sec :: sections)) = 0) by lia.
      apply size_empty_inv in Hz.
      assert (Hin : normalize_title (section_title sec) ∈ title_set (sec :: sections)).
      { unfold title_set. rewrite fmap_cons, list_to_set_cons.
        apply elem_of_union_l. by apply elem_of_singleton. }
      rewrite Hz in Hin. by apply not_elem_of_empty in Hin.
    + intros ->. by destruct out.
Qed.

Lemma top_sections_head (sections : list SectionCandidate) (persona job : json)
    (best : SectionCandidate) (others : list SectionCandidate) :
  sort_desc (section_score embed_text cosine_similarity
               (query_embedding embed_text py_str persona job)) sections
  = best :: others ->
  exists added,
    top_sections embed_text cosine_similarity py_str sections persona job
    = best :: added.
Proof.
  intros Hsorted. unfold top_sections, ranked_candidates.
  rewrite sort_desc_fmap.
  change (snd ∘ (fun sec => (sec, section_score embed_text cosine_similarity
                                    (query_embedding embed_text py_str persona job) sec)))
    with (section_score embed_text cosine_similarity
            (query_embedding embed_text py_str persona job)).
  rewrite Hsorted. cbn [fmap list_fmap fold_left].
  match goal with
  | |- context [fold_left top_step ?l (top_step ?st ?item)] =>
      destruct (top_fold_sublist l (top_step st item)) as (added & -> & _)
  end.
  exists added. reflexivity.
Qed.

Hypothesis scores_are_numbers : forall u v, is_number (cosine_similarity u v).

(** X7. When there is a candidate, the section of rank 1 is a candidate
    whose score against the persona+job query is at least the score of every
    candidate. *)
Theorem rank_sections_best_first
    (sections : list SectionCandidate) (persona job : json) :
  sections <> [] ->
  let q := query_embedding embed_text py_str persona job in
  let score title := cosine_similarity q (embed_text title) in
  exists r rest,
    rank_sections embed_text cosine_similarity py_str sections persona job = r :: rest
    /\ importance_rank r = 1%Z
    /\ forall sec, sec ∈ sections ->
         PyFloat.ge (score (rs_section_title r)) (score (section_title sec)) = true.
Proof.
  intros Hne q score.
  pose proof (sort_desc_perm (section_score embed_text cosine_similarity q) sections)
    as Hperm.
  pose proof (sort_desc_descending (section_score embed_text cosine_similarity q)
                sections (fun y _ => scores_are_numbers _ _)) as Hdesc.
  destruct (sort_desc (section_score embed_text cosine_similarity q) sections)
    as [|best others] eqn:Hsorted.
  { apply Permutation_nil_l in Hperm. by destruct sections. }
  destruct (top_sections_head sections persona job best others Hsorted)
    as (added & Hkept).
  exists (to_ranked 0 best), (imap (to_ranked ∘ S) added).
  split; [|split; [done|]].
  - unfold rank_sections. by rewrite Hkept.
  - intros sec Hsec. cbn [rs_section_title to_ranked].
    apply FloatFacts.not_lt_ge; [apply scores_are_numbers..|].
    rewrite <- Hperm in Hsec. apply StronglySorted_inv in Hdesc as [_ Hall].
    apply elem_of_cons in Hsec as [-> | Hsec].
    + apply (FloatFacts.eqb_not_gt _ _ (scores_are_numbers _ _)).
    + rewrite Forall_forall in Hall. exact (Hall sec Hsec).
Qed.

End RankerMore.

Lemma rank_sections_best_first_witness :
  let q := query_embedding (fun s => s) (fun _ => "") (JStr "Analyst") (JStr "Read") in
  let score title := sample_cosine q title in
  exists r rest,
    rank_sections (fun s => s) sample_cosine (fun _ => "") sample_candidates
      (JStr "Analyst") (JStr "Read") = r :: rest
    /\ importance_rank r = 1%Z
    /\ forall sec, sec ∈ sample_candidates ->
         PyFloat.ge (score (rs_section_title r)) (score (section_title sec)) = true.
Proof.
  apply (rank_sections_best_first (fun s => s) sample_cosine (fun _ => "")).
  - intros u v. unfold sample_cosine.
    destruct (Py.contains "report" (Py.lower v)); reflexivity.
  - discriminate.
Defined.

(** ** SubsectionExtractor: what the final selection keeps *)

Lemma select_fold_sublist (iter_set : gset string -> list string)
    (paragraphs : list Passage) :
  forall st,
    exists added,
      (fold_left (select_step iter_set) paragraphs st).2
      = st.2 ++ (without_score <$> added)
      /\ added `sublist_of` paragraphs.
Proof.
  induction paragraphs as [|para paragraphs IH]; intros st; cbn [fold_left].
  - exists []. by rewrite app_nil_r.
  - destruct (IH (select_step iter_set st para)) as (added & -> & Hsub).
    unfold select_step.
    destruct (negb _ && _); cbn [snd].
    + exists (para :: added). rewrite fmap_cons, <- app_assoc.
      split; [done|]. by apply sublist_skip.
    + exists added. split; [done|]. by apply sublist_cons.
Qed.

Lemma contains_refl (s : string) : Py.contains s s = true.
Proof.
  assert (H : String.prefix s s = true).
  { induction s as [|c s IH]; [done|]. cbn [String.prefix].
    destruct (ascii_dec c c); [exact IH|done]. }
  destruct s; cbn [Py.contains]; by rewrite H.
Qed.

Section SelectionMore.

Variable iter_set : gset string -> list string.
Hypothesis iter_set_elements : forall X, iter_set X ≡ₚ elements X.

Lemma select_step_first (para : Passage) :
  select_step iter_set (∅, []) para
  = ({[normalize_text (refined_text para)]} ∪ ∅, [without_score para]).
Proof.
  apply (select_step_kept iter_set iter_set_elements (∅, []) para).
  - intros seen_text Hin. by apply not_elem_of_empty in Hin.
  - cbn. lia.
Qed.

(** X8. The passages returned are passages that were collected, without
    their score, in the order of the sorted list: their scores do not
    increase along the list, and the first of them is the passage that the
    sort puts first. *)
Theorem select_passages_by_score (paragraphs : list Passage) :
  (forall p, p ∈ paragraphs -> is_number (similarity_score p)) ->
  exists kept,
    select_passages iter_set paragraphs = without_score <$> kept
    /\ kept `sublist_of` sort_desc similarity_score paragraphs
    /\ (forall p, p ∈ kept -> p ∈ paragraphs)
    /\ (forall i j a b, i < j -> kept !! i = Some a -> kept !! j = Some b ->
          PyFloat.ge (similarity_score a) (similarity_score b) = true)
    /\ head kept = head (sort_desc similarity_score paragraphs).
Proof.
  intros Hnum.
  assert (Hkept : exists kept,
            select_passages iter_set paragraphs = without_score <$> kept
            /\ kept `sublist_of` sort_desc similarity_score paragraphs
            /\ head kept = head (sort_desc similarity_score paragraphs)).
  { unfold select_passages.
    destruct (sort_desc similarity_score paragraphs) as [|best others].
    - by exists [].
    - cbn [fold_left]. rewrite select_step_first.
      destruct (select_fold_sublist iter_set others
                  ({[normalize_text (refined_text best)]} ∪ ∅, [without_score best]))
        as (added & -> & Hsub).
      exists (best :: added). split; [done|]. split; [|done].
      by apply sublist_skip. }
  destruct Hkept as (kept & Hout & Hsub & Hhead).
  exists kept. split; [exact Hout|]. split; [exact Hsub|].
  assert (Hin : forall p, p ∈ kept -> p ∈ paragraphs).
  { intros p Hp. eapply elem_of_sublist in Hp; [|exact Hsub].
    by rewrite sort_desc_perm in Hp. }
  split; [exact Hin|]. split; [|exact Hhead].
  intros i j a b Hij Hi Hj.
  assert (Hs : descending similarity_score kept).
  { eapply sublist_StronglySorted; [exact Hsub|].
    by apply sort_desc_descending. }
  apply FloatFacts.not_lt_ge.
  - apply Hnum, Hin. by eapply list_elem_of_lookup_2.
  - apply Hnum, Hin. by eapply list_elem_of_lookup_2.
  - exact (StronglySorted_lookup _ kept i j a b Hs Hij Hi Hj).
Qed.

(** X9. No text is returned twice: two passages of the returned list whose
    normalized text is longer than 20 characters never have the same
    normalized text. *)
Theorem select_passages_no_repeated_text (paragraphs : list Passage) i j p q :
  i < j ->
  select_passages iter_set paragraphs !! i = Some p ->
  select_passages iter_set paragraphs !! j = Some q ->
  20 < Py.len (normalize_text (fp_refined_text q)) ->
  String.eqb (normalize_text (fp_refined_text p)) (normalize_text (fp_refined_text q))
  = false.
Proof.
  intros Hij Hi Hj Hlong.
  destruct (String.eqb_spec (normalize_text (fp_refined_text p))
              (normalize_text (fp_refined_text q))) as [Heq|]; [exfalso|done].
  pose proof (select_passages_invariant iter_set iter_set_elements paragraphs)
    as (_ & _ & Hsorted).
  pose proof (StronglySorted_lookup _ _ i j p q Hsorted Hij Hi Hj) as Hfresh.
  cbn beta in Hfresh. rewrite Heq in Hfresh.
  unfold near_duplicate in Hfresh.
  apply Nat.ltb_lt in Hlong. rewrite Hlong, contains_refl in Hfresh. discriminate.
Qed.

End SelectionMore.

Lemma select_passages_by_score_witness :
  exists kept,
    select_passages elements caption_passages = without_score <$> kept
    /\ kept `sublist_of` sort_desc similarity_score caption_passages
    /\ (forall p, p ∈ kept -> p ∈ caption_passages)
    /\ (forall i j a b, i < j -> kept !! i = Some a -> kept !! j = Some b ->
          PyFloat.ge (similarity_score a) (similarity_score b) = true)
    /\ head kept = head (sort_desc similarity_score caption_passages).
Proof.
  apply (select_passages_by_score elements).
  - intros X. reflexivity.
  - intros p Hp. unfold caption_passages in Hp.
    apply elem_of_cons in Hp as [-> | Hp]; [reflexivity|].
    apply list_elem_of_singleton in Hp as ->. reflexivity.
Defined.

Lemma select_passages_no_repeated_text_witness :
  String.eqb
    (normalize_text (fp_refined_text
       (without_score (report_passage 2 "The contents of the annual report."))))
    (normalize_text (fp_refined_text
       (without_score (report_passage 1 "An overview of the fiscal year."))))
  = false.
Proof.
  apply (select_passages_no_repeated_text elements (fun X => reflexivity _)
           [report_passage 1 "An overview of the fiscal year.";
            report_passage 2 "The contents of the annual report."] 0 1);
    [lia | vm_compute; reflexivity | vm_compute; reflexivity | vm_compute; lia].
Defined.

(** ** SubsectionExtractor: what the final selection leaves out *)

Section SelectionLeftOut.

Variable iter_set : gset string -> list string.
Hypothesis iter_set_elements : forall X, iter_set X ≡ₚ elements X.

(** Why a passage is not looked at again: it is kept, or it is a
    near-duplicate of a kept passage, or 5 passages are kept. *)
Local Abbreviation settled st p :=
  (without_score p ∈ st.2
   \/ (exists kept, kept ∈ st.2
         /\ near_duplicate (normalize_text (refined_text p))
              (normalize_text (fp_refined_text kept)) = true)
   \/ 5 <= length st.2).

Lemma select_step_grows (st : gset string * list FinalPassage) (para : Passage) :
  exists added, (select_step iter_set st para).2 = st.2 ++ added.
Proof.
  unfold select_step. destruct (negb _ && _); cbn [snd].
  - by eexists.
  - exists []. by rewrite app_nil_r.
Qed.

Lemma select_step_settled_mono st para p :
  settled st p -> settled (select_step iter_set st para) p.
Proof.
  destruct (select_step_grows st para) as [added ->].
  intros [Hin|[(kept & Hin & Hdup)|Hfull]].
  - left. apply elem_of_app. by left.
  - right. left. exists kept. split; [|done]. apply elem_of_app. by left.
  - right. right. rewrite length_app. lia.
Qed.

Lemma select_step_settles st para :
  selection_invariant st -> settled (select_step iter_set st para) para.
Proof.
  intros (Hseen & _ & _). unfold select_step.
  destruct (existsb _ _) eqn:Hdup; cbn [negb andb].
  - right. left. apply existsb_exists in Hdup as (seen_text & Hin & Hdup).
    apply list_elem_of_In in Hin. rewrite iter_set_elements in Hin.
    apply elem_of_elements, Hseen, list_elem_of_fmap in Hin as (kept & -> & Hin).
    by exists kept.
  - destruct (Nat.ltb_spec (length st.2) 5) as [Hlt|Hge]; cbn [snd].
    + left. apply elem_of_app. right. apply list_elem_of_here.
    + right. right. exact Hge.
Qed.

Lemma select_fold_settled_mono paragraphs p :
  forall st, settled st p -> settled (fold_left (select_step iter_set) paragraphs st) p.
Proof.
  induction paragraphs as [|para paragraphs IH]; intros st Hp; [done|].
  cbn [fold_left]. by apply IH, select_step_settled_mono.
Qed.

Lemma select_fold_settles paragraphs p :
  forall st,
    selection_invariant st -> p ∈ paragraphs ->
    settled (fold_left (select_step iter_set) paragraphs st) p.
Proof.
  induction paragraphs as [|para paragraphs IH]; intros st Hst Hp.
  - by apply elem_of_nil in Hp.
  - cbn [fold_left]. apply elem_of_cons in Hp as [-> | Hp].
    + by apply select_fold_settled_mono, select_step_settles.
    + apply IH; [|done]. by apply select_step_invariant.
Qed.

(** X10. When fewer than 5 passages are returned, every collected passage
    that is not returned is a near-duplicate of a returned one: the selection
    leaves out nothing else. *)
Theorem select_passages_leaves_out_duplicates_only
    (paragraphs : list Passage) (p : Passage) :
  length (select_passages iter_set paragraphs) < 5 ->
  p ∈ paragraphs ->
  without_score p ∈ select_passages iter_set paragraphs
  \/ exists kept,
       kept ∈ select_passages iter_set paragraphs
       /\ near_duplicate (normalize_text (refined_text p))
            (normalize_text (fp_refined_text kept)) = true.
Proof.
  unfold select_passages. intros Hlen Hp.
  rewrite <- (sort_desc_perm similarity_score paragraphs) in Hp.
  destruct (select_fold_settles (sort_desc similarity_score paragraphs) p (∅, []))
    as [Hin|[Hdup|Hfull]]; [|done|by left|by right|lia].
  split; [|split]; cbn [fst snd fmap list_fmap].
  - intros t. split; intros H; [by apply not_elem_of_empty in H|].
    by apply elem_of_nil in H.
  - cbn. lia.
  - constructor.
Qed.

End SelectionLeftOut.

Lemma select_passages_leaves_out_duplicates_only_witness :
  without_score (report_passage 2 "An overview of the annual report.")
    ∈ select_passages elements
        [report_passage 1 "The contents of the annual report.";
         report_passage 2 "An overview of the annual report."]
  \/ exists kept,
       kept ∈ select_passages elements
                [report_passage 1 "The contents of the annual report.";
                 report_passage 2 "An overview of the annual report."]
       /\ near_duplicate
            (normalize_text (refined_text (report_passage 2 "An overview of the annual report.")))
            (normalize_text (fp_refined_text kept)) = true.
Proof.
  apply (select_passages_leaves_out_duplicates_only elements
           (fun X => reflexivity (elements X))).
  - vm_compute. lia.
  - vm_compute. apply list_elem_of_further, list_elem_of_here.
Defined.

(** ** Strings: lengths and paths *)

Lemma len_app (a b : string) : Py.len (a ++ b) = Py.len a + Py.len b.
Proof.
  unfold Py.len. induction a as [|c a IH]; [done|].
  simpl. simpl in IH. lia.
Qed.

Lemma len_lstrip_le (s : string) : Py.len (Py.lstrip s) <= Py.len s.
Proof.
  unfold Py.len. induction s as [|c s IH]; [done|].
  cbn [Py.lstrip]. destruct (Py.isspace c); cbn [String.length]; lia.
Qed.

Lemma len_rstrip_le (s : string) : Py.len (Py.rstrip s) <= Py.len s.
Proof.
  unfold Py.len. induction s as [|c s IH]; [done|].
  cbn [Py.rstrip]. destruct (Py.rstrip s) as [|d r].
  - destruct (Py.isspace c); cbn [String.length]; lia.
  - cbn [String.length] in *. lia.
Qed.

Lemma len_strip_le (s : string) : Py.len (Py.strip s) <= Py.len s.
Proof.
  unfold Py.strip. etrans; [apply len_rstrip_le|apply len_lstrip_le].
Qed.

Lemma len_join_le (sep : string) (l : list string) :
  Py.len (Py.join sep l) <= sum_list (Py.len <$> l) + Py.len sep * length l.
Proof.
  unfold Py.join. induction l as [|x l IH]; [cbn; lia|].
  destruct l as [|y l].
  - cbn [String.concat fmap list_fmap sum_list sum_list_with length id].
    unfold Py.len. lia.
  - change (String.concat sep (x :: y :: l))
      with (x ++ sep ++ String.concat sep (y :: l))%string.
    rewrite !len_app.
    cbn [fmap list_fmap sum_list sum_list_with length id] in *.
    unfold Py.len in *. lia.
Qed.

Lemma append_cons (c : ascii) (s t : string) :
  (String c s ++ t)%string = String c (s ++ t)%string.
Proof. reflexivity. Qed.

Lemma append_nil_l (t : string) : ("" ++ t)%string = t.
Proof. reflexivity. Qed.

Lemma string_of_list_ascii_app (l1 l2 : list ascii) :
  string_of_list_ascii (l1 ++ l2)
  = (string_of_list_ascii l1 ++ string_of_list_ascii l2)%string.
Proof.
  induction l1 as [|c l1 IH]; [done|].
  cbn [app string_of_list_ascii]. by rewrite append_cons, IH.
Qed.

Lemma prefix_slash (c : ascii) (r : string) :
  String.prefix "/" (String c r) = Ascii.eqb "/" c.
Proof.
  cbn [String.prefix].
  destruct (ascii_dec "/" c) as [<-|Hne].
  - by destruct r.
  - symmetry. by apply Ascii.eqb_neq.
Qed.

Lemma append_nil_r (s : string) : (s ++ "")%string = s.
Proof. induction s as [|c s IH]; [done|]. by rewrite append_cons, IH. Qed.

Lemma append_assoc (a b c : string) : ((a ++ b) ++ c = a ++ (b ++ c))%string.
Proof.
  induction a as [|x a IH]; [done|]. by rewrite !append_cons, IH.
Qed.

Lemma split_slash_none (name : string) :
  Py.count "/" name = 0 ->
  forall cur,
    Py.split_go "/" 0 cur name = [(string_of_list_ascii (rev cur) ++ name)%string].
Proof.
  induction name as [|c name IH]; intros Hcount cur.
  - cbn [Py.split_go]. by rewrite append_nil_r.
  - cbn [Py.count] in Hcount. cbn [Py.split_go]. rewrite prefix_slash.
    destruct (Ascii.eqb "/" c); [discriminate|].
    rewrite IH by done. f_equal.
    cbn [rev]. rewrite string_of_list_ascii_app. cbn [string_of_list_ascii].
    by rewrite append_assoc, append_cons, append_nil_l.
Qed.

Lemma split_slash_last (name : string) :
  Py.count "/" name = 0 ->
  forall s cur, last (Py.split_go "/" 0 cur (s ++ String "/" name)) = Some name.
Proof.
  intros Hcount. induction s as [|c s IH]; intros cur.
  - rewrite append_nil_l. cbn [Py.split_go]. rewrite prefix_slash.
    cbn [Ascii.eqb Bool.eqb andb String.length Nat.sub].
    by rewrite (split_slash_none name Hcount []).
  - rewrite append_cons. cbn [Py.split_go]. rewrite prefix_slash.
    destruct (Ascii.eqb "/" c).
    + cbn [String.length Nat.sub]. rewrite last_cons. by rewrite IH.
    + apply IH.
Qed.

Lemma endswith_app (c : ascii) (s : string) :
  Py.endswith c s = true -> exists s', s = (s' ++ String c "")%string.
Proof.
  induction s as [|d s IH]; [done|].
  cbn [Py.endswith]. destruct s as [|e s].
  - intros ->%Ascii.eqb_eq. by exists "".
  - intros H. destruct (IH H) as [s' ->]. by exists (String d s').
Qed.

(** The base name of a path made with [os.path.join] from a directory and a
    name without slash is the name. *)
Lemma basename_path_join (root name : string) :
  Py.count "/" name = 0 -> Py.basename (Py.path_join root name) = name.
Proof.
  intros Hcount. unfold Py.basename, Py.path_join, Py.split.
  destruct (String.eqb_spec root "") as [->|_].
  - rewrite (split_slash_none name Hcount []). done.
  - destruct (Py.endswith "/" root) eqn:Hend.
    + apply endswith_app in Hend as [s' ->].
      rewrite append_assoc, append_cons, append_nil_l.
      by rewrite (split_slash_last name Hcount).
    + by rewrite (split_slash_last name Hcount).
Qed.

(** ** SubsectionExtractor: the passages of a section *)

Lemma take_sentences_total (sentences : list string) :
  forall total,
    let kept := take_sentences total sentences in
    Forall (fun s => 1 <= Py.len s) kept
    /\ (kept <> [] -> total + sum_list (Py.len <$> kept) < 500).
Proof.
  induction sentences as [|raw rest IH]; intros total; cbn [take_sentences].
  - split; [constructor|done].
  - destruct (String.eqb_spec (Py.strip raw) "") as [Hempty|Hfull]; cbn [negb andb].
    { split; [constructor|done]. }
    destruct (Nat.ltb_spec (total + Py.len (Py.strip raw)) 500) as [Hlt|Hge].
    2:{ split; [constructor|done]. }
    destruct (IH (total + Py.len (Py.strip raw))) as [Hall Hsum].
    split.
    + constructor; [|exact Hall].
      destruct (Py.strip raw); [done|]. unfold Py.len. cbn. lia.
    + intros _. cbn [fmap list_fmap sum_list sum_list_with id].
      destruct (take_sentences _ rest) as [|s kept]; [cbn; lia|].
      specialize (Hsum ltac:(done)).
      cbn [fmap list_fmap sum_list sum_list_with id] in *. lia.
Qed.

Lemma sum_list_ge_length (l : list string) :
  Forall (fun s => 1 <= Py.len s) l -> length l <= sum_list (Py.len <$> l).
Proof.
  induction 1 as [|s l Hs _ IH]; [done|].
  cbn [length fmap list_fmap sum_list sum_list_with id] in *. lia.
Qed.

Lemma refine_Some (paragraph text : string) :
  refine paragraph = Some text ->
  30 <= Py.len (Py.strip paragraph)
  /\ Py.strip text = text
  /\ 15 < Py.len text < 1000.
Proof.
  unfold refine.
  destruct (Nat.ltb_spec (Py.len (Py.strip paragraph)) 30) as [|Hlong]; [done|].
  pose proof (take_sentences_total
                (Py.split_sentences (Py.strip (Py.collapse_ws paragraph))) 0)
    as [Hall Hsum].
  destruct (take_sentences 0 _) as [|s kept] eqn:Hkept; [done|].
  destruct (Nat.ltb_spec 15 (Py.len (Py.strip (Py.join " " (s :: kept)))))
    as [Hmin|]; [|done].
  intros Heq. apply (inj Some) in Heq. subst text.
  split; [lia|]. split; [apply strip_idemp|]. split; [lia|].
  specialize (Hsum ltac:(done)).
  pose proof (sum_list_ge_length _ Hall).
  pose proof (len_strip_le (Py.join " " (s :: kept))).
  pose proof (len_join_le " " (s :: kept)) as Hjoin.
  change (Py.len " ") with 1 in Hjoin. lia.
Qed.

(** ** SubsectionExtractor: the paragraphs of a page *)

Lemma paragraphs_by_double_newline_Forall (page_text : string) :
  Forall (fun p => Py.strip p = p /\ 20 < Py.len p)
         (paragraphs_by_double_newline page_text).
Proof.
  unfold paragraphs_by_double_newline. apply Forall_forall. intros p Hp.
  apply list_elem_of_filter in Hp as [Hlen Hp].
  apply list_elem_of_fmap in Hp as (raw & -> & _).
  split; [apply strip_idemp|exact Hlen].
Qed.

(** The loop over the lines adds paragraphs at the end of the list, each
    stripped and longer than 30 characters. *)
Lemma line_step_adds (st : list string * list string) (line : string) :
  exists added,
    (line_step st line).1 = st.1 ++ added
    /\ Forall (fun p => Py.strip p = p /\ 30 < Py.len p) added.
Proof.
  unfold line_step.
  destruct (5 <? Py.len line); [|exists []; by rewrite app_nil_r].
  destruct (_ || _); [|exists []; by rewrite app_nil_r].
  destruct (0 <? length _); [|exists []; by rewrite app_nil_r].
  destruct (Nat.ltb_spec 30 (Py.len (Py.strip (Py.join " " (st.2 ++ [line])))))
    as [Hlong|_]; cbn [fst].
  - eexists. split; [done|]. constructor; [|constructor].
    split; [apply strip_idemp|exact Hlong].
  - exists []. by rewrite app_nil_r.
Qed.

Lemma line_fold_adds (lines : list string) :
  forall st,
    exists added,
      (fold_left line_step lines st).1 = st.1 ++ added
      /\ Forall (fun p => Py.strip p = p /\ 30 < Py.len p) added.
Proof.
  induction lines as [|line lines IH]; intros st; cbn [fold_left].
  - exists []. by rewrite app_nil_r.
  - destruct (IH (line_step st line)) as (later & -> & Hlater).
    destruct (line_step_adds st line) as (added & -> & Hadded).
    exists (added ++ later). rewrite app_assoc. split; [done|].
    by apply Forall_app.
Qed.

Lemma paragraphs_by_lines_adds (page_text : string) (paragraphs : list string) :
  exists added,
    paragraphs_by_lines page_text paragraphs = paragraphs ++ added
    /\ Forall (fun p => Py.strip p = p /\ 30 < Py.len p) added.
Proof.
  unfold paragraphs_by_lines.
  destruct (line_fold_adds
              (filter (fun line => line ≠ "")
                 (Py.strip <$> Py.split (String "010" "") page_text))
              (paragraphs, [])) as (added & Hfold & Hadded).
  cbn [fst] in Hfold.
  destruct (fold_left line_step _ (paragraphs, [])) as [ps current].
  cbn [fst snd] in *. subst ps.
  destruct current as [|l current]; [by exists added|].
  destruct (Nat.ltb_spec 30 (Py.len (Py.strip (Py.join " " (l :: current)))))
    as [Hlong|_].
  - exists (added ++ [Py.strip (Py.join " " (l :: current))]).
    rewrite app_assoc. split; [done|].
    apply Forall_app. split; [done|]. constructor; [|constructor].
    split; [apply strip_idemp|exact Hlong].
  - by exists added.
Qed.

(** X11. Every paragraph taken from the text of a page is stripped and
    longer than 20 characters, so the test on the stripped length made
    before a paragraph is refined is a test on its length: a paragraph of
    21 to 29 characters, which the split at double newlines lets through,
    is given no refined text. *)
Theorem page_paragraphs_stripped (page_text : string) :
  Forall (fun p => Py.strip p = p /\ 20 < Py.len p) (page_paragraphs page_text)
  /\ (forall p, p ∈ page_paragraphs page_text -> Py.len p < 30 -> refine p = None).
Proof.
  assert (Hall : Forall (fun p => Py.strip p = p /\ 20 < Py.len p)
                   (page_paragraphs page_text)).
  { unfold page_paragraphs.
    pose proof (paragraphs_by_double_newline_Forall page_text) as Hfirst.
    destruct (length _ <? 2); [|done].
    destruct (paragraphs_by_lines_adds page_text
                (paragraphs_by_double_newline page_text)) as (added & -> & Hadded).
    apply Forall_app. split; [done|].
    eapply Forall_impl; [exact Hadded|]. intros p [Hp Hlen]. split; [done|lia]. }
  split; [exact Hall|].
  intros p Hp Hshort. rewrite Forall_forall in Hall.
  destruct (Hall p Hp) as [Hstrip _].
  unfold refine. rewrite Hstrip.
  by destruct (Nat.ltb_spec (Py.len p) 30); [|lia].
Qed.

(** X12. The paragraphs found by the split at double newlines stay at the
    front of the list: with two of them or more they are the paragraphs of
    the page; with fewer, the paragraphs built from the lines are added
    behind them, each longer than 30 characters, and nothing is removed. *)
Theorem double_newline_paragraphs_kept (page_text : string) :
  let first := paragraphs_by_double_newline page_text in
  (2 <= length first -> page_paragraphs page_text = first)
  /\ exists added,
       page_paragraphs page_text = first ++ added
       /\ Forall (fun p => 30 < Py.len p) added
       /\ (2 <= length first -> added = []).
Proof.
  intros first. unfold page_paragraphs. fold first.
  destruct (Nat.ltb_spec (length first) 2) as [Hfew|Hmany].
  - split; [lia|].
    destruct (paragraphs_by_lines_adds page_text first) as (added & -> & Hadded).
    exists added. split; [done|]. split; [|lia].
    eapply Forall_impl; [exact Hadded|]. by intros p [_ Hlen].
  - split; [done|]. exists []. by rewrite app_nil_r.
Qed.

(** ** SubsectionExtractor: from the ranked sections to the passages *)

Lemma select_passages_elem (iter_set : gset string -> list string)
    (paragraphs : list Passage) (fp : FinalPassage) :
  fp ∈ select_passages iter_set paragraphs ->
  exists p, p ∈ paragraphs /\ fp = without_score p.
Proof.
  unfold select_passages. intros Hfp.
  destruct (select_fold_sublist iter_set (sort_desc similarity_score paragraphs)
              (∅, [])) as (added & Heq & Hsub).
  rewrite Heq in Hfp. cbn [snd app] in Hfp.
  apply list_elem_of_fmap in Hfp as (p & -> & Hp).
  exists p. split; [|done].
  eapply elem_of_sublist in Hp; [|exact Hsub].
  by rewrite sort_desc_perm in Hp.
Qed.

Lemma select_fold_length (iter_set : gset string -> list string)
    (paragraphs : list Passage) :
  forall st,
    length st.2 <= 5 ->
    length (fold_left (select_step iter_set) paragraphs st).2 <= 5.
Proof.
  induction paragraphs as [|para paragraphs IH]; intros st Hst; [done|].
  cbn [fold_left]. apply IH. unfold select_step.
  destruct (negb _); cbn [andb]; [|done].
  destruct (Nat.ltb_spec (length st.2) 5); [|done].
  cbn [snd]. rewrite length_app. cbn [length]. lia.
Qed.

Section SubsectionsMore.

Context {Vec : Type}.
Variable embed_text : string -> Vec.
Variable cosine_similarity : Vec -> Vec -> float.
Variable py_str : json -> string.
Variable iter_set : gset string -> list string.

Lemma section_passages_elem fs q sec p :
  p ∈ section_passages embed_text cosine_similarity fs q sec ->
  exists path doc,
    find_pdf (rs_document sec) (os_walk fs PDFS_DIR) = Some path
    /\ fitz_open fs path = Some doc
    /\ (1 <= rs_page_number sec <= Z.of_nat (length doc))%Z
    /\ document p = Py.basename path
    /\ pg_page_number p = rs_page_number sec
    /\ Py.strip (refined_text p) = refined_text p
    /\ 15 < Py.len (refined_text p) < 1000.
Proof.
  unfold section_passages. intros Hp.
  destruct (find_pdf _ _) as [path|] eqn:Hfind; [|by apply elem_of_nil in Hp].
  destruct (fitz_open fs path) as [doc|] eqn:Hopen; [|by apply elem_of_nil in Hp].
  destruct (Z.ltb_spec (rs_page_number sec - 1) 0) as [|Hlow];
    [by apply elem_of_nil in Hp|].
  destruct (Z.leb_spec (Z.of_nat (length doc)) (rs_page_number sec - 1)) as [|Hhigh];
    [by apply elem_of_nil in Hp|].
  cbn [orb] in Hp.
  destruct (doc !! _) as [[page|]|]; [|by apply elem_of_nil in Hp..].
  apply list_elem_of_fmap in Hp as (text & -> & Htext).
  apply list_elem_of_omap in Htext as (paragraph & _ & Hrefine).
  apply refine_Some in Hrefine as (_ & Hstrip & Hlen).
  exists path, doc. unfold scored.
  cbn [document pg_page_number refined_text].
  split; [done|]. split; [done|]. split; [lia|]. split; [done|].
  split; [lia|]. split; [exact Hstrip|exact Hlen].
Qed.

Lemma all_paragraphs_elem fs q secs p :
  p ∈ all_paragraphs embed_text cosine_similarity fs q secs ->
  exists sec,
    sec ∈ secs /\ p ∈ section_passages embed_text cosine_similarity fs q sec.
Proof.
  induction secs as [|sec secs IH].
  - intros Hp. by apply elem_of_nil in Hp.
  - rewrite all_paragraphs_cons. intros [Hp|Hp]%elem_of_app.
    + exists sec. split; [apply list_elem_of_here|done].
    + destruct (IH Hp) as (sec' & Hin & Hp'). exists sec'.
      split; [by apply list_elem_of_further|done].
Qed.

(** X13. Every passage returned for the ranked sections was read for one of
    them: from the file found for the document of the section, which was
    opened, on the page of the section, which is a page of that file. Its
    document is the base name of the file found (the document of the section
    when that name holds no slash), its page number is the number of the
    section, and its text is stripped and has more than 15 and fewer than
    1000 characters. *)
Theorem subsections_come_from_ranked_sections
    (fs : Node) (ranked_sections : list RankedSection) (persona job : json)
    (fp : FinalPassage) :
  fp ∈ extract_subsections embed_text cosine_similarity py_str iter_set
         fs ranked_sections persona job ->
  exists sec path doc,
    sec ∈ ranked_sections
    /\ find_pdf (rs_document sec) (os_walk fs PDFS_DIR) = Some path
    /\ fitz_open fs path = Some doc
    /\ (1 <= rs_page_number sec <= Z.of_nat (length doc))%Z
    /\ fp_document fp = Py.basename path
    /\ (Py.count "/" (rs_document sec) = 0 -> fp_document fp = rs_document sec)
    /\ fp_page_number fp = rs_page_number sec
    /\ Py.strip (fp_refined_text fp) = fp_refined_text fp
    /\ 15 < Py.len (fp_refined_text fp) < 1000.
Proof.
  unfold extract_subsections. intros Hfp.
  apply select_passages_elem in Hfp as (p & Hp & ->).
  apply all_paragraphs_elem in Hp as (sec & Hsec & Hp).
  apply section_passages_elem in Hp
    as (path & doc & Hfind & Hopen & Hpage & Hdoc & Hnum & Hstrip & Hlen).
  exists sec, path, doc. unfold without_score.
  cbn [fp_document fp_page_number fp_refined_text].
  split; [done|]. split; [done|]. split; [done|]. split; [done|].
  split; [done|]. split; [|done].
  intros Hname. rewrite Hdoc.
  pose proof (find_pdf_first (rs_document sec) (os_walk fs PDFS_DIR)) as Hfirst.
  rewrite Hfind in Hfirst.
  destruct Hfirst as (before & root & files & after & _ & _ & _ & ->).
  by apply basename_path_join.
Qed.

(** X14. A section whose file is found but cannot be opened, or whose page
    number is not the number of a page of the file, adds no passage, and the
    passages returned are those returned for the other sections. *)
Theorem unreadable_section_is_skipped
    (fs : Node) (sec : RankedSection) (persona job : json) (path : string) :
  find_pdf (rs_document sec) (os_walk fs PDFS_DIR) = Some path ->
  (fitz_open fs path = None
   \/ exists doc, fitz_open fs path = Some doc
        /\ ((rs_page_number sec < 1)%Z
            \/ (Z.of_nat (length doc) < rs_page_number sec)%Z)) ->
  (forall q, section_passages embed_text cosine_similarity fs q sec = [])
  /\ (forall before after,
        extract_subsections embed_text cosine_similarity py_str iter_set
          fs (before ++ sec :: after) persona job
        = extract_subsections embed_text cosine_similarity py_str iter_set
            fs (before ++ after) persona job).
Proof.
  intros Hfind Hcase.
  assert (Hskip : forall q, section_passages embed_text cosine_similarity fs q sec = []).
  { intros q. unfold section_passages. rewrite Hfind.
    destruct Hcase as [->|(doc & -> & Hpage)]; [done|].
    destruct (Z.ltb_spec (rs_page_number sec - 1) 0) as [|Hlow]; [done|].
    destruct (Z.leb_spec (Z.of_nat (length doc)) (rs_page_number sec - 1))
      as [|Hhigh]; [done|].
    lia. }
  split; [exact Hskip|].
  intros before after. unfold extract_subsections.
  by rewrite !all_paragraphs_app, all_paragraphs_cons, Hskip.
Qed.

End SubsectionsMore.

Lemma subsections_come_from_ranked_sections_witness :
  exists sec path doc,
    sec ∈ [section_of "x.pdf"]
    /\ find_pdf (rs_document sec) (os_walk two_folders PDFS_DIR) = Some path
    /\ fitz_open two_folders path = Some doc
    /\ (1 <= rs_page_number sec <= Z.of_nat (length doc))%Z
    /\ "x.pdf" = Py.basename path
    /\ (Py.count "/" (rs_document sec) = 0 -> "x.pdf" = rs_document sec)
    /\ 1%Z = rs_page_number sec
    /\ Py.strip first_folder_text = first_folder_text
    /\ 15 < Py.len first_folder_text < 1000.
Proof.
  apply (subsections_come_from_ranked_sections (fun s => s) sample_cosine
           (fun _ => "") elements two_folders [section_of "x.pdf"]
           (JStr "Analyst") (JStr "Read the report")
           {| fp_document := "x.pdf"; fp_page_number := 1;
              fp_refined_text := first_folder_text |}).
  vm_compute. apply list_elem_of_here.
Defined.

Lemma unreadable_section_is_skipped_witness :
  (forall q, section_passages (fun s => s) sample_cosine sample_tree q
               (section_of "broken.pdf") = [])
  /\ (forall before after,
        extract_subsections (fun s => s) sample_cosine (fun _ => "") elements
          sample_tree (before ++ section_of "broken.pdf" :: after)
          (JStr "Analyst") (JStr "Read the report")
        = extract_subsections (fun s => s) sample_cosine (fun _ => "") elements
            sample_tree (before ++ after) (JStr "Analyst") (JStr "Read the report")).
Proof.
  apply (unreadable_section_is_skipped (fun s => s) sample_cosine (fun _ => "")
           elements sample_tree (section_of "broken.pdf")
           (JStr "Analyst") (JStr "Read the report") "pdfs/a/broken.pdf").
  - reflexivity.
  - left. reflexivity.
Defined.

(** ** Paths: a base name holds no slash *)

Lemma count_string_of_list_ascii (l : list ascii) :
  Forall (fun c => c <> "/"%char) l ->
  Py.count "/" (string_of_list_ascii l) = 0.
Proof.
  induction 1 as [|c l Hc _ IH]; [done|].
  cbn [string_of_list_ascii Py.count]. rewrite IH.
  assert (Ascii.eqb "/" c = false) as -> by (apply Ascii.eqb_neq; congruence).
  done.
Qed.

Lemma split_slash_parts (s : string) :
  forall cur,
    Forall (fun c => c <> "/"%char) cur ->
    Forall (fun part => Py.count "/" part = 0) (Py.split_go "/" 0 cur s).
Proof.
  induction s as [|c s IH]; intros cur Hcur.
  - cbn [Py.split_go]. constructor; [|constructor].
    apply count_string_of_list_ascii. by apply Forall_rev.
  - cbn [Py.split_go]. rewrite prefix_slash.
    destruct (Ascii.eqb_spec "/" c) as [<-|Hne].
    + cbn [String.length Nat.sub]. constructor.
      * apply count_string_of_list_ascii. by apply Forall_rev.
      * by apply IH.
    + apply IH. constructor; [|done]. by intros ->.
Qed.

Lemma basename_no_slash (p : string) : Py.count "/" (Py.basename p) = 0.
Proof.
  unfold Py.basename, Py.split.
  pose proof (split_slash_parts p [] (Forall_nil_2 _)) as Hparts.
  destruct (last (Py.split_go "/" 0 [] p)) as [name|] eqn:Hlast; [|done].
  rewrite Forall_forall in Hparts. apply Hparts.
  rewrite last_lookup in Hlast. by eapply list_elem_of_lookup_2.
Qed.

(** ** The driver: what is written *)

Lemma collect_sections_elem (fs : Node) (pdf_files : list string)
    (s : SectionCandidate) :
  s ∈ collect_sections fs pdf_files ->
  pdf_path s ∈ pdf_files
  /\ exists doc,
       fitz_open fs (pdf_path s) = Some (Some <$> doc)
       /\ s ∈ headings_of_doc (pdf_path s) doc.
Proof.
  induction pdf_files as [|f files IH].
  - intros Hs. by apply elem_of_nil in Hs.
  - rewrite collect_sections_cons. intros [Hs|Hs]%elem_of_app.
    + destruct (extract_headings_and_pages fs f) as [headings|] eqn:Hf;
        [|by apply elem_of_nil in Hs].
      apply extract_returned in Hf as (doc & Hopen & ->).
      assert (Hpath : pdf_path s = f).
      { pose proof (pages_loop_Forall (length doc) f doc 0 [] eq_refl
                      (Forall_nil_2 _)) as Hall.
        rewrite Forall_forall in Hall.
        apply headings_from_raw in Hs as Hraw. by destruct (Hall s Hraw). }
      rewrite Hpath. split; [apply list_elem_of_here|]. by exists doc.
    + destruct (IH Hs) as [Hin Hdoc]. split; [by apply list_elem_of_further|done].
Qed.

Lemma collect_sections_nothing (fs : Node) (pdf_files : list string) :
  Forall (fun pdf_path =>
            match extract_headings_and_pages fs pdf_path with
            | Raised => True
            | Returned headings => headings = []
            end) pdf_files ->
  collect_sections fs pdf_files = [].
Proof.
  induction 1 as [|f files Hf _ IH]; [done|].
  rewrite collect_sections_cons, IH.
  destruct (extract_headings_and_pages fs f); [by rewrite Hf|done].
Qed.

Lemma title_set_nonempty (sections : list SectionCandidate) :
  sections <> [] -> 1 <= size (title_set sections).
Proof.
  destruct sections as [|sec sections]; [done|]. intros _.
  destruct (size (title_set (sec :: sections))) eqn:Hsize; [|lia].
  apply size_empty_inv in Hsize.
  assert (Hin : normalize_title (section_title sec) ∈ title_set (sec :: sections)).
  { unfold title_set. rewrite fmap_cons, list_to_set_cons.
    apply elem_of_union_l. by apply elem_of_singleton. }
  rewrite Hsize in Hin. by apply not_elem_of_empty in Hin.
Qed.

Section DriverMore.

Context {Vec : Type}.
Variable embed_text : string -> Vec.
Variable cosine_similarity : Vec -> Vec -> float.
Variable py_str : json -> string.
Variable iter_set : gset string -> list string.
Variable now : string -> string.

Local Abbreviation request fs f :=
  (process_request embed_text cosine_similarity py_str iter_set now fs f).
Local Abbreviation written fs files :=
  (process_files embed_text cosine_similarity py_str iter_set now fs files).
Local Abbreviation ranked_of sections persona job :=
  (rank_sections embed_text cosine_similarity py_str sections persona job).

Lemma rank_sections_elem sections persona job r :
  r ∈ ranked_of sections persona job ->
  exists sec,
    sec ∈ sections
    /\ rs_document r = Py.basename (pdf_path sec)
    /\ rs_page_number r = page_number sec.
Proof.
  unfold rank_sections. intros Hr.
  apply list_elem_of_lookup in Hr as [i Hi].
  rewrite list_lookup_imap in Hi.
  destruct (top_sections _ _ _ _ _ _ !! i) as [sec|] eqn:Hsec; [|done].
  apply (inj Some) in Hi. subst r. exists sec. split; [|done].
  apply list_elem_of_lookup_2 in Hsec.
  eapply elem_of_sublist in Hsec; [|apply top_sections_sublist].
  by rewrite sort_desc_perm in Hsec.
Qed.

Lemma process_request_Some fs persona_file w :
  request fs persona_file = Some w ->
  exists who what,
    let pdf_files :=
      glob_ext fs (Py.path_join PDFS_DIR (Py.splitext_root (Py.basename persona_file)))
        ".pdf" in
    let ranked := ranked_of (collect_sections fs pdf_files) who what in
    collect_sections fs pdf_files <> []
    /\ w = (output_path persona_file,
            {| metadata :=
                 {| input_documents := Py.basename <$> pdf_files;
                    persona := who;
                    job_to_be_done := what;
                    processing_timestamp := now persona_file |};
               extracted_sections := ranked;
               subsection_analysis :=
                 extract_subsections embed_text cosine_similarity py_str iter_set
                   fs ranked who what |}).
Proof.
  unfold process_request.
  destruct (json_load fs persona_file) as [persona_data|]; [|done].
  destruct (read_request py_str persona_data) as [[who what]|]; [|done].
  destruct (negb _); [done|].
  destruct (glob_ext fs _ ".pdf") as [|f files] eqn:Hglob; [done|].
  destruct (collect_sections fs (f :: files)) as [|s secs] eqn:Hsecs; [done|].
  intros Hw. apply (inj Some) in Hw. subst w.
  exists who, what. cbn zeta. split; [done|]. by unfold output_path.
Qed.

(** X15. A file that is written for a request is [output/<prefix>.json].
    It lists the base names of the documents that the glob for the request
    returns, which are the PDF files of the request folder when the name of
    the folder holds no wildcard character; it holds between 1 and 5
    sections, each from one of the listed documents, which is opened and
    read, and on one of its pages; and it holds at most 5 passages, each
    with the document and the page number of one of the sections of the
    file. *)
Theorem written_result_shape (fs : Node) (persona_file path : string)
    (result : PipelineResult) :
  request fs persona_file = Some (path, result) ->
  let file_prefix := Py.splitext_root (Py.basename persona_file) in
  let pdf_folder := Py.path_join PDFS_DIR file_prefix in
  let pdf_files := glob_ext fs pdf_folder ".pdf" in
  path = Py.path_join RESULTS_DIR (file_prefix ++ ".json")
  /\ input_documents (metadata result) = Py.basename <$> pdf_files
  /\ (Py.has_magic pdf_folder = false -> pdf_files = glob_in_dir fs pdf_folder ".pdf")
  /\ 1 <= length (extracted_sections result) <= 5
  /\ (forall r, r ∈ extracted_sections result ->
        exists pdf_path doc,
          pdf_path ∈ pdf_files
          /\ rs_document r = Py.basename pdf_path
          /\ rs_document r ∈ input_documents (metadata result)
          /\ fitz_open fs pdf_path = Some (Some <$> doc)
          /\ (1 <= rs_page_number r <= Z.of_nat (length doc))%Z)
  /\ length (subsection_analysis result) <= 5
  /\ (forall fp, fp ∈ subsection_analysis result ->
        exists r,
          r ∈ extracted_sections result
          /\ fp_document fp = rs_document r
          /\ fp_page_number fp = rs_page_number r).
Proof.
  intros Hw file_prefix pdf_folder pdf_files.
  apply process_request_Some in Hw as (who & what & Hsecs & Hw).
  cbn zeta in Hsecs, Hw. fold file_prefix in Hsecs, Hw.
  fold pdf_folder in Hsecs, Hw. fold pdf_files in Hsecs, Hw.
  apply (inj2 pair) in Hw as [-> ->].
  cbn [metadata input_documents extracted_sections subsection_analysis].
  assert (Hranked : forall r,
            r ∈ ranked_of (collect_sections fs pdf_files) who what ->
            exists pdf_path doc,
              pdf_path ∈ pdf_files
              /\ rs_document r = Py.basename pdf_path
              /\ rs_document r ∈ Py.basename <$> pdf_files
              /\ fitz_open fs pdf_path = Some (Some <$> doc)
              /\ (1 <= rs_page_number r <= Z.of_nat (length doc))%Z).
  { intros r Hr.
    apply rank_sections_elem in Hr as (sec & Hsec & Hdoc & Hpage).
    apply collect_sections_elem in Hsec as (Hin & doc & Hopen & Hhead).
    exists (pdf_path sec), doc.
    split; [done|]. split; [done|].
    split; [rewrite Hdoc; apply list_elem_of_fmap; by exists (pdf_path sec)|].
    split; [done|]. rewrite Hpage.
    apply headings_from_raw in Hhead.
    pose proof (pages_loop_Forall (length doc) (pdf_path sec) doc 0 []
                  eq_refl (Forall_nil_2 _)) as Hall.
    rewrite Forall_forall in Hall. by destruct (Hall sec Hhead) as (_ & Hnum & _). }
  split; [done|]. split; [done|]. split.
  { intros Hplain. unfold pdf_files, glob_ext. by rewrite Hplain. }
  split.
  { unfold rank_sections. rewrite length_imap, top_sections_length.
    pose proof (title_set_nonempty _ Hsecs). lia. }
  split; [exact Hranked|]. split.
  { unfold extract_subsections, select_passages.
    apply select_fold_length. cbn. lia. }
  intros fp Hfp. unfold extract_subsections in Hfp.
  apply select_passages_elem in Hfp as (p & Hp & ->).
  apply all_paragraphs_elem in Hp as (r & Hr & Hp).
  apply section_passages_elem in Hp
    as (found & doc & Hfind & _ & _ & Hdoc & Hnum & _).
  exists r. unfold without_score. cbn [fp_document fp_page_number].
  split; [done|]. split; [|done].
  rewrite Hdoc.
  pose proof (find_pdf_first (rs_document r) (os_walk fs PDFS_DIR)) as Hfirst.
  rewrite Hfind in Hfirst.
  destruct Hfirst as (before & root & files & after & _ & _ & _ & ->).
  apply basename_path_join.
  destruct (Hranked r Hr) as (pdf_path & _ & _ & -> & _).
  apply basename_no_slash.
Qed.

(** X16. A run writes at most one file for each request file, named after
    it, and writes the files in the order of the request files. *)
Theorem written_files_follow_requests (fs : Node) :
  (forall persona_files,
     (written fs persona_files).*1 `sublist_of` output_path <$> persona_files)
  /\ (process_round_1b embed_text cosine_similarity py_str iter_set now fs).*1
     `sublist_of` output_path <$> glob_ext fs INPUT_JSON_DIR ".json".
Proof.
  assert (Hfiles : forall persona_files,
            (written fs persona_files).*1 `sublist_of` output_path <$> persona_files).
  { induction persona_files as [|f files IH]; [done|].
    rewrite process_files_cons, fmap_app, fmap_cons.
    destruct (request fs f) as [w|] eqn:Hw.
    - apply process_request_Some in Hw as (who & what & _ & ->).
      cbn [fmap list_fmap fst app]. by apply sublist_skip.
    - cbn [fmap list_fmap app]. by apply sublist_cons. }
  split; [exact Hfiles|]. apply Hfiles.
Qed.

(** X17. A request file that cannot be read as JSON, or that holds a value
    that is not an object, or whose documents give no heading (for each, the
    extraction raises or returns no candidate), has no file written, and the
    files written for the run are those of a run over the other request
    files. *)
Theorem request_without_sections_writes_nothing (fs : Node) (persona_file : string) :
  let file_prefix := Py.splitext_root (Py.basename persona_file) in
  let pdf_files := glob_ext fs (Py.path_join PDFS_DIR file_prefix) ".pdf" in
  json_load fs persona_file = None
  \/ (exists persona_data,
        json_load fs persona_file = Some persona_data
        /\ forall fields, persona_data <> JObj fields)
  \/ Forall (fun pdf_path =>
               match extract_headings_and_pages fs pdf_path with
               | Raised => True
               | Returned headings => headings = []
               end) pdf_files ->
  request fs persona_file = None
  /\ (forall before after,
        written fs (before ++ persona_file :: after) = written fs (before ++ after)).
Proof.
  intros file_prefix pdf_files Hcase.
  assert (Hnone : request fs persona_file = None).
  { unfold process_request.
    destruct Hcase as [->|[(persona_data & -> & Hshape)|Hdocs]]; [done|..].
    - destruct persona_data; try done. by destruct (Hshape fields).
    - destruct (json_load fs persona_file) as [persona_data|]; [|done].
      destruct (read_request py_str persona_data) as [[who what]|]; [|done].
      fold file_prefix. fold pdf_files.
      destruct (negb _); [done|].
      rewrite (collect_sections_nothing fs pdf_files Hdocs).
      by destruct pdf_files. }
  split; [exact Hnone|].
  intros before after.
  by rewrite !process_files_app, process_files_cons, Hnone.
Qed.

(** X18. When the document folder of a request is missing, or the glob for
    its documents returns nothing, which for a folder whose name holds no
    wildcard character is when the folder holds no PDF file, the loop body
    ends without writing a file, and the files written for the run are those
    of a run over the other request files. *)
Theorem request_without_documents_writes_nothing (fs : Node) (persona_file : string) :
  let file_prefix := Py.splitext_root (Py.basename persona_file) in
  let pdf_folder := Py.path_join PDFS_DIR file_prefix in
  path_exists fs pdf_folder = false
  \/ glob_ext fs pdf_folder ".pdf" = []
  \/ (Py.has_magic pdf_folder = false /\ glob_in_dir fs pdf_folder ".pdf" = []) ->
  request fs persona_file = None
  /\ (forall before after,
        written fs (before ++ persona_file :: after) = written fs (before ++ after))
  /\ (forall before after,
        glob_ext fs INPUT_JSON_DIR ".json" = before ++ persona_file :: after ->
        process_round_1b embed_text cosine_similarity py_str iter_set now fs
        = written fs (before ++ after)).
Proof.
  intros file_prefix pdf_folder Hcase.
  assert (Hfiles : path_exists fs pdf_folder = false
                   \/ glob_ext fs pdf_folder ".pdf" = []).
  { destruct Hcase as [Hmissing|[Hempty|[Hplain Hempty]]]; [by left|by right|].
    right. unfold glob_ext. by rewrite Hplain. }
  assert (Hnone : request fs persona_file = None).
  { unfold process_request.
    destruct (json_load fs persona_file) as [persona_data|]; [|done].
    destruct (read_request py_str persona_data) as [[who what]|]; [|done].
    fold file_prefix. fold pdf_folder.
    destruct Hfiles as [Hmissing|Hempty].
    - by rewrite Hmissing.
    - rewrite Hempty. by destruct (negb _). }
  assert (Hskip : forall before after,
            written fs (before ++ persona_file :: after) = written fs (before ++ after)).
  { intros before after.
    by rewrite !process_files_app, process_files_cons, Hnone. }
  split; [exact Hnone|]. split; [exact Hskip|].
  intros before after Hglob. unfold process_round_1b. rewrite Hglob. apply Hskip.
Qed.

End DriverMore.

Lemma written_result_shape_witness :
  "output/a.json" = Py.path_join RESULTS_DIR ("a" ++ ".json")
  /\ input_documents (metadata (report_result "T"))
     = Py.basename <$> glob_ext library_tree (Py.path_join PDFS_DIR "a") ".pdf"
  /\ (Py.has_magic (Py.path_join PDFS_DIR "a") = false ->
      glob_ext library_tree (Py.path_join PDFS_DIR "a") ".pdf"
      = glob_in_dir library_tree (Py.path_join PDFS_DIR "a") ".pdf")
  /\ 1 <= length (extracted_sections (report_result "T")) <= 5
  /\ (forall r, r ∈ extracted_sections (report_result "T") ->
        exists pdf_path doc,
          pdf_path ∈ glob_ext library_tree (Py.path_join PDFS_DIR "a") ".pdf"
          /\ rs_document r = Py.basename pdf_path
          /\ rs_document r ∈ input_documents (metadata (report_result "T"))
          /\ fitz_open library_tree pdf_path = Some (Some <$> doc)
          /\ (1 <= rs_page_number r <= Z.of_nat (length doc))%Z)
  /\ length (subsection_analysis (report_result "T")) <= 5
  /\ (forall fp, fp ∈ subsection_analysis (report_result "T") ->
        exists r,
          r ∈ extracted_sections (report_result "T")
          /\ fp_document fp = rs_document r
          /\ fp_page_number fp = rs_page_number r).
Proof.
  apply (written_result_shape (fun s => s) sample_cosine (fun _ => "") elements
           (fun _ => "T") library_tree "input/a.json" "output/a.json"
           (report_result "T")).
  vm_compute. reflexivity.
Defined.

Lemma request_without_sections_writes_nothing_witness :
  (process_request (fun s => s) sample_cosine (fun _ => "") elements (fun _ => "T")
     list_request_tree "input/a.json" = None
   /\ (forall before after,
         process_files (fun s => s) sample_cosine (fun _ => "") elements (fun _ => "T")
           list_request_tree (before ++ "input/a.json" :: after)
         = process_files (fun s => s) sample_cosine (fun _ => "") elements (fun _ => "T")
             list_request_tree (before ++ after)))
  /\ (process_request (fun s => s) sample_cosine (fun _ => "") elements (fun _ => "T")
        unreadable_tree "input/a.json" = None
      /\ (forall before after,
            process_files (fun s => s) sample_cosine (fun _ => "") elements (fun _ => "T")
              unreadable_tree (before ++ "input/a.json" :: after)
            = process_files (fun s => s) sample_cosine (fun _ => "") elements
                (fun _ => "T") unreadable_tree (before ++ after))).
Proof.
  split.
  - apply (request_without_sections_writes_nothing (fun s => s) sample_cosine
             (fun _ => "") elements (fun _ => "T") list_request_tree "input/a.json").
    right. left. exists (JArr []). split; [reflexivity|]. intros fields. discriminate.
  - apply (request_without_sections_writes_nothing (fun s => s) sample_cosine
             (fun _ => "") elements (fun _ => "T") unreadable_tree "input/a.json").
    right. right.
    replace (glob_ext unreadable_tree
               (Py.path_join PDFS_DIR (Py.splitext_root (Py.basename "input/a.json")))
               ".pdf")
      with ["pdfs/a/broken.pdf"; "pdfs/a/locked.pdf"] by (vm_compute; reflexivity).
    constructor; [vm_compute; exact I|].
    constructor; [vm_compute; exact I|constructor].
Defined.

Lemma request_without_documents_writes_nothing_witness :
  (process_request (fun s => s) sample_cosine (fun _ => "") elements (fun _ => "T")
     library_tree "input/b.json" = None
   /\ (forall before after,
         process_files (fun s => s) sample_cosine (fun _ => "") elements (fun _ => "T")
           library_tree (before ++ "input/b.json" :: after)
         = process_files (fun s => s) sample_cosine (fun _ => "") elements (fun _ => "T")
             library_tree (before ++ after))
   /\ (forall before after,
         glob_ext library_tree INPUT_JSON_DIR ".json" = before ++ "input/b.json" :: after ->
         process_round_1b (fun s => s) sample_cosine (fun _ => "") elements (fun _ => "T")
           library_tree
         = process_files (fun s => s) sample_cosine (fun _ => "") elements (fun _ => "T")
             library_tree (before ++ after)))
  /\ (process_request (fun s => s) sample_cosine (fun _ => "") elements (fun _ => "T")
        empty_folder_tree "input/a.json" = None
      /\ (forall before after,
            process_files (fun s => s) sample_cosine (fun _ => "") elements (fun _ => "T")
              empty_folder_tree (before ++ "input/a.json" :: after)
            = process_files (fun s => s) sample_cosine (fun _ => "") elements
                (fun _ => "T") empty_folder_tree (before ++ after))
      /\ (forall before after,
            glob_ext empty_folder_tree INPUT_JSON_DIR ".json"
            = before ++ "input/a.json" :: after ->
            process_round_1b (fun s => s) sample_cosine (fun _ => "") elements
              (fun _ => "T") empty_folder_tree
            = process_files (fun s => s) sample_cosine (fun _ => "") elements
                (fun _ => "T") empty_folder_tree (before ++ after))).
Proof.
  split.
  - apply (request_without_documents_writes_nothing (fun s => s) sample_cosine
             (fun _ => "") elements (fun _ => "T") library_tree "input/b.json").
    left. vm_compute. reflexivity.
  - apply (request_without_documents_writes_nothing (fun s => s) sample_cosine
             (fun _ => "") elements (fun _ => "T") empty_folder_tree "input/a.json").
    right. right. split; vm_compute; reflexivity.
Defined.
